(** * AI-TAX: the tax calculator, the multi-document combiner and the
      money normalisation of the extraction step

    Shallow embedding of
      - [TaxCalculator] ([tax_calculator.py]),
      - [combine_multiple_tax_documents] ([app.py]),
      - the post-parse normalisation of [extract_tax_data_with_ai] ([app.py])
        and its loop of attempts,
      - [mask_ssn] ([app.py]) and [mask_ssn_for_display]
        ([irs_form_filler_corrected.py]),
      - [validate_file_comprehensive] and [is_allowed_file] ([app.py]).

    Number model.  Python [int] is [Z].  A Python [float] is modelled by the
    exact rational it denotes ([Q]); arithmetic on floats is exact rational
    arithmetic, so binary64 rounding error, infinities and NaN are outside the
    model.  [round(x, 2)] rounds the exact value to the nearest multiple of
    1/100, ties to the even multiple.  [float] of an [int] raises
    [OverflowError] from 2^1024 - 2^970 on, in absolute value, as in Python.

    Text model.  A Python [str] is a [string]; [len], slices, [lower],
    [strip], [str.isdigit] and the [\d] of [re] are modelled on ASCII text
    ([ascii_text]), where a character is a byte, the white space is the
    ASCII white space and the digits are 0 to 9.  A statement about the
    length, the white space, the digits or a slice of a text takes ASCII
    text as a hypothesis.

    Exceptions are values of [exn]; a raising computation returns [inl e].
    A function that mutates the dictionary it receives returns the final
    dictionary next to its outcome. *)

From Stdlib Require Import QArith Qround Qminmax Lqa ZArith Lia Ascii String.
From stdpp Require Import gmap strings pretty.

Open Scope Q_scope.

(** ** Numbers *)

Module Num.

(** Nearest integer, ties to even. *)
Definition round_half_even (x : Q) : Z :=
  let n := Qfloor x in
  match Qcompare (x - inject_Z n) (1 # 2) with
  | Lt => n
  | Gt => (n + 1)%Z
  | Eq => if Z.even n then n else (n + 1)%Z
  end.

(** [round(x, 2)] *)
Definition round2 (x : Q) : Q := Qred (round_half_even (x * 100) # 100).

End Num.

(** ** Python values *)

Module Py.

(** The values a record can hold (what [json.loads] produces, and what the
    code stores). *)
#[local] Set Warnings "-register-all".
Inductive pyval : Type :=
| VNone
| VBool (b : bool)
| VInt (n : Z)
| VFloat (x : Q)
| VStr (s : string)
| VList (l : list pyval).

(** A [dict] with [str] keys. *)
Abbreviation dict := (gmap string pyval).

(** Why a [ValueError] was raised. *)
Inductive reason : Type :=
| EmptyTaxData
    (* "Tax data cannot be empty" *)
| UnreasonableField (field : string) (float_value : Q)
    (* f"Unreasonably high value for {field}: ..." *)
| UnreasonableTaxable (taxable_income : Q)
    (* f"Unreasonably high taxable income: ..." *)
| BadFloatLiteral
    (* float() on a str that is no number *)
| NoTaxData
    (* "No tax data to combine" *)
| NotAnObject.
    (* "Response is not a JSON object" *)

Inductive exn : Type :=
| ValueError (why : reason)
| TypeError
| AttributeError
| KeyError (key : string)
| OverflowError.
    (* "int too large to convert to float" *)

Definition is_ValueError (e : exn) : bool :=
  match e with ValueError _ => true | _ => false end.

Definition is_TypeError (e : exn) : bool :=
  match e with TypeError => true | _ => false end.

(** [except (ValueError, TypeError)] *)
Definition is_ValueError_or_TypeError (e : exn) : bool :=
  is_ValueError e || is_TypeError e.

(** What the model leaves to the Python runtime. *)
Class Runtime : Type := {
  (** [float(s)] for a [str]; [None] when it raises [ValueError] *)
  float_of_str : string -> option Q;
  (** [str(v)] for a value that is not a [str] *)
  str_of : pyval -> string;
  (** [list(set(l))] for hashable values: the elements of [l] once each,
      in the order the set yields them *)
  list_of_set : list pyval -> list pyval
}.

(** The value of a number ([bool] is a subtype of [int]). *)
Definition num_of (v : pyval) : option Q :=
  match v with
  | VBool b => Some (if b then 1 else 0)
  | VInt n => Some (inject_Z n)
  | VFloat x => Some x
  | _ => None
  end.

(** The least [int] that [float] refuses: the midpoint between the
    greatest binary64 number, 2^1024 - 2^971, and 2^1024. *)
Definition float_overflow_bound : Z := 2 ^ 1024 - 2 ^ 970.

(** [float(n)] raises [OverflowError] for this [int]. *)
Definition too_large_for_float (n : Z) : bool :=
  (float_overflow_bound <=? Z.abs n)%Z.

(** [float(v)] raises [OverflowError]: [v] is an [int] too large. *)
Definition overflows (v : pyval) : bool :=
  match v with
  | VInt n => too_large_for_float n
  | _ => false
  end.

(** [float(v)] *)
Definition py_float `{Runtime} (v : pyval) : exn + Q :=
  match v with
  | VStr s =>
      match float_of_str s with
      | Some x => inr x
      | None => inl (ValueError BadFloatLiteral)
      end
  | VInt n =>
      if too_large_for_float n then inl OverflowError else inr (inject_Z n)
  | _ =>
      match num_of v with
      | Some x => inr x
      | None => inl TypeError
      end
  end.

(** Truth value of [v] ([if v], [not v]). *)
Definition truthy (v : pyval) : bool :=
  match v with
  | VNone => false
  | VBool b => b
  | VInt n => negb (n =? 0)%Z
  | VFloat x => negb (Qeq_bool x 0)
  | VStr s => negb (String.eqb s "")
  | VList l => match l with [] => false | _ => true end
  end.

(** [c.lower()] on an ASCII letter. *)
Definition lower_ascii (c : ascii) : ascii :=
  let n := nat_of_ascii c in
  if (65 <=? n)%nat && (n <=? 90)%nat then ascii_of_nat (n + 32) else c.

(** [s.lower()] *)
Fixpoint lower (s : string) : string :=
  match s with
  | EmptyString => EmptyString
  | String c s => String (lower_ascii c) (lower s)
  end.

(** [v.lower()] *)
Definition py_lower (v : pyval) : exn + string :=
  match v with
  | VStr s => inr (lower s)
  | _ => inl AttributeError
  end.

(** ASCII white space, as [str.strip] sees it. *)
Definition is_space (c : ascii) : bool :=
  let n := nat_of_ascii c in
  ((9 <=? n)%nat && (n <=? 13)%nat) || ((28 <=? n)%nat && (n <=? 32)%nat).

Fixpoint lstrip (s : string) : string :=
  match s with
  | String c s' => if is_space c then lstrip s' else s
  | EmptyString => EmptyString
  end.

Fixpoint rstrip (s : string) : string :=
  match s with
  | String c s' =>
      match rstrip s' with
      | EmptyString => if is_space c then EmptyString else String c EmptyString
      | r => String c r
      end
  | EmptyString => EmptyString
  end.

(** [s.strip()] *)
Definition strip (s : string) : string := rstrip (lstrip s).

(** [s.isascii()]: every character of [s] is below 128.  On such a text a
    byte is a character, and [len], slices, [strip], [lower], [str.isdigit]
    and the [\d] of [re] are exactly as modelled here. *)
Fixpoint ascii_text (s : string) : bool :=
  match s with
  | String c s' => (nat_of_ascii c <? 128)%nat && ascii_text s'
  | EmptyString => true
  end.

(** [v.strip()] *)
Definition py_strip (v : pyval) : exn + string :=
  match v with
  | VStr s => inr (strip s)
  | _ => inl AttributeError
  end.

(** [s.replace(c, '')] for a one-character [c] *)
Fixpoint remove_char (c : ascii) (s : string) : string :=
  match s with
  | String a s' =>
      if Ascii.eqb a c then remove_char c s' else String a (remove_char c s')
  | EmptyString => EmptyString
  end.

(** [''.join(filter(str.isdigit, s))] and [re.sub(r'[^\d]', '', s)], on
    ASCII text: the digits 0 to 9 of [s]. *)
Fixpoint digits_of (s : string) : string :=
  match s with
  | String a s' =>
      let n := nat_of_ascii a in
      if (48 <=? n)%nat && (n <=? 57)%nat then String a (digits_of s')
      else digits_of s'
  | EmptyString => EmptyString
  end.

(** [sep.join(l)] *)
Fixpoint join (sep : string) (l : list string) : string :=
  match l with
  | [] => EmptyString
  | [x] => x
  | x :: l' => (x ++ sep ++ join sep l')%string
  end.

(** [a == b] *)
Fixpoint py_eq (a b : pyval) : bool :=
  match a, b with
  | VNone, VNone => true
  | VStr s, VStr t => String.eqb s t
  | VList l, VList m =>
      (fix all_eq (l m : list pyval) : bool :=
         match l, m with
         | [], [] => true
         | x :: l', y :: m' => py_eq x y && all_eq l' m'
         | _, _ => false
         end) l m
  | _, _ =>
      match num_of a, num_of b with
      | Some x, Some y => Qeq_bool x y
      | _, _ => false
      end
  end.

(** [v in l] *)
Definition py_in (v : pyval) (l : list pyval) : bool :=
  existsb (py_eq v) l.

(** [a > b]; comparing anything but two numbers or two strings raises
    [TypeError] (two lists compare by their first differing elements). *)
Fixpoint py_gt (a b : pyval) : exn + bool :=
  match a, b with
  | VStr s, VStr t => inr (String.ltb t s)
  | VList l, VList m =>
      (fix lex (l m : list pyval) : exn + bool :=
         match l, m with
         | [], _ => inr false
         | _ :: _, [] => inr true
         | x :: l', y :: m' => if py_eq x y then lex l' m' else py_gt x y
         end) l m
  | _, _ =>
      match num_of a, num_of b with
      | Some x, Some y => inr (negb (Qle_bool x y))
      | _, _ => inl TypeError
      end
  end.

(** [max(l, default=dflt)] *)
Fixpoint max_from (best : pyval) (l : list pyval) : exn + pyval :=
  match l with
  | [] => inr best
  | x :: l' =>
      match py_gt x best with
      | inl e => inl e
      | inr true => max_from x l'
      | inr false => max_from best l'
      end
  end.

Definition py_max (l : list pyval) (dflt : pyval) : exn + pyval :=
  match l with
  | [] => inr dflt
  | x :: l' => max_from x l'
  end.

(** Can [v] be put in a [set]? *)
Definition hashable (v : pyval) : bool :=
  match v with VList _ => false | _ => true end.

End Py.

Import Py.

(** ** Code that mutates a dictionary and may raise *)

Module Eff.

(** A computation on one dictionary: the dictionary it leaves behind, and
    either the exception it raised or its value. *)
Definition M (A : Type) : Type := dict -> dict * (exn + A).

Definition ret {A} (a : A) : M A := fun d => (d, inr a).

Definition bind {A B} (m : M A) (k : A -> M B) : M B :=
  fun d =>
    match m d with
    | (d', inr a) => k a d'
    | (d', inl e) => (d', inl e)
    end.

Definition raise {A} (e : exn) : M A := fun d => (d, inl e).

(** A pure step that may raise. *)
Definition lift {A} (r : exn + A) : M A := fun d => (d, r).

(** [try: body / except <catches>: handler] *)
Definition try_except {A} (body : M A) (catches : exn -> bool)
    (handler : exn -> M A) : M A :=
  fun d =>
    match body d with
    | (d', inl e) => if catches e then handler e d' else (d', inl e)
    | r => r
    end.

(** [tax_data.get(field, dflt)] *)
Definition get (field : string) (dflt : pyval) : M pyval :=
  fun d => (d, inr (default dflt (d !! field))).

(** [tax_data[field]] *)
Definition item (field : string) : M pyval :=
  fun d =>
    match d !! field with
    | Some v => (d, inr v)
    | None => (d, inl (KeyError field))
    end.

(** [tax_data[field] = v] *)
Definition set (field : string) (v : pyval) : M unit :=
  fun d => (<[field := v]> d, inr tt).

(** [for x in xs: body(x)] *)
Fixpoint for_each {A} (xs : list A) (body : A -> M unit) : M unit :=
  match xs with
  | [] => ret tt
  | x :: xs => bind (body x) (fun _ => for_each xs body)
  end.

Module Notations.
Notation "x <- m ;; k" := (bind m (fun x => k))
  (at level 100, m at next level, right associativity).
Notation "m ;;; k" := (bind m (fun _ => k))
  (at level 100, right associativity).
End Notations.

End Eff.

(** ** Code that may raise and mutates nothing *)

Module Exc.

Definition bind {A B} (m : exn + A) (k : A -> exn + B) : exn + B :=
  match m with
  | inr a => k a
  | inl e => inl e
  end.

(** The value of [m], seen through [f]. *)
Definition on_value {A B} (f : A -> B) (m : exn + A) : exn + B :=
  match m with
  | inr a => inr (f a)
  | inl e => inl e
  end.

Module Notations.
Notation "x <~ m ;; k" := (bind m (fun x => k))
  (at level 100, m at next level, right associativity).
End Notations.

End Exc.

(** ** tax_calculator.py *)

Module TaxCalculator.

(** A bracket limit: a number or [float('inf')]. *)
Inductive limit : Type :=
| Fin (l : Q)
| Inf.

(** [min(taxable_income, bracket_limit)] *)
Definition min_limit (x : Q) (l : limit) : Q :=
  match l with
  | Fin l => Qmin x l
  | Inf => x
  end.

(** [self.tax_brackets_single] *)
Definition tax_brackets_single : list (limit * Q) :=
  [ (Fin 11000, 0.10);
    (Fin 44725, 0.12);
    (Fin 95375, 0.22);
    (Fin 182050, 0.24);
    (Fin 231250, 0.32);
    (Fin 578125, 0.35);
    (Inf, 0.37) ].

(** [self.standard_deductions] *)
Definition standard_deductions : gmap string Z :=
  list_to_map
    [ ("single"%string, 14600%Z);
      ("married_filing_jointly"%string, 29200%Z);
      ("married_filing_separately"%string, 14600%Z);
      ("head_of_household"%string, 21900%Z) ].

(** The [for bracket_limit, rate in ...] loop of [calculate_federal_tax],
    from the state [(total_tax, previous_bracket)].  The second [break]
    is taken whenever the limit is [float('inf')], so [previous_bracket]
    is only ever assigned a number. *)
Fixpoint bracket_loop (brackets : list (limit * Q))
    (taxable_income total_tax previous_bracket : Q) : Q :=
  match brackets with
  | [] => total_tax
  | (bracket_limit, rate) :: rest =>
      if Qle_bool taxable_income previous_bracket then total_tax
      else
        let taxable_in_bracket :=
          min_limit taxable_income bracket_limit - previous_bracket in
        let bracket_tax := taxable_in_bracket * rate in
        let total_tax := total_tax + bracket_tax in
        match bracket_limit with
        | Inf => total_tax
        | Fin l =>
            if Qle_bool taxable_income l then total_tax
            else bracket_loop rest taxable_income total_tax l
        end
  end.

(** The successive values of [bracket_tax] in that loop (the amounts the
    loop adds to [total_tax] and writes to the debug log). *)
Fixpoint bracket_taxes (brackets : list (limit * Q))
    (taxable_income previous_bracket : Q) : list Q :=
  match brackets with
  | [] => []
  | (bracket_limit, rate) :: rest =>
      if Qle_bool taxable_income previous_bracket then []
      else
        let bracket_tax :=
          (min_limit taxable_income bracket_limit - previous_bracket) * rate in
        bracket_tax ::
        match bracket_limit with
        | Inf => []
        | Fin l =>
            if Qle_bool taxable_income l then []
            else bracket_taxes rest taxable_income l
        end
  end.

(** The [try] block of [calculate_federal_tax]. *)
Definition calculate_federal_tax_try (taxable_income : Q) : exn + Q :=
  if Qle_bool taxable_income 0 then inr 0
  else if negb (Qle_bool taxable_income 100000000)
  then inl (ValueError (UnreasonableTaxable taxable_income))
  else inr (Num.round2 (bracket_loop tax_brackets_single taxable_income 0 0)).

(** [calculate_federal_tax]: [except Exception] turns every exception of
    the [try] block into the result [0.0]. *)
Definition calculate_federal_tax (taxable_income : Q) : Q :=
  match calculate_federal_tax_try taxable_income with
  | inr tax => tax
  | inl _ => 0
  end.

Import Eff Eff.Notations.

(** [not tax_data], for a dict *)
Definition is_empty (d : dict) : bool :=
  match map_to_list d with [] => true | _ => false end.

Definition monetary_fields : list string :=
  [ "wages"; "interest_income"; "other_income"; "federal_withholding" ]%string.

Section WithRuntime.
Context `{Runtime}.

(** One turn of the [for field in monetary_fields] loop of
    [validate_tax_data].  The [raise ValueError] of the sanity check stands
    inside the [try], whose handler catches [ValueError]. *)
Definition validate_field (field : string) : M unit :=
  value <- get field (VInt 0) ;;
  try_except
    (float_value <- lift (py_float value) ;;
     if negb (Qle_bool 0 float_value) then set field (VInt 0)
     else if negb (Qle_bool float_value 50000000)
     then raise (ValueError (UnreasonableField field float_value))
     else ret tt)
    is_ValueError_or_TypeError
    (fun _ => set field (VInt 0)).

(** [validate_tax_data]; the dictionary it returns is the one it was given,
    updated in place. *)
Definition validate_tax_data : M unit :=
  (fun d => if is_empty d then raise (ValueError EmptyTaxData) d else ret tt d) ;;;
  for_each monetary_fields validate_field ;;;
  status <- get "filing_status" (VStr "single") ;;
  filing_status <- lift (py_lower status) ;;
  match standard_deductions !! filing_status with
  | None => set "filing_status" (VStr "single")
  | Some _ => ret tt
  end.

(** The dictionary [calculate_taxes] returns. *)
Inductive error_report : Type :=
| ValidationError (e : exn)   (* "Tax calculation validation error: ..." *)
| CalculationError (e : exn). (* "Tax calculation error: ..." *)

Record tax_result : Type := {
  error : option error_report;   (* the key is absent when [None] *)
  total_income : Q;
  standard_deduction : Q;
  taxable_income : Q;
  federal_tax : Q;
  federal_withholding : Q;
  refund_or_owed : Q;
  is_refund : bool;
  filing_status : string;
  calculation_success : bool
}.

Definition error_result (r : error_report) : tax_result :=
  {| error := Some r;
     total_income := 0;
     standard_deduction := 14600;
     taxable_income := 0;
     federal_tax := 0;
     federal_withholding := 0;
     refund_or_owed := 0;
     is_refund := false;
     filing_status := "single";
     calculation_success := false |}.

(** [float(tax_data.get(field, 0))] *)
Definition get_float (field : string) : M Q :=
  value <- get field (VInt 0) ;; lift (py_float value).

(** [max(0, x)] *)
Definition max0 (x : Q) : Q := if Qle_bool x 0 then 0 else x.

(** The [try] block of [calculate_taxes]. *)
Definition calculate_taxes_try : M tax_result :=
  validate_tax_data ;;;
  wages <- get_float "wages" ;;
  interest_income <- get_float "interest_income" ;;
  other_income <- get_float "other_income" ;;
  federal_withholding <- get_float "federal_withholding" ;;
  status <- get "filing_status" (VStr "single") ;;
  filing_status <- lift (py_lower status) ;;
  let total_income := wages + interest_income + other_income in
  let total_income :=
    if negb (Qle_bool 0 total_income) then 0 else total_income in
  let standard_deduction :=
    inject_Z (default 14600%Z (standard_deductions !! filing_status)) in
  let taxable_income := max0 (total_income - standard_deduction) in
  let federal_tax := calculate_federal_tax taxable_income in
  let refund_or_owed := federal_withholding - federal_tax in
  ret {| error := None;
         total_income := Num.round2 total_income;
         standard_deduction := standard_deduction;
         taxable_income := Num.round2 taxable_income;
         federal_tax := Num.round2 federal_tax;
         federal_withholding := Num.round2 federal_withholding;
         refund_or_owed := Num.round2 refund_or_owed;
         is_refund := negb (Qle_bool refund_or_owed 0);
         filing_status := filing_status;
         calculation_success := true |}.

(** [calculate_taxes]: the caller's dictionary after the call, and the
    result.  Nothing is raised to the caller. *)
Definition calculate_taxes (tax_data : dict) : dict * tax_result :=
  match calculate_taxes_try tax_data with
  | (d, inr r) => (d, r)
  | (d, inl e) =>
      (d, error_result
            (if is_ValueError e then ValidationError e
             else CalculationError e))
  end.

End WithRuntime.

End TaxCalculator.


(** ** app.py: combine_multiple_tax_documents *)

Module Combiner.

Import Exc Exc.Notations.

(** [data.get(key, dflt)] *)
Definition get (data : dict) (key : string) (dflt : pyval) : pyval :=
  default dflt (data !! key).

(** [len(v.strip())], on ASCII text *)
Definition stripped_length (v : pyval) : exn + nat :=
  s <~ py_strip v ;; inr (String.length s).

(** The search for [primary_taxpayer]: the first record whose name is
    truthy and, stripped, longer than the stripped name of [combined];
    the loop stops there ([break]).  [combined] is the copy of the first
    record and is not updated during the search. *)
Fixpoint find_primary (combined : dict) (all_tax_data : list dict)
    : exn + option dict :=
  match all_tax_data with
  | [] => inr None
  | data :: rest =>
      if truthy (get data "taxpayer_name" VNone) then
        n <~ stripped_length (get data "taxpayer_name" (VStr "")) ;;
        m <~ stripped_length (get combined "taxpayer_name" (VStr "")) ;;
        if (m <? n)%nat then inr (Some data)
        else find_primary combined rest
      else find_primary combined rest
  end.

(** The keys of the [combined.update({...})], with the defaults of the
    [primary_taxpayer.get]. *)
Definition identity_fields : list (string * pyval) :=
  [ ("taxpayer_name", VStr "");
    ("ssn", VStr "");
    ("address", VStr "");
    ("city", VStr "");
    ("state", VStr "");
    ("zip_code", VStr "");
    ("filing_status", VStr "single") ]%string.

Definition take_identity (primary_taxpayer combined : dict) : dict :=
  fold_left
    (fun c '(key, dflt) => <[key := get primary_taxpayer key dflt]> c)
    identity_fields combined.

Definition monetary_fields : list string :=
  [ "wages"; "interest_income"; "dividend_income"; "other_income";
    "federal_withholding"; "state_withholding";
    "social_security_wages"; "medicare_wages" ]%string.

(** The distinct values in first-seen order:
    [for v in vals: if v not in seen: seen.append(v)] *)
Fixpoint distinct_from (seen vals : list pyval) : list pyval :=
  match vals with
  | [] => seen
  | v :: rest =>
      if py_in v seen then distinct_from seen rest
      else distinct_from (seen ++ [v]) rest
  end.

Definition qualities : list string := [ "high"; "medium"; "low" ]%string.

(** [qualities.index(q)] *)
Fixpoint index_of (q : string) (l : list string) : option nat :=
  match l with
  | [] => None
  | x :: l' => if String.eqb x q then Some 0%nat else S <$> index_of q l'
  end.

(** One turn of the quality loop. *)
Definition better_quality (best_quality : string) (quality : pyval) : string :=
  match quality with
  | VStr q =>
      match index_of q qualities, index_of best_quality qualities with
      | Some i, Some j => if (i <? j)%nat then q else best_quality
      | _, _ => best_quality
      end
  | _ => best_quality
  end.

(** The lists [payers] and [eins] after the last loop. *)
Fixpoint payers_and_eins (payers eins : list string) (all_tax_data : list dict)
    : exn + (list string * list string) :=
  match all_tax_data with
  | [] => inr (payers, eins)
  | data :: rest =>
      payer_name <~ py_strip (get data "payer_name" (VStr "")) ;;
      employer_ein <~ py_strip (get data "employer_ein" (VStr "")) ;;
      let payers :=
        if negb (String.eqb payer_name "") && negb (existsb (String.eqb payer_name) payers)
        then payers ++ [payer_name] else payers in
      let eins :=
        if negb (String.eqb employer_ein "") && negb (existsb (String.eqb employer_ein) eins)
        then eins ++ [employer_ein] else eins in
      payers_and_eins payers eins rest
  end.

Section WithRuntime.
Context `{Runtime}.

(** One turn of the inner summing loop:
    [try: total += float(value) if value else 0]
    [except (ValueError, TypeError): continue] *)
Definition add_value (total : pyval) (value : pyval) : exn + pyval :=
  if truthy value then
    match py_float value with
    | inr x => inr (VFloat (default 0 (num_of total) + x))
    | inl e => if is_ValueError_or_TypeError e then inr total else inl e
    end
  else inr total.

(** [total] for one monetary field. *)
Fixpoint sum_field (field : string) (total : pyval) (all_tax_data : list dict)
    : exn + pyval :=
  match all_tax_data with
  | [] => inr total
  | data :: rest =>
      total <~ add_value total (get data field (VInt 0)) ;;
      sum_field field total rest
  end.

(** The [for field in monetary_fields] loop. *)
Fixpoint sum_fields (fields : list string) (all_tax_data : list dict)
    (combined : dict) : exn + dict :=
  match fields with
  | [] => inr combined
  | field :: fields' =>
      total <~ sum_field field (VInt 0) all_tax_data ;;
      sum_fields fields' all_tax_data (<[field := total]> combined)
  end.

Definition combine_multiple_tax_documents (all_tax_data : list dict)
    : exn + dict :=
  match all_tax_data with
  | [] => inl (ValueError NoTaxData)
  | [data] => inr data
  | first :: _ =>
      let combined := first in
      primary_taxpayer <~ find_primary combined all_tax_data ;;
      let combined :=
        match primary_taxpayer with
        | Some p => take_identity p combined
        | None => combined
        end in
      combined <~ sum_fields monetary_fields all_tax_data combined ;;
      let doc_types :=
        distinct_from []
          (map (fun data => get data "document_type" (VStr "Other")) all_tax_data) in
      let combined :=
        <["document_type" :=
            match doc_types with [t] => t | _ => VStr "Multiple" end]> combined in
      let source_files :=
        distinct_from []
          (map (fun data => get data "source_filename" (VStr "Unknown")) all_tax_data) in
      let combined := <["source_files" := VList source_files]> combined in
      let combined :=
        <["documents_processed" := VInt (Z.of_nat (length all_tax_data))]> combined in
      classification <~
        py_max (map (fun data => get data "classification_confidence" (VInt 0))
                    all_tax_data) (VFloat 0.8) ;;
      let combined := <["classification_confidence" := classification]> combined in
      extraction <~
        py_max (map (fun data => get data "extraction_confidence" (VInt 0))
                    all_tax_data) (VFloat 0.8) ;;
      let combined := <["extraction_confidence" := extraction]> combined in
      let best_quality :=
        fold_left better_quality
          (map (fun data => get data "document_quality" (VStr "medium")) all_tax_data)
          "low"%string in
      let combined := <["document_quality" := VStr best_quality]> combined in
      let all_flags :=
        concat (map (fun data =>
                       match get data "validation_flags" (VList []) with
                       | VList flags => flags
                       | _ => []
                       end) all_tax_data) in
      flags <~ (if forallb hashable all_flags then inr (list_of_set all_flags)
                else inl TypeError) ;;
      let combined := <["validation_flags" := VList flags]> combined in
      let combined :=
        <["requires_review" :=
            VBool (existsb (fun data => truthy (get data "requires_review" (VBool false)))
                           all_tax_data)]> combined in
      found <~ payers_and_eins [] [] all_tax_data ;;
      let '(payers, eins) := found in
      let combined := <["payer_name" := VStr (join "; " payers)]> combined in
      let combined := <["employer_ein" := VStr (join "; " eins)]> combined in
      inr combined
  end.

End WithRuntime.

End Combiner.

(** ** app.py: extract_tax_data_with_ai, from the parsed response to
       [return data] *)

Module Normalizer.

Import Eff Eff.Notations.

(** What [json.loads] returned. *)
Inductive parsed : Type :=
| JObject (data : dict)
| JOther (v : pyval).

Definition required_fields : list string :=
  [ "document_type"; "classification_confidence"; "document_quality";
    "taxpayer_name"; "ssn"; "itin"; "filing_status";
    "wages"; "interest_income"; "dividend_income"; "other_income";
    "federal_withholding"; "state_withholding"; "social_security_wages";
    "medicare_wages"; "address"; "city"; "state"; "zip_code";
    "employer_ein"; "payer_name"; "validation_flags";
    "extraction_confidence"; "requires_review" ]%string.

Definition money_fields : list string :=
  [ "wages"; "interest_income"; "dividend_income"; "other_income";
    "federal_withholding"; "state_withholding"; "social_security_wages";
    "medicare_wages" ]%string.

Definition str_fields : list string :=
  [ "document_type"; "document_quality"; "taxpayer_name"; "ssn"; "itin";
    "filing_status"; "address"; "city"; "state"; "zip_code";
    "employer_ein"; "payer_name" ]%string.

Definition filing_statuses : list string :=
  [ "single"; "married_filing_jointly"; "married_filing_separately";
    "head_of_household"; "qualifying_widow" ]%string.

Definition document_types : list string :=
  [ "W-2"; "1099-INT"; "1099-NEC"; "1099-MISC"; "1099-DIV"; "Other" ]%string.

Definition document_qualities : list string :=
  [ "high"; "medium"; "low" ]%string.

Definition state_mapping : gmap string string :=
  list_to_map
    [ ("california", "CA"); ("new york", "NY"); ("texas", "TX");
      ("florida", "FL"); ("illinois", "IL"); ("pennsylvania", "PA");
      ("ohio", "OH"); ("georgia", "GA"); ("north carolina", "NC");
      ("michigan", "MI") ]%string.

(** [field in l], for a list of [str] literals *)
Definition mem (field : string) (l : list string) : bool :=
  existsb (String.eqb field) l.

(** The default stored for a missing field. *)
Definition default_for (field : string) : pyval :=
  if mem field (money_fields ++ ["classification_confidence"; "extraction_confidence"]%string)
  then VFloat 0
  else if mem field ["validation_flags"%string] then VList []
  else if mem field ["requires_review"%string] then VBool false
  else VStr "".

(** [if field not in data: data[field] = <default>] *)
Definition fill_default (field : string) : M unit :=
  fun data =>
    match data !! field with
    | None => set field (default_for field) data
    | Some _ => ret tt data
    end.

(** [value.replace('$', '').replace(',', '').strip()] when [value] is a
    [str] *)
Definition clean_money (value : pyval) : pyval :=
  match value with
  | VStr s => VStr (strip (remove_char "," (remove_char "$" s)))
  | _ => value
  end.

(** A [str] field, read back after the text loop. *)
Definition item_str (field : string) : M string :=
  v <- item field ;;
  match v with
  | VStr s => ret s
  | _ => raise TypeError
  end.

(** [if data[field] not in allowed: data[field] = dflt] *)
Definition check_enum (field : string) (allowed : list string) (dflt : string)
    : M unit :=
  v <- item_str field ;;
  if mem v allowed then ret tt else set field (VStr dflt).

(** The ZIP code written back for the digits [zip_clean]. *)
Definition format_zip (zip_clean : string) : string :=
  let n := String.length zip_clean in
  if (5 <=? n)%nat then
    if (n =? 5)%nat then zip_clean
    else if (9 <=? n)%nat
    then (substring 0 5 zip_clean ++ "-" ++ substring 5 4 zip_clean)%string
    else zip_clean
  else ""%string.

Section WithRuntime.
Context `{Runtime}.

(** [str(v)] *)
Definition py_str (v : pyval) : string :=
  match v with
  | VStr s => s
  | _ => str_of v
  end.

(** One turn of the [for money_field in ...] loop.  A value above
    10,000,000 is only written to the log. *)
Definition normalize_money (money_field : string) : M unit :=
  try_except
    (value <- item money_field ;;
     x <- lift (py_float (clean_money value)) ;;
     set money_field (VFloat x) ;;;
     if negb (Qle_bool 0 x) then set money_field (VFloat 0)
     else if negb (Qle_bool x 10000000) then ret tt
     else ret tt)
    is_ValueError_or_TypeError
    (fun _ => set money_field (VFloat 0)).

(** [data[str_field] = str(data[str_field]).strip()] *)
Definition normalize_str (str_field : string) : M unit :=
  v <- item str_field ;;
  set str_field (VStr (strip (py_str v))).

Definition normalize_state : M unit :=
  state <- item_str "state" ;;
  if negb (String.eqb state "") && (2 <? String.length state)%nat then
    match state_mapping !! lower state with
    | Some code => set "state" (VStr code)
    | None => ret tt
    end
  else ret tt.

Definition normalize_zip : M unit :=
  zip_code <- item_str "zip_code" ;;
  if negb (String.eqb zip_code "") then
    set "zip_code" (VStr (format_zip (digits_of zip_code)))
  else ret tt.

(** From [if not isinstance(data, dict)] to [return data]; the missing
    fields are filled first, as in the source. *)
Definition normalize (data : dict) : dict * (exn + unit) :=
  (for_each required_fields fill_default ;;;
   for_each money_fields normalize_money ;;;
   for_each str_fields normalize_str ;;;
   check_enum "filing_status" filing_statuses "single" ;;;
   check_enum "document_type" document_types "Other" ;;;
   check_enum "document_quality" document_qualities "medium" ;;;
   normalize_state ;;;
   normalize_zip) data.

Definition normalize_response (response : parsed) : exn + dict :=
  match response with
  | JOther _ => inl (ValueError NotAnObject)
  | JObject data =>
      match normalize data with
      | (data', inr _) => inr data'
      | (_, inl e) => inl e
      end
  end.

End WithRuntime.

End Normalizer.

(** ** The extraction with retries ([extract_tax_data_with_ai], [app.py]) *)

Module Extractor.

Import Normalizer.

(** What [gemini_model.generate_content] and the reading of the text of
    its response do: one of them raises, there is no response, or there is
    a response with this [text]. *)
Inductive reply : Type :=
| Raised
| NoResponse
| Response (text : string).

(** What the function takes from outside: the text of the instructions
    that precede the document in the prompt, the reply of the model to its
    [n]-th call (counted from 0) with a given prompt, and [json.loads]
    ([None] for a [JSONDecodeError]). *)
Class Environment : Type := {
  instructions : string;
  generate_content : string -> nat -> reply;
  json_loads : string -> option parsed
}.

(** Why one attempt failed ([last_error]). *)
Inductive attempt_error : Type :=
| ServiceError                (* the call of the model raised *)
| EmptyResponse               (* ValueError("Empty response from AI") *)
| EmptyAfterCleaning          (* ValueError("Empty response after cleaning") *)
| InvalidJSON                 (* ValueError("Invalid JSON format: ...") *)
| Rejected (e : exn).         (* raised while the parsed value was validated *)

(** The two [ValueError]s that leave the function. *)
Inductive extraction_error : Type :=
| InsufficientText
| ExtractionFailed (max_retries : Z) (last_error : option attempt_error).

(** The calls of the model made so far and the [time.sleep]s, in order. *)
Record world : Type := {
  calls : nat;
  slept : list Z
}.

(** [s.startswith(p)] *)
Definition startswith (p s : string) : bool := String.prefix p s.

(** [s.endswith(p)] *)
Definition endswith (p s : string) : bool :=
  (String.length p <=? String.length s)%nat &&
  String.eqb (substring (String.length s - String.length p) (String.length p) s) p.

(** From [response.text.strip()] to the second [strip()]. *)
Definition clean_response (text : string) : string :=
  let response_text := strip text in
  let response_text :=
    if startswith "```json" response_text
    then substring 7 (String.length response_text - 7) response_text
    else response_text in
  let response_text :=
    if endswith "```" response_text
    then substring 0 (String.length response_text - 3) response_text
    else response_text in
  strip response_text.

(** [not text or len(text.strip()) < 10], on ASCII text *)
Definition insufficient (text : string) : bool :=
  String.eqb text "" || (String.length (strip text) <? 10)%nat.

(** The longest document text that is sent whole: 10000 characters. *)
Definition text_limit : nat := Z.to_nat 10000.

(** [if len(text) > 10000: text = text[:10000] + "... [truncated]"], on
    ASCII text *)
Definition truncate (text : string) : string :=
  if (text_limit <? String.length text)%nat
  then (substring 0 text_limit text ++ "... [truncated]")%string
  else text.

(** [range(max_retries)] *)
Definition range (max_retries : Z) : list Z :=
  map Z.of_nat (seq 0 (Z.to_nat max_retries)).

Section WithEnvironment.
Context `{Runtime} `{Environment}.

(** The body of the [try] of one attempt, at the [call]-th call of the
    model. *)
Definition attempt_once (prompt : string) (call : nat) : attempt_error + dict :=
  match generate_content prompt call with
  | Raised => inl ServiceError
  | NoResponse => inl EmptyResponse
  | Response text =>
      if String.eqb text "" then inl EmptyResponse
      else
        let response_text := clean_response text in
        if String.eqb response_text "" then inl EmptyAfterCleaning
        else
          match json_loads response_text with
          | None => inl InvalidJSON
          | Some data =>
              match normalize_response data with
              | inr data => inr data
              | inl e => inl (Rejected e)
              end
          end
  end.

(** [for attempt in range(max_retries)], over the attempts still to make. *)
Fixpoint retry (prompt : string) (max_retries : Z) (attempts : list Z)
    (last_error : option attempt_error) (w : world)
    : world * (extraction_error + dict) :=
  match attempts with
  | [] => (w, inl (ExtractionFailed max_retries last_error))
  | attempt :: rest =>
      let outcome := attempt_once prompt (calls w) in
      let w := {| calls := S (calls w); slept := slept w |} in
      match outcome with
      | inr data => (w, inr data)
      | inl e =>
          let w :=
            if (attempt <? max_retries - 1)%Z
            then {| calls := calls w; slept := slept w ++ [(2 ^ attempt)%Z] |}
            else w in
          retry prompt max_retries rest (Some e) w
      end
  end.

Definition prompt_for (text : string) : string :=
  (instructions ++ truncate text)%string.

Definition extract_tax_data_with_ai (text : string) (max_retries : Z) (w : world)
    : world * (extraction_error + dict) :=
  if insufficient text then (w, inl InsufficientText)
  else retry (prompt_for text) max_retries (range max_retries) None w.

End WithEnvironment.

End Extractor.

(** ** Masking of the SSN ([mask_ssn], [app.py]; [mask_ssn_for_display],
       [irs_form_filler_corrected.py]) *)

Module Privacy.

Import Normalizer.

(** [s[-4:]] *)
Definition last_four (s : string) : string :=
  substring (String.length s - 4) 4 s.

Section WithRuntime.
Context `{Runtime}.

(** [re.sub(r'[^\d]', '', str(ssn))] *)
Definition ssn_clean (ssn : pyval) : string := digits_of (py_str ssn).

Definition mask_ssn (ssn : pyval) : string :=
  if negb (truthy ssn) then "***-**-****"
  else if (9 <=? String.length (ssn_clean ssn))%nat
  then ("***-**-" ++ last_four (ssn_clean ssn))%string
  else if (4 <=? String.length (ssn_clean ssn))%nat
  then ("***-**-" ++ last_four (ssn_clean ssn))%string
  else "***-**-****".

Definition mask_ssn_for_display (ssn : pyval) : string :=
  if negb (truthy ssn) then "***-**-****"
  else if (9 <=? String.length (ssn_clean ssn))%nat
  then ("XXX**" ++ last_four (ssn_clean ssn))%string
  else if (4 <=? String.length (ssn_clean ssn))%nat
  then ("XXX**" ++ last_four (ssn_clean ssn))%string
  else "XXX**XXXX".

End WithRuntime.

End Privacy.

(** ** Validation of an uploaded file ([validate_file_comprehensive],
       [is_allowed_file], [app.py]) *)

Module FileValidation.

(** The attributes of the file object that the validation reads;
    [content_length] is [None] when the object has no such attribute.  The
    tests on the length and the characters of the name are those of the
    code on an ASCII name. *)
Record file : Type := {
  filename : option string;
  content_type : option string;
  content_length : option Z
}.

Definition ALLOWED_EXTENSIONS : list string := [ "pdf"; "png"; "jpg"; "jpeg" ]%string.

Definition ALLOWED_MIME_TYPES : list string :=
  [ "application/pdf"; "image/png"; "image/jpeg"; "image/jpg" ]%string.

Definition MAX_FILE_SIZES : gmap string Z :=
  list_to_map
    [ ("application/pdf", 16 * 1024 * 1024);
      ("image/png", 10 * 1024 * 1024);
      ("image/jpeg", 10 * 1024 * 1024);
      ("image/jpg", 10 * 1024 * 1024) ]%string%Z.

Definition suspicious_chars : list string :=
  [ ".."; "/"; "\"; "<"; ">"; ":"; String (ascii_of_nat 34) EmptyString; "|"; "?"; "*" ]%string.

(** The second component of the result. *)
Inductive message : Type :=
| NoFileProvided
| FilenameTooLong
| InvalidCharacters
| NoExtension
| InvalidFileType
| InvalidFileFormat (content_type : option string)
| FileTooLarge (megabytes : Z)
| ValidFile.

(** [sub in s] *)
Fixpoint contains (sub s : string) : bool :=
  String.prefix sub s ||
  match s with
  | String _ s' => contains sub s'
  | EmptyString => false
  end.

(** [s.rsplit('.', 1)[1]] for an [s] with a point: what follows the last
    point. *)
Fixpoint after_last_point (s : string) : string :=
  match s with
  | String c s' =>
      if contains "." s' then after_last_point s'
      else if Ascii.eqb c "." then s' else EmptyString
  | EmptyString => EmptyString
  end.

Definition validate_file_comprehensive (f : file) : bool * message :=
  match filename f with
  | None => (false, NoFileProvided)
  | Some name =>
      if String.eqb name "" then (false, NoFileProvided)
      else if (255 <? String.length name)%nat then (false, FilenameTooLong)
      else if existsb (fun char => contains char name) suspicious_chars
      then (false, InvalidCharacters)
      else if negb (contains "." name) then (false, NoExtension)
      else
        let file_ext := lower (after_last_point name) in
        if negb (existsb (String.eqb file_ext) ALLOWED_EXTENSIONS)
        then (false, InvalidFileType)
        else
          let allowed :=
            match content_type f with
            | Some t => existsb (String.eqb t) ALLOWED_MIME_TYPES
            | None => false
            end in
          if negb allowed then (false, InvalidFileFormat (content_type f))
          else
            match content_length f with
            | Some n =>
                if negb (n =? 0)%Z then
                  let max_size :=
                    default (16 * 1024 * 1024)%Z
                            (content_type f ≫= fun t => MAX_FILE_SIZES !! t) in
                  if (max_size <? n)%Z
                  then (false, FileTooLarge (max_size / (1024 * 1024))%Z)
                  else (true, ValidFile)
                else (true, ValidFile)
            | None => (true, ValidFile)
            end
  end.

(** The object built by [is_allowed_file] has no [content_length]. *)
Definition is_allowed_file (name content : option string) : bool :=
  fst (validate_file_comprehensive
         {| filename := name; content_type := content; content_length := None |}).

End FileValidation.

(** ** A runtime for the examples *)

Module ExampleRuntime.

Definition digit_of (c : ascii) : option Z :=
  let n := nat_of_ascii c in
  if (48 <=? n)%nat && (n <=? 57)%nat then Some (Z.of_nat (n - 48)) else None.

(** The leading digits of [s]: their value, their number, and the rest. *)
Fixpoint read_digits (s : string) (acc : Z) (count : nat) : Z * nat * string :=
  match s with
  | String c s' =>
      match digit_of c with
      | Some d => read_digits s' (10 * acc + d)%Z (S count)
      | None => (acc, count, s)
      end
  | EmptyString => (acc, count, EmptyString)
  end.

(** [float(s)] on the decimal numerals without exponent: white space, a
    sign, digits, a point, digits.  Every other text is refused. *)
Definition float_of_decimal (s : string) : option Q :=
  let s := strip s in
  let '(negative, s) :=
    match s with
    | String "-" s' => (true, s')
    | String "+" s' => (false, s')
    | _ => (false, s)
    end in
  let signed (x : Q) := if negative then - x else x in
  let '(int_part, int_digits, rest) := read_digits s 0 0 in
  match rest with
  | EmptyString =>
      if (int_digits =? 0)%nat then None else Some (signed (inject_Z int_part))
  | String "." rest' =>
      let '(frac_part, frac_digits, rest'') := read_digits rest' 0 0 in
      match rest'' with
      | EmptyString =>
          if (int_digits + frac_digits =? 0)%nat then None
          else Some (signed (Qred (inject_Z int_part
                                   + inject_Z frac_part / inject_Z (10 ^ Z.of_nat frac_digits))))
      | _ => None
      end
  | _ => None
  end.

(** [str(v)] for [None], a [bool] and an [int]; the examples keep other
    values out of the text fields. *)
Definition str_of_scalar (v : pyval) : string :=
  match v with
  | VNone => "None"
  | VBool true => "True"
  | VBool false => "False"
  | VInt n => pretty n
  | _ => ""
  end.

(** A set that yields its elements in first-seen order. *)
Fixpoint first_seen (seen l : list pyval) : list pyval :=
  match l with
  | [] => seen
  | v :: l' => if py_in v seen then first_seen seen l' else first_seen (seen ++ [v]) l'
  end.

#[export] Instance example_runtime : Runtime :=
  {| float_of_str := float_of_decimal;
     str_of := str_of_scalar;
     list_of_set := first_seen [] |}.

End ExampleRuntime.

(** ** Vocabulary of the statements about the bracket table *)

Module BracketSpec.

Import TaxCalculator.

(** A bracket table as the loop expects it from [previous_bracket] on:
    ascending limits and non-negative rates. *)
Fixpoint ascending (previous_bracket : Q) (brackets : list (limit * Q)) : Prop :=
  match brackets with
  | [] => True
  | (bracket_limit, rate) :: rest =>
      0 <= rate /\
      match bracket_limit with
      | Fin l => previous_bracket <= l /\ ascending l rest
      | Inf => True
      end
  end.

(** No rate of the table exceeds [top]. *)
Definition rates_below (top : Q) (brackets : list (limit * Q)) : Prop :=
  Forall (fun b => snd b <= top) brackets.

Fixpoint Qsum (l : list Q) : Q :=
  match l with
  | [] => 0
  | x :: l' => x + Qsum l'
  end.

(** The limits of the table that are numbers. *)
Fixpoint finite_limits (brackets : list (limit * Q)) : list Q :=
  match brackets with
  | [] => []
  | (Fin l, _) :: rest => l :: finite_limits rest
  | (Inf, _) :: rest => finite_limits rest
  end.

(** The sum, over the bands that lie wholly at or below [income], of the
    width of the band times its marginal rate. *)
Fixpoint full_bands_tax (brackets : list (limit * Q)) (previous_bracket income : Q) : Q :=
  match brackets with
  | (Fin l, rate) :: rest =>
      if Qle_bool l income
      then (l - previous_bracket) * rate + full_bands_tax rest l income
      else 0
  | _ => 0
  end.

(** The tax as the sum, over the brackets, of the rate times the portion
    of the income that falls within the bracket; a bracket without upper
    limit is the last one. *)
Fixpoint marginal_tax (brackets : list (limit * Q)) (previous_bracket income : Q) : Q :=
  match brackets with
  | [] => 0
  | (Fin l, rate) :: rest =>
      rate * Qmax 0 (Qmin income l - previous_bracket) + marginal_tax rest l income
  | (Inf, rate) :: _ => rate * Qmax 0 (income - previous_bracket)
  end.

End BracketSpec.

(** * Properties *)

(** ** Rounding *)

Module NumFacts.

Import Num.

Lemma floor_bounds (x : Q) :
  inject_Z (Qfloor x) <= x /\ x < inject_Z (Qfloor x) + 1.
Proof.
  split; [apply Qfloor_le|].
  pose proof (Qlt_floor x) as H. rewrite inject_Z_plus in H. exact H.
Qed.

Lemma round_half_even_near (x : Q) :
  x - (1 # 2) <= inject_Z (round_half_even x) /\
  inject_Z (round_half_even x) <= x + (1 # 2).
Proof.
  unfold round_half_even. destruct (floor_bounds x) as [Hl Hu].
  destruct (Qcompare_spec (x - inject_Z (Qfloor x)) (1 # 2));
    try destruct (Z.even _); rewrite ?inject_Z_plus;
    change (inject_Z 1) with 1; lra.
Qed.

Lemma round_half_even_comp (x y : Q) :
  x == y -> round_half_even x = round_half_even y.
Proof.
  intros E. unfold round_half_even.
  rewrite (Qfloor_comp _ _ E).
  assert (E' : x - inject_Z (Qfloor y) == y - inject_Z (Qfloor y)) by lra.
  now rewrite (Qcompare_comp _ _ E' (1#2) (1#2) (Qeq_refl _)).
Qed.

Lemma round_half_even_mono (x y : Q) :
  x <= y -> (round_half_even x <= round_half_even y)%Z.
Proof.
  intros Hxy.
  pose proof (Qfloor_resp_le _ _ Hxy) as Hf.
  destruct (Z.eq_dec (Qfloor x) (Qfloor y)) as [Heq|Hne].
  - unfold round_half_even. rewrite Heq.
    destruct (Qcompare_spec (x - inject_Z (Qfloor y)) (1 # 2));
      destruct (Qcompare_spec (y - inject_Z (Qfloor y)) (1 # 2));
      try destruct (Z.even _); try lia; exfalso; lra.
  - assert (Hlt : (Qfloor x + 1 <= Qfloor y)%Z) by lia.
    transitivity (Qfloor x + 1)%Z; [|transitivity (Qfloor y); [exact Hlt|]].
    + unfold round_half_even. destruct (Qcompare _ _); try destruct (Z.even _); lia.
    + unfold round_half_even. destruct (Qcompare _ _); try destruct (Z.even _); lia.
Qed.

Lemma round_half_even_Z (n : Z) : round_half_even (inject_Z n) = n.
Proof.
  unfold round_half_even. rewrite Qfloor_Z.
  destruct (Qcompare_spec (inject_Z n - inject_Z n) (1 # 2));
    [exfalso; lra | reflexivity | exfalso; lra].
Qed.

Lemma round2_eq (x : Q) : round2 x == inject_Z (round_half_even (x * 100)) / 100.
Proof.
  unfold round2. rewrite Qred_correct. rewrite Qmake_Qdiv. reflexivity.
Qed.

Lemma round2_comp (x y : Q) : x == y -> round2 x = round2 y.
Proof.
  intros E. unfold round2. f_equal. f_equal. apply round_half_even_comp. now rewrite E.
Qed.

Lemma round2_mono (x y : Q) : x <= y -> round2 x <= round2 y.
Proof.
  intros Hxy. rewrite !round2_eq.
  assert (H : (round_half_even (x * 100) <= round_half_even (y * 100))%Z).
  { apply round_half_even_mono. lra. }
  rewrite Zle_Qle in H. 
  apply Qmult_le_compat_r with (z := / 100) in H; [exact H | discriminate].
Qed.

Lemma round2_near (x : Q) :
  x - (1 # 200) <= round2 x /\ round2 x <= x + (1 # 200).
Proof.
  rewrite round2_eq. destruct (round_half_even_near (x * 100)) as [Hl Hu].
  set (k := inject_Z _) in *. 
  assert (E : k / 100 == k * (1 # 100)) by (unfold Qdiv; reflexivity).
  rewrite E. lra.
Qed.

Lemma round2_cents (n : Z) (x : Q) : x == inject_Z n / 100 -> round2 x == x.
Proof.
  intros E. rewrite round2_eq.
  assert (E' : x * 100 == inject_Z n) by (rewrite E; field).
  rewrite (round_half_even_comp _ _ E'), round_half_even_Z. now rewrite E.
Qed.

(** Rounding a non-negative amount to cents at most doubles it. *)
Lemma round2_le_double (x : Q) : 0 <= x -> round2 x <= 2 * x.
Proof.
  intros Hx. rewrite round2_eq.
  destruct (round_half_even_near (x * 100)) as [_ Hu].
  set (k := round_half_even (x * 100)) in *.
  assert (E : inject_Z k / 100 == inject_Z k * (1 # 100)) by (unfold Qdiv; reflexivity).
  rewrite E. destruct (Z_le_gt_dec k 0) as [Hk|Hk].
  - rewrite Zle_Qle in Hk. change (inject_Z 0) with 0 in Hk. lra.
  - assert (Hk' : (1 <= k)%Z) by lia.
    rewrite Zle_Qle in Hk'. change (inject_Z 1) with 1 in Hk'. lra.
Qed.

Lemma round2_0 : round2 0 = 0.
Proof. reflexivity. Qed.

Lemma round2_nonneg (x : Q) : 0 <= x -> 0 <= round2 x.
Proof. intros Hx. change 0 with (round2 0) at 1. now apply round2_mono. Qed.

End NumFacts.

(** ** The bracket loop *)

Module BracketFacts.

Import Num NumFacts TaxCalculator BracketSpec.

(** Case analysis on a test [x <= y] of the code. *)
Ltac case_le x y :=
  let E := fresh "E" in
  destruct (Qle_bool x y) eqn:E;
  [ apply Qle_bool_iff in E
  | assert (y < x) by
      (apply Qnot_le_lt; intros ?%Qle_bool_iff; congruence); clear E ].

Lemma min_limit_le (x : Q) (l : limit) : min_limit x l <= x.
Proof. destruct l; simpl; [apply Q.le_min_l | lra]. Qed.

(** The loop adds what [bracket_taxes] lists. *)
Lemma bracket_loop_sum brackets : forall t total prev,
  bracket_loop brackets t total prev == total + Qsum (bracket_taxes brackets t prev).
Proof.
  induction brackets as [|[lim rate] rest IH]; intros t total prev; simpl.
  - lra.
  - destruct (Qle_bool t prev); simpl; [lra|].
    destruct lim as [l|]; simpl; [|lra].
    destruct (Qle_bool t l); simpl; [lra|].
    rewrite IH. lra.
Qed.

(** No bracket contributes a negative amount. *)
Lemma bracket_taxes_nonneg brackets : forall t prev,
  ascending prev brackets -> 0 <= Qsum (bracket_taxes brackets t prev).
Proof.
  induction brackets as [|[lim rate] rest IH]; intros t prev Hasc; simpl.
  - lra.
  - destruct Hasc as [Hr Hl]. case_le t prev; simpl; [lra|].
    destruct lim as [l|]; simpl.
    + destruct Hl as [Hpl Hrest].
      assert (0 <= (Qmin t l - prev) * rate).
      { apply Qmult_le_0_compat; [|exact Hr].
        destruct (Q.min_spec t l) as [[_ ->]|[_ ->]]; lra. }
      case_le t l; simpl; [lra|].
      specialize (IH t l Hrest). lra.
    + assert (0 <= (t - prev) * rate) by (apply Qmult_le_0_compat; lra).
      lra.
Qed.

(** The amounts added grow with the taxable income. *)
Lemma bracket_taxes_mono brackets : forall a b prev,
  ascending prev brackets -> a <= b ->
  Qsum (bracket_taxes brackets a prev) <= Qsum (bracket_taxes brackets b prev).
Proof.
  induction brackets as [|[lim rate] rest IH]; intros a b prev Hasc Hab; simpl.
  - lra.
  - pose proof (bracket_taxes_nonneg ((lim, rate) :: rest) b prev Hasc) as Hge.
    simpl in Hge. destruct Hasc as [Hr Hl].
    case_le a prev; [exact Hge|].
    case_le b prev; [lra|]. clear Hge.
    destruct lim as [l|]; simpl.
    + destruct Hl as [Hpl Hrest].
      case_le a l; simpl.
      * rewrite (Q.min_l a l) by assumption.
        case_le b l; simpl.
        -- rewrite (Q.min_l b l) by assumption.
           assert ((a - prev) * rate <= (b - prev) * rate)
             by (apply Qmult_le_compat_r; lra).
           lra.
        -- rewrite (Q.min_r b l) by lra.
           pose proof (bracket_taxes_nonneg rest b l Hrest).
           assert ((a - prev) * rate <= (l - prev) * rate)
             by (apply Qmult_le_compat_r; lra).
           lra.
      * case_le b l; [lra|]. simpl.
        rewrite (Q.min_r a l), (Q.min_r b l) by lra.
        specialize (IH a b l Hrest Hab). lra.
    + assert ((a - prev) * rate <= (b - prev) * rate)
        by (apply Qmult_le_compat_r; lra).
      lra.
Qed.

(** Taxing everything above [previous_bracket] at the top rate is an
    upper bound. *)
Lemma bracket_taxes_le_top (top : Q) brackets : forall t prev,
  0 <= top -> ascending prev brackets -> rates_below top brackets -> prev <= t ->
  Qsum (bracket_taxes brackets t prev) <= top * (t - prev).
Proof.
  induction brackets as [|[lim rate] rest IH]; intros t prev H0 Hasc Htop Hpt; simpl.
  - nra.
  - apply Forall_cons in Htop as [Hrate Htop]. simpl in Hrate.
    destruct Hasc as [Hr Hl].
    case_le t prev; simpl; [nra|].
    destruct lim as [l|]; simpl.
    + destruct Hl as [Hpl Hrest].
      case_le t l; simpl.
      * rewrite (Q.min_l t l) by assumption. nra.
      * rewrite (Q.min_r t l) by lra.
        assert (Hl : l <= t) by lra.
        specialize (IH t l H0 Hrest Htop Hl). nra.
    + nra.
Qed.

Lemma bracket_loop_ge_total brackets t total prev :
  ascending prev brackets -> total <= bracket_loop brackets t total prev.
Proof.
  intros Hasc. rewrite bracket_loop_sum.
  pose proof (bracket_taxes_nonneg brackets t prev Hasc). lra.
Qed.

Lemma bracket_loop_mono brackets a b total prev :
  ascending prev brackets -> a <= b ->
  bracket_loop brackets a total prev <= bracket_loop brackets b total prev.
Proof.
  intros Hasc Hab. rewrite !bracket_loop_sum.
  pose proof (bracket_taxes_mono brackets a b prev Hasc Hab). lra.
Qed.

(** *** The 2024 single-filer table *)

Lemma single_ascending : ascending 0 tax_brackets_single.
Proof. simpl. repeat split; lra. Qed.

Lemma single_rates_below : rates_below 0.37 tax_brackets_single.
Proof. repeat constructor; simpl; lra. Qed.

(** Outside the accepted range the function answers [0]. *)
Lemma calculate_federal_tax_nonpos (t : Q) : t <= 0 -> calculate_federal_tax t = 0.
Proof.
  intros Ht. unfold calculate_federal_tax, calculate_federal_tax_try.
  apply Qle_bool_iff in Ht. now rewrite Ht.
Qed.

(** Inside it, the rounded result of the loop. *)
Lemma calculate_federal_tax_in_range (t : Q) :
  0 < t -> t <= 100000000 ->
  calculate_federal_tax t = round2 (bracket_loop tax_brackets_single t 0 0).
Proof.
  intros H0 H1. unfold calculate_federal_tax, calculate_federal_tax_try.
  case_le t 0; [lra|].
  apply Qle_bool_iff in H1. now rewrite H1.
Qed.

Lemma calculate_federal_tax_nonneg (t : Q) :
  t <= 100000000 -> 0 <= calculate_federal_tax t.
Proof.
  intros H1. destruct (Qlt_le_dec 0 t) as [H0|H0].
  - rewrite calculate_federal_tax_in_range by assumption.
    apply round2_nonneg, bracket_loop_ge_total, single_ascending.
  - rewrite calculate_federal_tax_nonpos by assumption. lra.
Qed.

End BracketFacts.

(** ** calculate_federal_tax *)

Module FederalTaxProps.

Import Num NumFacts TaxCalculator BracketSpec BracketFacts.

(** A single filer with wages of 64,600 and nothing else. *)
Definition single_64600 : dict :=
  <["wages" := VFloat 64600]> (<["filing_status" := VStr "single"]> ∅).

(** C7.  At a taxable income of 50000 the bracket computation returns
    6307.50: the loop adds 11000 x 0.10 = 1100, (44725 - 11000) x 0.12 = 4047
    and (50000 - 44725) x 0.22 = 1160.50, in this order, and nothing else.
    A single filer reaches that taxable income with 64,600 of income, and
    [calculate_taxes] then reports the same tax. *)
Theorem federal_tax_at_50000 `{Runtime} :
  calculate_federal_tax 50000 == 6307.50 /\
  Forall2 Qeq (bracket_taxes tax_brackets_single 50000 0)
    [11000 * 0.10; (44725 - 11000) * 0.12; (50000 - 44725) * 0.22] /\
  Forall2 Qeq [11000 * 0.10; (44725 - 11000) * 0.12; (50000 - 44725) * 0.22]
    [1100; 4047; 1160.50] /\
  1100 + 4047 + 1160.50 == 6307.50 /\
  taxable_income (snd (calculate_taxes single_64600)) == 50000 /\
  federal_tax (snd (calculate_taxes single_64600)) == 6307.50.
Proof.
  split; [|split; [|split; [|split; [|split]]]].
  - vm_compute. reflexivity.
  - vm_compute. repeat constructor.
  - repeat constructor; lra.
  - lra.
  - vm_compute. reflexivity.
  - vm_compute. reflexivity.
Qed.

(** C8.  Within the accepted range the federal tax is monotone in the
    taxable income, and at every numeric limit of the single-filer table it
    equals the sum, over the bands up to that limit, of the width of the band
    times its marginal rate. *)
Theorem federal_tax_monotone_and_boundaries (a b : Q) :
  0 <= a -> a <= b -> b <= 100000000 ->
  calculate_federal_tax a <= calculate_federal_tax b /\
  Forall (fun L => calculate_federal_tax L == full_bands_tax tax_brackets_single 0 L)
         (finite_limits tax_brackets_single).
Proof.
  intros Ha Hab Hb. split.
  - destruct (Qlt_le_dec 0 a) as [Hpos|Hnonpos].
    + rewrite !calculate_federal_tax_in_range by lra.
      apply round2_mono, bracket_loop_mono; [apply single_ascending | exact Hab].
    + rewrite (calculate_federal_tax_nonpos a) by assumption.
      now apply calculate_federal_tax_nonneg.
  - repeat constructor; vm_compute; reflexivity.
Qed.

Lemma federal_tax_monotone_and_boundaries_witness :
  calculate_federal_tax 50000 <= calculate_federal_tax 60000 /\
  Forall (fun L => calculate_federal_tax L == full_bands_tax tax_brackets_single 0 L)
         (finite_limits tax_brackets_single).
Proof.
  apply (federal_tax_monotone_and_boundaries 50000 60000); lra.
Defined.

(** C10.  For a taxable income [t] between 0 and 100,000,000 the federal
    tax is non-negative and at most 0.37 x [t]. *)
Theorem federal_tax_bounds (t : Q) :
  0 <= t -> t <= 100000000 ->
  0 <= calculate_federal_tax t /\ calculate_federal_tax t <= 0.37 * t.
Proof.
  intros H0 H1. split; [now apply calculate_federal_tax_nonneg|].
  destruct (Qlt_le_dec 0 t) as [Hpos|Hnonpos].
  2:{ rewrite calculate_federal_tax_nonpos by assumption. lra. }
  rewrite calculate_federal_tax_in_range by assumption.
  rewrite (round2_comp _ _ (bracket_loop_sum tax_brackets_single t 0 0)).
  assert (Hrest : ascending 11000 (tl tax_brackets_single))
    by (simpl; repeat split; lra).
  assert (Hrates : rates_below 0.37 (tl tax_brackets_single))
    by (repeat constructor; simpl; lra).
  change tax_brackets_single with ((Fin 11000, 0.10) :: tl tax_brackets_single).
  generalize dependent (tl tax_brackets_single). intros upper Hrest Hrates.
  simpl. case_le t 0; [lra|]. case_le t 11000.
  - (* first bracket: the tax is a tenth of the income *)
    pose proof (Q.min_l t 11000 ltac:(assumption)) as Hmin.
    rewrite (round2_comp _ (0.10 * t)) by (simpl; lra).
    pose proof (round2_le_double (0.10 * t)). lra.
  - (* above: 1100 on the first band, at most the top rate on the rest *)
    pose proof (Q.min_r t 11000 ltac:(lra)) as Hmin.
    pose proof (bracket_taxes_le_top 0.37 upper t 11000
                  ltac:(lra) Hrest Hrates ltac:(lra)) as Htop.
    match goal with |- round2 ?x <= _ => pose proof (proj2 (round2_near x)) as Hr end.
    simpl in Hr |- *. lra.
Qed.

Lemma federal_tax_bounds_witness :
  0 <= calculate_federal_tax 50000 /\ calculate_federal_tax 50000 <= 0.37 * 50000.
Proof.
  apply (federal_tax_bounds 50000); lra.
Defined.

End FederalTaxProps.

(** ** validate_tax_data and calculate_taxes *)

Module CalculateTaxesProps.

Import Num TaxCalculator Eff ExampleRuntime.

(** Wages of 60,000,000 and nothing else. *)
Definition wages_60m : dict := {[ "wages"%string := VFloat 60000000 ]}.

(** Two incomes of 50,000,000 and a third of 20,000. *)
Definition income_100m : dict :=
  <["wages" := VFloat 50000000]>
    (<["interest_income" := VFloat 50000000]>
       (<["other_income" := VFloat 20000]> ∅)).



Section WithRuntime.
Context `{Runtime}.

(** The sanity check of one monetary field never leaves [validate_field]:
    its [ValueError] is caught by the handler of the same [try].  All that
    leaves is the [OverflowError] of an [int] too large for [float]. *)
Lemma validate_field_outcome (field : string) (tax_data : dict) :
  snd (validate_field field tax_data) =
    if overflows (default (VInt 0) (tax_data !! field))
    then inl OverflowError else inr tt.
Proof.
  unfold validate_field, bind, get, try_except, lift, py_float, overflows.
  destruct (default (VInt 0) (tax_data !! field)) as [| |n| |s|]; simpl;
    try destruct (float_of_str s); try destruct (too_large_for_float n); simpl;
    repeat match goal with
           | |- context [Qle_bool ?a ?b] => destruct (Qle_bool a b); simpl
           end; reflexivity.
Qed.

(** A field above the limit is overwritten with [0]. *)
Lemma validate_field_above_limit (field : string) (tax_data : dict) (x : Q) :
  py_float (default (VInt 0) (tax_data !! field)) = inr x ->
  50000000 < x ->
  validate_field field tax_data = (<[field := VInt 0]> tax_data, inr tt).
Proof.
  intros Hx Hbig. unfold validate_field, bind, get, try_except, lift. rewrite Hx.
  assert (E1 : Qle_bool 0 x = true) by (apply Qle_bool_iff; lra).
  assert (E2 : Qle_bool x 50000000 = false).
  { destruct (Qle_bool x 50000000) eqn:E; [|reflexivity].
    apply Qle_bool_iff in E. lra. }
  now rewrite E1, E2.
Qed.


(** C1, at wages of 60,000,000: no error is reported; the wages are
    overwritten with 0 in the caller's dictionary and the computation goes on
    as for no income. *)
Theorem wages_above_limit_are_zeroed :
  calculate_taxes wages_60m =
    ({[ "wages"%string := VInt 0 ]},
     {| error := None;
        total_income := 0;
        standard_deduction := 14600;
        taxable_income := 0;
        federal_tax := 0;
        federal_withholding := 0;
        refund_or_owed := 0;
        is_refund := false;
        filing_status := "single";
        calculation_success := true |}).
Proof. vm_compute. reflexivity. Qed.

(** C2, at a taxable income of 100,005,400: the bracket function raises
    inside its own [try], answers 0, and [calculate_taxes] reports a
    successful computation with a federal tax of 0. *)
Theorem taxable_above_limit_is_taxed_zero :
  calculate_federal_tax_try 100005400
    = inl (ValueError (UnreasonableTaxable 100005400)) /\
  calculate_federal_tax 100005400 = 0 /\
  snd (calculate_taxes income_100m) =
    {| error := None;
       total_income := 100020000;
       standard_deduction := 14600;
       taxable_income := 100005400;
       federal_tax := 0;
       federal_withholding := 0;
       refund_or_owed := 0;
       is_refund := false;
       filing_status := "single";
       calculation_success := true |}.
Proof. split; [|split]; vm_compute; reflexivity. Qed.


End WithRuntime.



End CalculateTaxesProps.

(** ** Reasoning about dictionary-mutating code *)

Module EffLogic.

Import Eff.

(** From a dictionary satisfying [P], [m] raises nothing and ends with a
    value and a dictionary satisfying [Q]. *)
Definition returns {A} (P : dict -> Prop) (m : M A) (Q : A -> dict -> Prop) : Prop :=
  forall d, P d -> exists a d', m d = (d', inr a) /\ Q a d'.

Lemma returns_weaken {A} (P P' : dict -> Prop) (Q Q' : A -> dict -> Prop) (m : M A) :
  returns P m Q ->
  (forall d, P' d -> P d) -> (forall a d, Q a d -> Q' a d) ->
  returns P' m Q'.
Proof.
  intros Hm HP HQ d Hd. destruct (Hm d (HP d Hd)) as (a & d' & E & Hq). eauto.
Qed.

Lemma returns_bind {A B} (P : dict -> Prop) (Q : A -> dict -> Prop)
    (R : B -> dict -> Prop) (m : M A) (k : A -> M B) :
  returns P m Q -> (forall a, returns (Q a) (k a) R) ->
  returns P (bind m k) R.
Proof.
  intros Hm Hk d Hd. destruct (Hm d Hd) as (a & d' & E & Hq).
  destruct (Hk a d' Hq) as (b & d'' & E' & Hr).
  exists b, d''. unfold bind. now rewrite E.
Qed.

(** [m] is a function: two postconditions hold together. *)
Lemma returns_both {A} (P : dict -> Prop) (Q1 Q2 : A -> dict -> Prop) (m : M A) :
  returns P m Q1 -> returns P m Q2 ->
  returns P m (fun a d => Q1 a d /\ Q2 a d).
Proof.
  intros H1 H2 d Hd.
  destruct (H1 d Hd) as (a & d' & E & Hq1), (H2 d Hd) as (a' & d'' & E' & Hq2).
  rewrite E in E'. injection E' as <- <-. eauto.
Qed.

(** A loop whose every turn keeps [I], establishes [G] for its own element
    and keeps the [G] of the other elements. *)
Lemma returns_for_each {A} (I : dict -> Prop) (G : A -> dict -> Prop)
    (body : A -> M unit) (xs : list A) :
  (forall x, In x xs -> returns I (body x) (fun _ d => I d /\ G x d)) ->
  (forall x y, In x xs ->
     returns (fun d => I d /\ G y d) (body x) (fun _ d => G y d)) ->
  returns I (for_each xs body) (fun _ d => I d /\ forall x, In x xs -> G x d).
Proof.
  intros Hown Hkeep.
  enough (Hgen : forall done,
             returns (fun d => I d /\ forall y, In y done -> G y d)
               (for_each xs body)
               (fun _ d => I d /\ forall y, In y (done ++ xs) -> G y d)).
  { intros d Hd. destruct (Hgen [] d) as (a & d' & E & Hi & Hg); [split; [exact Hd|intros ? []]|].
    eauto. }
  induction xs as [|x xs IH]; intros done d [Hi Hdone]; cbn [for_each].
  - exists tt, d. split; [reflexivity|]. split; [exact Hi|].
    intros y Hy. rewrite app_nil_r in Hy. auto.
  - destruct (Hown x (or_introl eq_refl) d Hi) as ([] & d' & E & Hi' & Hx).
    assert (Hdone' : forall y, In y (done ++ [x]) -> G y d').
    { intros y [Hy| [<- | []]]%in_app_or; [|exact Hx].
      destruct (Hkeep x y (or_introl eq_refl) d (conj Hi (Hdone y Hy)))
        as (? & d'' & E' & Hy').
      rewrite E in E'. now injection E' as <- _. }
    destruct (IH (fun y Hy => Hown y (or_intror Hy))
                 (fun y z Hy => Hkeep y z (or_intror Hy))
                 (done ++ [x]) d' (conj Hi' Hdone')) as (a & d'' & E' & Hi'' & Hall).
    exists a, d''. unfold bind. rewrite E. split; [exact E'|].
    split; [exact Hi''|]. intros y Hy. apply Hall.
    rewrite <- app_assoc. exact Hy.
Qed.

End EffLogic.

(** ** The normalisation of an extraction response *)

Module NormalizerProps.

Import Eff EffLogic Normalizer ExampleRuntime.

(** Every required field is there. *)
Definition present (d : dict) : Prop :=
  forall g, In g required_fields -> is_Some (d !! g).

(** The field [g] holds a [str]. *)
Definition is_text (g : string) (d : dict) : Prop :=
  exists s, d !! g = Some (VStr s).

Lemma mem_In (s : string) (l : list string) : mem s l = true <-> In s l.
Proof.
  unfold mem. rewrite existsb_exists. split.
  - intros (x & Hx & E). apply String.eqb_eq in E. now subst.
  - intros Hs. exists s. split; [exact Hs | apply String.eqb_refl].
Qed.

Lemma not_mem_In (s : string) (l : list string) : mem s l = false -> ~ In s l.
Proof. intros E Hs. apply mem_In in Hs. congruence. Qed.

Lemma money_field_facts (g : string) :
  In g money_fields ->
  In g required_fields /\ ~ In g str_fields /\
  g <> "validation_flags"%string /\ g <> "requires_review"%string /\
  default_for g = VFloat 0.
Proof.
  intros Hg. simpl in Hg.
  repeat (destruct Hg as [<-|Hg]; [
    split; [apply mem_In; reflexivity|];
    split; [apply not_mem_In; reflexivity|];
    split; [discriminate|]; split; [discriminate | reflexivity] |]).
  destruct Hg.
Qed.

(** No monetary field of the response is an [int] too large for [float]
    (an absent field is filled with [0.0]). *)
Definition money_fits (data : dict) : bool :=
  forallb (fun g => negb (overflows (default (VFloat 0) (data !! g)))) money_fields.

Lemma money_fits_field (data : dict) (g : string) :
  money_fits data = true -> In g money_fields ->
  overflows (default (VFloat 0) (data !! g)) = false.
Proof.
  intros Hfit Hg. unfold money_fits in Hfit. rewrite forallb_forall in Hfit.
  now apply negb_true_iff, Hfit.
Qed.

Lemma str_field_facts (g : string) :
  In g str_fields ->
  In g required_fields /\ ~ In g money_fields /\
  g <> "validation_flags"%string /\ g <> "requires_review"%string.
Proof.
  intros Hg. simpl in Hg.
  repeat (destruct Hg as [<-|Hg]; [
    split; [apply mem_In; reflexivity|];
    split; [apply not_mem_In; reflexivity|];
    split; discriminate |]).
  destruct Hg.
Qed.

Section WithRuntime.
Context `{Runtime}.

(** The number the money loop stores for the value [v]. *)
Definition money_value (v : pyval) : Q :=
  match py_float (clean_money v) with
  | inr x => if Qle_bool 0 x then x else 0
  | inl _ => 0
  end.

(** [float] raises [OverflowError] on the [int]s too large for it, and
    [ValueError] or [TypeError] on everything else it refuses. *)
Lemma py_float_raises (v : pyval) (e : exn) :
  overflows v = false -> py_float v = inl e -> is_ValueError_or_TypeError e = true.
Proof.
  unfold py_float, overflows. destruct v as [| |n| |s|]; simpl;
    try destruct (float_of_str s); try destruct (too_large_for_float n);
    intros Hv [= <-]; try reflexivity; discriminate.
Qed.

Lemma py_float_overflows (v : pyval) :
  overflows v = true -> py_float v = inl OverflowError.
Proof.
  unfold py_float, overflows. destruct v as [| |n| |s|]; try discriminate.
  now intros ->.
Qed.

Lemma overflows_clean_money (v : pyval) : overflows (clean_money v) = overflows v.
Proof. now destruct v. Qed.

(** *** What each step does to the dictionary *)

Lemma fill_default_eq (g : string) (d : dict) :
  fill_default g d =
    (match d !! g with None => <[g := default_for g]> d | Some _ => d end, inr tt).
Proof. unfold fill_default, set, ret. now destruct (d !! g). Qed.

Lemma normalize_money_eq (g : string) (d : dict) (v : pyval) :
  d !! g = Some v -> overflows v = false ->
  normalize_money g d = (<[g := VFloat (money_value v)]> d, inr tt).
Proof.
  intros Hv Hfit.
  unfold normalize_money, try_except, bind, item, lift, set, ret, money_value.
  rewrite Hv. destruct (py_float (clean_money v)) as [e|x] eqn:E.
  - rewrite <- overflows_clean_money in Hfit. now rewrite (py_float_raises _ _ Hfit E).
  - destruct (Qle_bool 0 x); simpl; [|now rewrite insert_insert_eq].
    now destruct (Qle_bool x 10000000).
Qed.

(** An [int] too large for [float] ends the normalisation: its
    [OverflowError] is not caught by the handler of the money loop. *)
Lemma normalize_money_overflow (g : string) (d : dict) (v : pyval) :
  d !! g = Some v -> overflows v = true ->
  normalize_money g d = (d, inl OverflowError).
Proof.
  intros Hv Hbig. unfold normalize_money, try_except, bind, item, lift.
  rewrite Hv. rewrite <- overflows_clean_money in Hbig.
  now rewrite (py_float_overflows _ Hbig).
Qed.

Lemma normalize_str_eq (g : string) (d : dict) (v : pyval) :
  d !! g = Some v ->
  normalize_str g d = (<[g := VStr (strip (py_str v))]> d, inr tt).
Proof. intros Hv. unfold normalize_str, bind, item, set. now rewrite Hv. Qed.

Lemma check_enum_eq (g : string) (allowed : list string) (dflt : string)
    (d : dict) (s : string) :
  d !! g = Some (VStr s) ->
  check_enum g allowed dflt d =
    (<[g := VStr (if mem s allowed then s else dflt)]> d, inr tt).
Proof.
  intros Hs. unfold check_enum, item_str, bind, item, set, ret. rewrite Hs.
  destruct (mem s allowed); [|reflexivity]. now rewrite insert_id.
Qed.

Lemma normalize_state_eq (d : dict) (s : string) :
  d !! "state"%string = Some (VStr s) ->
  exists s', normalize_state d = (<["state"%string := VStr s']> d, inr tt).
Proof.
  intros Hs. unfold normalize_state, item_str, bind, item, set, ret. rewrite Hs.
  destruct (_ && _); [destruct (state_mapping !! lower s) as [code|]|].
  - now exists code.
  - exists s. now rewrite insert_id.
  - exists s. now rewrite insert_id.
Qed.

Lemma normalize_zip_eq (d : dict) (s : string) :
  d !! "zip_code"%string = Some (VStr s) ->
  exists s', normalize_zip d = (<["zip_code"%string := VStr s']> d, inr tt).
Proof.
  intros Hs. unfold normalize_zip, item_str, bind, item, set, ret. rewrite Hs.
  destruct (negb _).
  - now eexists.
  - exists s. now rewrite insert_id.
Qed.

(** *** The facts followed through the normalisation *)

(** The money field [f] holds the float [x]; the two review fields hold
    [flags] and [review]. *)
Definition tracked (f : string) (x : Q) (flags review : pyval) (d : dict) : Prop :=
  d !! f = Some (VFloat x) /\
  d !! "validation_flags"%string = Some flags /\
  d !! "requires_review"%string = Some review.

Lemma present_insert (g : string) (w : pyval) (d : dict) :
  present d -> present (<[g := w]> d).
Proof.
  intros Hd k Hk. destruct (decide (g = k)) as [->|Hne].
  - rewrite lookup_insert_eq. eauto.
  - rewrite lookup_insert_ne by assumption. now apply Hd.
Qed.

Lemma is_text_insert (h g : string) (s : string) (d : dict) :
  is_text h d -> is_text h (<[g := VStr s]> d).
Proof.
  intros [t Ht]. unfold is_text. destruct (decide (g = h)) as [->|Hne].
  - rewrite lookup_insert_eq. eauto.
  - rewrite lookup_insert_ne by assumption. eauto.
Qed.

Lemma tracked_insert (f : string) (x : Q) (flags review : pyval)
    (g : string) (w : pyval) (d : dict) :
  g <> f -> g <> "validation_flags"%string -> g <> "requires_review"%string ->
  tracked f x flags review d -> tracked f x flags review (<[g := w]> d).
Proof.
  intros ? ? ? (Hf & Hfl & Hr). unfold tracked.
  now rewrite !lookup_insert_ne by assumption.
Qed.

(** No monetary field holds an [int] too large for [float]. *)
Definition fits (d : dict) : Prop :=
  forall g w, In g money_fields -> d !! g = Some w -> overflows w = false.

Lemma fits_insert (g : string) (w : pyval) (d : dict) :
  overflows w = false -> fits d -> fits (<[g := w]> d).
Proof.
  intros Hw Hd k u Hk. destruct (decide (g = k)) as [->|Hne].
  - rewrite lookup_insert_eq. now intros [= <-].
  - rewrite lookup_insert_ne by assumption. now apply Hd.
Qed.

Lemma money_value_high (v : pyval) (x : Q) :
  py_float (clean_money v) = inr x -> 10000000 < x -> money_value v = x.
Proof.
  intros E Hx. unfold money_value. rewrite E.
  assert (E0 : Qle_bool 0 x = true) by (apply Qle_bool_iff; lra).
  now rewrite E0.
Qed.

(** *** The four phases *)

Section Phases.
Variables (data : dict) (f : string) (x : Q).
Hypothesis f_money : In f money_fields.
Hypothesis x_high : 10000000 < x.

(** After the defaults: every field is there, with the value received or
    its default. *)
Lemma fill_defaults_returns :
  returns (fun d => d = data) (for_each required_fields fill_default)
    (fun _ d => present d /\
       forall k, is_Some (d !! k) ->
                 d !! k = Some (default (default_for k) (data !! k))).
Proof.
  set (I := fun d : dict =>
              forall k, d !! k = data !! k \/
                        (data !! k = None /\ d !! k = Some (default_for k))).
  apply returns_weaken with (P := I)
    (Q := fun (_ : unit) d => I d /\ forall g, In g required_fields -> is_Some (d !! g)).
  - apply returns_for_each.
    + intros g _ d Hd. rewrite fill_default_eq. eexists tt, _. split; [reflexivity|].
      destruct (d !! g) as [v|] eqn:Eg.
      * split; [exact Hd | rewrite Eg; eauto].
      * split; [|rewrite lookup_insert_eq; eauto].
        intros k. destruct (decide (g = k)) as [<-|Hne].
        -- right. rewrite lookup_insert_eq. split; [|reflexivity].
           destruct (Hd g) as [E|[_ E]]; congruence.
        -- rewrite lookup_insert_ne by assumption. apply Hd.
    + intros g y _ d [Hd Hy]. rewrite fill_default_eq. eexists tt, _.
      split; [reflexivity|]. destruct (d !! g) eqn:Eg; [exact Hy|].
      destruct (decide (g = y)) as [<-|Hne].
      * rewrite lookup_insert_eq. eauto.
      * now rewrite lookup_insert_ne by assumption.
  - intros d ->. intros k. now left.
  - intros _ d [Hd Hall]. split; [exact Hall|].
    intros k [v Hv]. destruct (Hd k) as [E|[E1 E2]].
    + rewrite E in Hv |- *. now rewrite Hv.
    + now rewrite E1, E2.
Qed.

(** The money loop leaves a high value in place and the review fields
    alone. *)
Lemma money_loop_returns (flags review v : pyval) :
  py_float (clean_money v) = inr x ->
  returns
    (fun d => (present d /\ fits d) /\ d !! f = Some v /\
              d !! "validation_flags"%string = Some flags /\
              d !! "requires_review"%string = Some review)
    (for_each money_fields normalize_money)
    (fun _ d => present d /\ tracked f x flags review d).
Proof.
  intros Hv.
  set (I := fun d : dict =>
              (present d /\ fits d) /\
              d !! "validation_flags"%string = Some flags /\
              d !! "requires_review"%string = Some review /\
              exists w, d !! f = Some w /\ py_float (clean_money w) = inr x).
  set (G := fun (g : string) (d : dict) => g = f -> d !! f = Some (VFloat x)).
  apply returns_weaken with (P := I)
    (Q := fun (_ : unit) d => I d /\ forall g, In g money_fields -> G g d).
  - apply returns_for_each.
    + intros g Hg d ((Hp & Hfit) & Hfl & Hr & w & Hw & Ew).
      destruct (money_field_facts g Hg) as (Hreq & _ & Hnf & Hnr & _).
      destruct (Hp g Hreq) as [vg Hvg].
      rewrite (normalize_money_eq g d vg Hvg (Hfit g vg Hg Hvg)).
      eexists tt, _. split; [reflexivity|].
      unfold I, G. rewrite !lookup_insert_ne by assumption.
      split; [split; [split; [now apply present_insert | now apply fits_insert]
                     | split; [exact Hfl | split; [exact Hr|]]]|].
      * destruct (decide (g = f)) as [->|Hne].
        -- rewrite lookup_insert_eq. eexists. split; [reflexivity|].
           rewrite Hw in Hvg. injection Hvg as <-.
           now rewrite (money_value_high w x Ew x_high).
        -- rewrite lookup_insert_ne by assumption. eauto.
      * intros ->. rewrite lookup_insert_eq.
        rewrite Hw in Hvg. injection Hvg as <-.
        now rewrite (money_value_high w x Ew x_high).
    + intros g y Hg d [((Hp & Hfit) & Hfl & Hr & w & Hw & Ew) Hy].
      destruct (money_field_facts g Hg) as (Hreq & _).
      destruct (Hp g Hreq) as [vg Hvg].
      rewrite (normalize_money_eq g d vg Hvg (Hfit g vg Hg Hvg)).
      eexists tt, _. split; [reflexivity|].
      intros ->. specialize (Hy eq_refl).
      destruct (decide (g = f)) as [->|Hne].
      * rewrite lookup_insert_eq. rewrite Hw in Hvg. injection Hvg as <-.
        now rewrite (money_value_high w x Ew x_high).
      * now rewrite lookup_insert_ne by assumption.
  - intros d (Hp & Hf & Hfl & Hr). unfold I. eauto 10.
  - intros _ d [((Hp & _) & Hfl & Hr & _) Hall]. split; [exact Hp|].
    split; [now apply (Hall f f_money) | now split].
Qed.

(** The text loop turns every text field into a [str]. *)
Lemma str_loop_returns (flags review : pyval) :
  returns
    (fun d => present d /\ tracked f x flags review d)
    (for_each str_fields normalize_str)
    (fun _ d => tracked f x flags review d /\
                forall g, In g str_fields -> is_text g d).
Proof.
  eapply returns_weaken with (P := fun d => present d /\ tracked f x flags review d).
  - apply returns_for_each with (G := is_text).
    + intros g Hg d [Hp Ht].
      destruct (str_field_facts g Hg) as (Hreq & Hnm & Hnf & Hnr).
      destruct (Hp g Hreq) as [vg Hvg].
      rewrite (normalize_str_eq g d vg Hvg). eexists tt, _. split; [reflexivity|].
      split; [split; [now apply present_insert|]|].
      * apply tracked_insert; try assumption. intros ->. now apply Hnm.
      * unfold is_text. rewrite lookup_insert_eq. eauto.
    + intros g y Hg d [[Hp Ht] Hy].
      destruct (str_field_facts g Hg) as (Hreq & _).
      destruct (Hp g Hreq) as [vg Hvg].
      rewrite (normalize_str_eq g d vg Hvg). eexists tt, _. split; [reflexivity|].
      now apply is_text_insert.
  - auto.
  - intros _ d [[_ Ht] Hall]. now split.
Qed.

(** A step that rewrites one text field keeps what is tracked. *)
Lemma text_step_returns (flags review : pyval) (g : string) (m : M unit) :
  In g str_fields ->
  (forall d s, d !! g = Some (VStr s) ->
     exists s', m d = (<[g := VStr s']> d, inr tt)) ->
  returns
    (fun d => tracked f x flags review d /\ forall h, In h str_fields -> is_text h d)
    m
    (fun _ d => tracked f x flags review d /\ forall h, In h str_fields -> is_text h d).
Proof.
  intros Hg Hm d [Ht Hall].
  destruct (str_field_facts g Hg) as (_ & Hnm & Hnf & Hnr).
  destruct (Hall g Hg) as [s Hs]. destruct (Hm d s Hs) as [s' E].
  eexists tt, _. split; [exact E|]. split.
  - apply tracked_insert; try assumption. intros ->. now apply Hnm.
  - intros h Hh. apply is_text_insert. now apply Hall.
Qed.

End Phases.

(** C6, amended.  In a response without a monetary [int] too large for
    [float] (which makes the normalisation raise [OverflowError]), a
    monetary field whose coerced value exceeds 10,000,000 comes out of the
    normalisation as that float, neither clamped nor zeroed, and the
    normalisation returns; the condition is written to the log only:
    [validation_flags] and [requires_review] come out as they came in (as
    [[]] and [False] when the response lacks them). *)
Theorem high_value_is_kept_and_not_flagged (data : dict) (money_field : string) (x : Q) :
  money_fits data = true ->
  In money_field money_fields ->
  py_float (clean_money (default (VFloat 0) (data !! money_field))) = inr x ->
  10000000 < x ->
  exists data',
    normalize_response (JObject data) = inr data' /\
    data' !! money_field = Some (VFloat x) /\
    data' !! "validation_flags"%string
      = Some (default (VList []) (data !! "validation_flags"%string)) /\
    data' !! "requires_review"%string
      = Some (default (VBool false) (data !! "requires_review"%string)).
Proof.
  intros Hfit Hf Hx Hhigh.
  set (v := default (VFloat 0) (data !! money_field)) in *.
  set (flags := default (VList []) (data !! "validation_flags"%string)).
  set (review := default (VBool false) (data !! "requires_review"%string)).
  destruct (money_field_facts money_field Hf) as (Hreq & _ & _ & _ & Hdflt).
  pose (final := fun (_ : unit) (d : dict) =>
                   tracked money_field x flags review d /\
                   forall h, In h str_fields -> is_text h d).
  assert (Hrun : exists u d', normalize data = (d', inr u) /\ final u d').
  { unfold normalize.
    refine (returns_bind _ _ final _ _ (fill_defaults_returns data) _ data eq_refl).
    intros ?.
    eapply returns_bind.
    { eapply returns_weaken;
        [apply (money_loop_returns money_field x Hf Hhigh flags review v Hx) | | intros ? ? Hd; exact Hd].
      intros d [Hp Hval]. split; [split; [exact Hp|]|].
      { intros g w Hg Hw.
        destruct (money_field_facts g Hg) as (_ & _ & _ & _ & Hd).
        rewrite (Hval g) in Hw by (rewrite Hw; eauto). injection Hw as <-.
        rewrite Hd. now apply money_fits_field. }
      split; [|split].
      - rewrite (Hval _ (Hp _ Hreq)), Hdflt. reflexivity.
      - apply Hval, Hp, mem_In. reflexivity.
      - apply Hval, Hp, mem_In. reflexivity. }
    intros ?. eapply returns_bind; [apply (str_loop_returns money_field x Hf flags review)|].
    intros ?. eapply returns_bind.
    { apply (text_step_returns money_field x Hf flags review "filing_status"%string);
        [apply mem_In; reflexivity|].
      intros d s Hs. eexists. apply (check_enum_eq _ _ _ _ _ Hs). }
    intros ?. eapply returns_bind.
    { apply (text_step_returns money_field x Hf flags review "document_type"%string);
        [apply mem_In; reflexivity|].
      intros d s Hs. eexists. apply (check_enum_eq _ _ _ _ _ Hs). }
    intros ?. eapply returns_bind.
    { apply (text_step_returns money_field x Hf flags review "document_quality"%string);
        [apply mem_In; reflexivity|].
      intros d s Hs. eexists. apply (check_enum_eq _ _ _ _ _ Hs). }
    intros ?. eapply returns_bind.
    { apply (text_step_returns money_field x Hf flags review "state"%string);
        [apply mem_In; reflexivity | apply normalize_state_eq]. }
    intros ?.
    apply (text_step_returns money_field x Hf flags review "zip_code"%string);
      [apply mem_In; reflexivity | apply normalize_zip_eq]. }
  destruct Hrun as (u & d' & E & (Hm & Hfl & Hr) & _).
  exists d'. unfold normalize_response. rewrite E. auto.
Qed.

End WithRuntime.

(** A response with every field in place and wages of 20,000,000. *)
Definition high_wages : dict :=
  list_to_map
    [ ("document_type", VStr "W-2");
      ("classification_confidence", VFloat 0.95);
      ("document_quality", VStr "high");
      ("taxpayer_name", VStr "Jane Doe");
      ("ssn", VStr "123-45-6789");
      ("itin", VStr "");
      ("filing_status", VStr "single");
      ("wages", VFloat 20000000);
      ("interest_income", VFloat 0);
      ("dividend_income", VFloat 0);
      ("other_income", VFloat 0);
      ("federal_withholding", VFloat 0);
      ("state_withholding", VFloat 0);
      ("social_security_wages", VFloat 0);
      ("medicare_wages", VFloat 0);
      ("address", VStr "1 Main St");
      ("city", VStr "Austin");
      ("state", VStr "TX");
      ("zip_code", VStr "78701");
      ("employer_ein", VStr "12-3456789");
      ("payer_name", VStr "");
      ("validation_flags", VList []);
      ("extraction_confidence", VFloat 0.90);
      ("requires_review", VBool false) ]%string.

(** C6, as stated, fails: the response with wages of 20,000,000 comes
    back as it went in, field for field; its [validation_flags] are still
    empty, its [requires_review] still [False], and nothing was added. *)
Lemma high_wages_are_not_flagged :
  normalize_response (JObject high_wages) = inr high_wages /\
  high_wages !! "wages"%string = Some (VFloat 20000000) /\
  high_wages !! "validation_flags"%string = Some (VList []) /\
  high_wages !! "requires_review"%string = Some (VBool false).
Proof. repeat split; vm_compute; reflexivity. Qed.

Lemma high_value_is_kept_and_not_flagged_witness :
  exists data',
    normalize_response (JObject high_wages) = inr data' /\
    data' !! "wages"%string = Some (VFloat 20000000) /\
    data' !! "validation_flags"%string
      = Some (default (VList []) (high_wages !! "validation_flags"%string)) /\
    data' !! "requires_review"%string
      = Some (default (VBool false) (high_wages !! "requires_review"%string)).
Proof.
  apply (high_value_is_kept_and_not_flagged high_wages "wages" 20000000).
  - vm_compute. reflexivity.
  - simpl. tauto.
  - vm_compute. reflexivity.
  - reflexivity.
Defined.

End NormalizerProps.

(** ** combine_multiple_tax_documents *)

Module CombinerProps.

Import Combiner.

(** Three documents of one taxpayer, whose name is longest on the third. *)
Definition doc_short : dict :=
  list_to_map
    [ ("taxpayer_name", VStr "J Doe"); ("ssn", VStr "111-11-1111");
      ("address", VStr "1 First St"); ("city", VStr "Austin");
      ("state", VStr "TX"); ("zip_code", VStr "78701");
      ("filing_status", VStr "single"); ("wages", VFloat 1000) ]%string.

Definition doc_middle : dict :=
  list_to_map
    [ ("taxpayer_name", VStr "Jane Doe"); ("ssn", VStr "222-22-2222");
      ("address", VStr "2 Second St"); ("city", VStr "Boston");
      ("state", VStr "MA"); ("zip_code", VStr "02108");
      ("filing_status", VStr "head_of_household"); ("wages", VFloat 2000) ]%string.

Definition doc_long : dict :=
  list_to_map
    [ ("taxpayer_name", VStr "Jane Quincy Doe"); ("ssn", VStr "333-33-3333");
      ("address", VStr "3 Third St"); ("city", VStr "Chicago");
      ("state", VStr "IL"); ("zip_code", VStr "60601");
      ("filing_status", VStr "married_filing_jointly");
      ("wages", VFloat 3000) ]%string.

(** The identity fields of a record. *)
Definition identity_of (d : dict) : list (option pyval) :=
  map (fun field => d !! fst field) identity_fields.

(** Two documents that report no confidence. *)
Definition doc_plain_1 : dict :=
  list_to_map [ ("taxpayer_name", VStr "Jane Doe"); ("wages", VFloat 1000) ]%string.

Definition doc_plain_2 : dict :=
  list_to_map [ ("taxpayer_name", VStr "Jane Doe"); ("wages", VFloat 2000) ]%string.

Section WithRuntime.
Context `{Runtime}.

(** The search stops at the first record that beats the first record; the
    later records are not looked at. *)
Lemma find_primary_stops (combined data : dict) (rest : list dict) (n m : nat) :
  truthy (get data "taxpayer_name" VNone) = true ->
  stripped_length (get data "taxpayer_name" (VStr "")) = inr n ->
  stripped_length (get combined "taxpayer_name" (VStr "")) = inr m ->
  (m < n)%nat ->
  find_primary combined (data :: rest) = inr (Some data).
Proof.
  intros Ht Hn Hm Hlt. cbn [find_primary]. rewrite Ht, Hn, Hm. simpl.
  apply Nat.ltb_lt in Hlt. now rewrite Hlt.
Qed.

(** With a record in the list, [max] never falls back on its default. *)
Lemma py_max_ignores_default (v : pyval) (l : list pyval) (d1 d2 : pyval) :
  py_max (v :: l) d1 = py_max (v :: l) d2.
Proof. reflexivity. Qed.

(** C3, at three records named "J Doe", "Jane Doe" and "Jane Quincy Doe":
    the combined profile carries the identity fields of the second record,
    the first whose stripped name is longer than that of the first record,
    and not those of the third, whose stripped name is the longest. *)
Theorem identity_taken_from_first_longer_name :
  stripped_length (get doc_short "taxpayer_name" (VStr "")) = inr 5%nat /\
  stripped_length (get doc_middle "taxpayer_name" (VStr "")) = inr 8%nat /\
  stripped_length (get doc_long "taxpayer_name" (VStr "")) = inr 15%nat /\
  Exc.on_value identity_of
    (combine_multiple_tax_documents [doc_short; doc_middle; doc_long])
    = inr (identity_of doc_middle) /\
  identity_of doc_middle <> identity_of doc_long.
Proof.
  split; [reflexivity|]. split; [reflexivity|]. split; [reflexivity|].
  split; [vm_compute; reflexivity|].
  vm_compute. discriminate.
Qed.

(** The two confidences of a record. *)
Definition confidences_of (d : dict) : option pyval * option pyval :=
  (d !! "classification_confidence"%string, d !! "extraction_confidence"%string).

(** C5, at two records that report no confidence: both combined confidences
    are the integer 0, the default of the [get], and not 0.8. *)
Theorem unreported_confidence_is_zero :
  confidences_of doc_plain_1 = (None, None) /\
  confidences_of doc_plain_2 = (None, None) /\
  Exc.on_value confidences_of
    (combine_multiple_tax_documents [doc_plain_1; doc_plain_2])
    = inr (Some (VInt 0), Some (VInt 0)).
Proof.
  split; [reflexivity|]. split; [reflexivity|].
  vm_compute. reflexivity.
Qed.

(** C9.  Combining a batch of exactly one record returns that record, field
    for field. *)
Theorem combine_single_record (data : dict) :
  combine_multiple_tax_documents [data] = inr data.
Proof. reflexivity. Qed.

End WithRuntime.

End CombinerProps.

(** ** What validation leaves in the dictionary *)

Module ValidationFacts.

Import Num NumFacts TaxCalculator Eff BracketFacts.

(** The dictionaries [d] and [d'] hold the same at every key of [keys]. *)
Definition same_on (keys : list string) (d d' : dict) : Prop :=
  forall k, In k keys -> d !! k = d' !! k.

(** The five keys [calculate_taxes] reads. *)
Definition read_keys : list string :=
  monetary_fields ++ ["filing_status"%string].

Section WithRuntime.
Context `{Runtime}.

(** Is the value of a monetary field accepted as it is? *)
Definition field_ok (v : pyval) : bool :=
  match py_float v with
  | inr x => Qle_bool 0 x && Qle_bool x 50000000
  | inl _ => false
  end.

(** The amount validation leaves in the monetary field [f]. *)
Definition amount (f : string) (d : dict) : Q :=
  match py_float (default (VInt 0) (d !! f)) with
  | inr x => if Qle_bool 0 x && Qle_bool x 50000000 then x else 0
  | inl _ => 0
  end.

(** The dictionary after the validation of the field [f]. *)
Definition clamp_field (f : string) (d : dict) : dict :=
  if field_ok (default (VInt 0) (d !! f)) then d else <[f := VInt 0]> d.

(** The value [filing_status] is read as. *)
Definition status_of (d : dict) : pyval :=
  default (VStr "single") (d !! "filing_status"%string).

(** Is the lower case of [s] a key of the deduction table? *)
Definition known_status (s : string) : bool :=
  match standard_deductions !! lower s with Some _ => true | None => false end.

(** The monetary fields after the whole loop. *)
Definition clamped (d : dict) : dict :=
  fold_left (fun d f => clamp_field f d) monetary_fields d.

(** The field [f] is read as an [int] too large for [float]. *)
Definition field_overflows (f : string) (d : dict) : bool :=
  overflows (default (VInt 0) (d !! f)).

(** Some monetary field is read as an [int] too large for [float]. *)
Definition overflow_in (d : dict) : bool :=
  existsb (fun f => field_overflows f d) monetary_fields.

(** The loop over [fields]: the dictionary it leaves, and whether an
    [OverflowError] ended it. *)
Fixpoint clamp_loop (fields : list string) (d : dict) : dict * bool :=
  match fields with
  | [] => (d, false)
  | f :: rest =>
      if field_overflows f d then (d, true)
      else clamp_loop rest (clamp_field f d)
  end.

(** The dictionary an [OverflowError] leaves behind: the fields before
    the one that overflows are validated, the others untouched. *)
Definition interrupted (d : dict) : dict := fst (clamp_loop monetary_fields d).

(** The dictionary after [validate_tax_data]. *)
Definition validated (d : dict) : dict :=
  match status_of d with
  | VStr s =>
      if known_status s then clamped d
      else <["filing_status"%string := VStr "single"]> (clamped d)
  | _ => clamped d
  end.

(** The filing status the computation uses. *)
Definition effective_status (s : string) : string :=
  if known_status s then lower s else "single"%string.

(** The successful result for the amounts [w], [i], [o], [h] and the
    status [fs]. *)
Definition result_for (w i o h : Q) (fs : string) : tax_result :=
  let total := w + i + o in
  let total := if negb (Qle_bool 0 total) then 0 else total in
  let sd := inject_Z (default 14600%Z (standard_deductions !! fs)) in
  let taxable := max0 (total - sd) in
  let tax := calculate_federal_tax taxable in
  {| error := None;
     total_income := round2 total;
     standard_deduction := sd;
     taxable_income := round2 taxable;
     federal_tax := round2 tax;
     federal_withholding := round2 h;
     refund_or_owed := round2 (h - tax);
     is_refund := negb (Qle_bool (h - tax) 0);
     filing_status := fs;
     calculation_success := true |}.

Lemma py_float_zero : py_float (VInt 0) = inr 0.
Proof. vm_compute. reflexivity. Qed.

(** One turn of the loop: an [int] too large for [float] ends the
    validation, every other value is accepted or replaced by 0. *)
Lemma validate_field_eq (f : string) (d : dict) :
  validate_field f d =
    if field_overflows f d then (d, inl OverflowError)
    else (clamp_field f d, inr tt).
Proof.
  unfold validate_field, clamp_field, field_ok, field_overflows, bind, get,
    try_except, lift, ret, raise, set.
  destruct (py_float (default (VInt 0) (d !! f))) as [e|x] eqn:E.
  - unfold py_float, overflows in *.
    destruct (default (VInt 0) (d !! f)) as [| |n| |s|]; simpl in E;
      try destruct (float_of_str s); try destruct (too_large_for_float n);
      try discriminate E; injection E as <-; reflexivity.
  - assert (Hfit : overflows (default (VInt 0) (d !! f)) = false).
    { unfold py_float, overflows in *.
      destruct (default (VInt 0) (d !! f)) as [| |n| |s|]; try reflexivity.
      now destruct (too_large_for_float n). }
    rewrite Hfit.
    destruct (Qle_bool 0 x); simpl; [|reflexivity].
    destruct (Qle_bool x 50000000); reflexivity.
Qed.

Lemma lookup_clamp_field (f k : string) (d : dict) :
  clamp_field f d !! k =
    if decide (f = k) then
      if field_ok (default (VInt 0) (d !! f)) then d !! k else Some (VInt 0)
    else d !! k.
Proof.
  unfold clamp_field. destruct (field_ok _); destruct (decide (f = k)) as [->|Hne];
    try reflexivity.
  - apply lookup_insert_eq.
  - now apply lookup_insert_ne.
Qed.

Lemma field_ok_zero : field_ok (VInt 0) = true.
Proof. unfold field_ok. now rewrite py_float_zero. Qed.

Lemma field_ok_fits (v : pyval) : field_ok v = true -> overflows v = false.
Proof.
  unfold field_ok, py_float, overflows. destruct v as [| |n| |s|]; try reflexivity.
  now destruct (too_large_for_float n).
Qed.

(** Reading a validated monetary field gives its amount. *)
Lemma py_float_clamped (f : string) (d : dict) :
  py_float (default (VInt 0) (clamp_field f d !! f)) = inr (amount f d).
Proof.
  rewrite lookup_clamp_field. destruct (decide (f = f)) as [_|]; [|congruence].
  unfold field_ok, amount.
  destruct (py_float (default (VInt 0) (d !! f))) as [e|x] eqn:E;
    [apply py_float_zero|].
  destruct (Qle_bool 0 x && Qle_bool x 50000000); [exact E | apply py_float_zero].
Qed.

Lemma amount_clamp_other (f g : string) (d : dict) :
  f <> g -> amount g (clamp_field f d) = amount g d.
Proof.
  intros Hne. unfold amount. rewrite lookup_clamp_field.
  now destruct (decide (f = g)).
Qed.

Lemma amount_clamp_same (f : string) (d : dict) :
  amount f (clamp_field f d) = amount f d.
Proof.
  unfold amount at 1. rewrite py_float_clamped.
  unfold amount. destruct (py_float _) as [e|x]; [reflexivity|].
  destruct (Qle_bool 0 x && Qle_bool x 50000000) eqn:E; [now rewrite E | reflexivity].
Qed.

Lemma amount_clamp (f g : string) (d : dict) :
  amount g (clamp_field f d) = amount g d.
Proof.
  destruct (decide (f = g)) as [->|Hne];
    [apply amount_clamp_same | now apply amount_clamp_other].
Qed.

(** An amount is within the limits. *)
Lemma amount_range (f : string) (d : dict) :
  0 <= amount f d /\ amount f d <= 50000000.
Proof.
  unfold amount. destruct (py_float _) as [e|x]; [split; discriminate|].
  destruct (Qle_bool 0 x) eqn:E0; simpl; [|split; discriminate].
  destruct (Qle_bool x 50000000) eqn:E1; [|split; discriminate].
  split; now apply Qle_bool_iff.
Qed.

Lemma field_ok_amount (f : string) (d : dict) :
  field_ok (VFloat (amount f d)) = true.
Proof.
  destruct (amount_range f d) as [H0 H1]. unfold field_ok. simpl.
  apply Qle_bool_iff in H0, H1. now rewrite H0, H1.
Qed.

Lemma for_each_validate (fields : list string) : forall d,
  for_each fields validate_field d =
    (fst (clamp_loop fields d),
     if snd (clamp_loop fields d) then inl OverflowError else inr tt).
Proof.
  induction fields as [|f rest IH]; intros d; [reflexivity|].
  cbn [for_each clamp_loop]. unfold bind. rewrite validate_field_eq.
  destruct (field_overflows f d); [reflexivity | apply IH].
Qed.

(** Validating a field that does not overflow changes the overflow of no
    field. *)
Lemma field_overflows_clamp (f g : string) (d : dict) :
  field_overflows f d = false ->
  field_overflows g (clamp_field f d) = field_overflows g d.
Proof.
  intros Hf. unfold field_overflows in *. rewrite lookup_clamp_field.
  destruct (decide (f = g)) as [<-|Hne]; [|reflexivity].
  destruct (field_ok _); [reflexivity|]. now rewrite Hf.
Qed.

Lemma existsb_same {A} (p q : A -> bool) (l : list A) :
  (forall x, p x = q x) -> existsb p l = existsb q l.
Proof. intros E. induction l as [|x l IH]; [reflexivity|]. simpl. now rewrite E, IH. Qed.

Lemma clamp_loop_snd (fields : list string) : forall d,
  snd (clamp_loop fields d) = existsb (fun f => field_overflows f d) fields.
Proof.
  induction fields as [|f rest IH]; intros d; [reflexivity|].
  cbn [clamp_loop existsb]. destruct (field_overflows f d) eqn:Ef; [reflexivity|].
  rewrite IH. cbn [orb]. apply existsb_same. intros g.
  now apply field_overflows_clamp.
Qed.

Lemma clamp_loop_fst (fields : list string) : forall d,
  existsb (fun f => field_overflows f d) fields = false ->
  fst (clamp_loop fields d) = fold_left (fun d f => clamp_field f d) fields d.
Proof.
  induction fields as [|f rest IH]; intros d Hd; [reflexivity|].
  cbn [clamp_loop existsb fold_left] in *.
  apply orb_false_iff in Hd as [Hf Hrest]. rewrite Hf. apply IH.
  rewrite <- Hrest. apply existsb_same. intros g. now apply field_overflows_clamp.
Qed.

Lemma validate_loop_eq (d : dict) :
  for_each monetary_fields validate_field d =
    if overflow_in d then (interrupted d, inl OverflowError)
    else (clamped d, inr tt).
Proof.
  rewrite for_each_validate, clamp_loop_snd. fold (overflow_in d).
  destruct (overflow_in d) eqn:Eo; [reflexivity|].
  unfold clamped. now rewrite <- clamp_loop_fst.
Qed.

(** A field that is acceptable stays so through the loop. *)
Lemma clamp_loop_keeps_ok (f : string) (fields : list string) : forall d,
  field_ok (default (VInt 0) (d !! f)) = true ->
  field_ok (default (VInt 0) (fst (clamp_loop fields d) !! f)) = true.
Proof.
  induction fields as [|g rest IH]; intros d Hd; [exact Hd|].
  cbn [clamp_loop]. destruct (field_overflows g d); [exact Hd|].
  apply IH. rewrite lookup_clamp_field.
  destruct (decide (g = f)) as [->|Hne]; [|exact Hd].
  rewrite Hd. exact Hd.
Qed.

Lemma field_ok_clamp_same (f : string) (d : dict) :
  field_ok (default (VInt 0) (clamp_field f d !! f)) = true.
Proof.
  rewrite lookup_clamp_field. destruct (decide (f = f)) as [_|]; [|congruence].
  destruct (field_ok (default (VInt 0) (d !! f))) eqn:E; [exact E | apply field_ok_zero].
Qed.

(** The loop run again on what it left does the same. *)
Lemma clamp_loop_idem (fields : list string) : forall d,
  clamp_loop fields (fst (clamp_loop fields d)) = clamp_loop fields d.
Proof.
  induction fields as [|f rest IH]; intros d; [reflexivity|].
  cbn [clamp_loop]. destruct (field_overflows f d) eqn:Ef.
  - cbn [fst clamp_loop]. now rewrite Ef.
  - pose proof (clamp_loop_keeps_ok f rest _ (field_ok_clamp_same f d)) as Hok.
    set (d1 := fst (clamp_loop rest (clamp_field f d))) in *.
    cbn [clamp_loop]. unfold field_overflows at 1.
    rewrite (field_ok_fits _ Hok). unfold clamp_field at 1. rewrite Hok.
    apply IH.
Qed.

(** The loop writes the monetary fields only. *)
Lemma lookup_clamped_other (k : string) (d : dict) :
  ~ In k monetary_fields -> clamped d !! k = d !! k.
Proof.
  intros Hk. unfold clamped, monetary_fields. cbn [fold_left].
  rewrite !lookup_clamp_field.
  repeat match goal with
         | |- context [decide (?f = k)] =>
             destruct (decide (f = k)) as [<-|?]; [exfalso; apply Hk; simpl; tauto|]
         end.
  reflexivity.
Qed.

Lemma amount_clamped (f : string) (d : dict) : amount f (clamped d) = amount f d.
Proof.
  unfold clamped, monetary_fields. cbn [fold_left]. now rewrite !amount_clamp.
Qed.

(** After the loop every monetary field reads as its amount. *)
Lemma py_float_clamped_all (f : string) (d : dict) :
  In f monetary_fields ->
  py_float (default (VInt 0) (clamped d !! f)) = inr (amount f d).
Proof.
  intros Hf. unfold clamped, monetary_fields in *. cbn [fold_left].
  simpl in Hf.
  repeat match goal with
         | |- context [clamp_field ?g ?e !! f] =>
             destruct (decide (g = f)) as [->|?];
             [ rewrite py_float_clamped, ?amount_clamp; reflexivity
             | rewrite (lookup_clamp_field g f), decide_False by assumption ]
         end.
  exfalso. intuition congruence.
Qed.

Lemma status_of_clamped (d : dict) : status_of (clamped d) = status_of d.
Proof.
  unfold status_of. rewrite lookup_clamped_other; [reflexivity|].
  simpl. intuition discriminate.
Qed.

Lemma lower_single : lower "single" = "single"%string.
Proof. reflexivity. Qed.

(** [calculate_taxes], as a function of the dictionary it is given. *)
Lemma calculate_taxes_eq (d : dict) :
  calculate_taxes d =
    if is_empty d
    then (d, error_result (ValidationError (ValueError EmptyTaxData)))
    else if overflow_in d
    then (interrupted d, error_result (CalculationError OverflowError))
    else
      (validated d,
       match status_of d with
       | VStr s =>
           result_for (amount "wages" d) (amount "interest_income" d)
                      (amount "other_income" d) (amount "federal_withholding" d)
                      (effective_status s)
       | _ => error_result (CalculationError AttributeError)
       end).
Proof.
  unfold calculate_taxes, calculate_taxes_try, validate_tax_data.
  unfold bind at 1. unfold bind at 1. unfold bind at 1.
  destruct (is_empty d); [reflexivity|].
  unfold ret at 1. unfold bind at 1. rewrite validate_loop_eq.
  destruct (overflow_in d); [reflexivity|].
  unfold bind at 1. unfold get at 1.
  change (default (VStr "single") (clamped d !! "filing_status"%string))
    with (status_of (clamped d)).
  rewrite status_of_clamped. unfold validated.
  destruct (status_of d) as [| | | |s|] eqn:Es; try reflexivity.
  unfold bind at 1. unfold lift at 1. cbn [py_lower].
  unfold known_status, effective_status, known_status.
  set (after := if match standard_deductions !! lower s with
                      | Some _ => true | None => false end
                then clamped d
                else <["filing_status"%string := VStr "single"]> (clamped d)).
  assert (Hval : match standard_deductions !! lower s with
                 | Some _ => ret tt
                 | None => set "filing_status" (VStr "single")
                 end (clamped d) = (after, inr tt)).
  { unfold after. now destruct (standard_deductions !! lower s). }
  rewrite Hval.
  assert (Hmoney : forall f, In f monetary_fields ->
            py_float (default (VInt 0) (after !! f)) = inr (amount f d)).
  { intros f Hf. rewrite <- (py_float_clamped_all f d Hf). unfold after.
    destruct (standard_deductions !! lower s); [reflexivity|].
    rewrite lookup_insert_ne; [reflexivity|].
    intros <-. simpl in Hf. intuition discriminate. }
  assert (Hstatus : py_lower (default (VStr "single") (after !! "filing_status"%string))
                    = inr (if match standard_deductions !! lower s with
                                 | Some _ => true | None => false end
                           then lower s else "single"%string)).
  { unfold after. destruct (standard_deductions !! lower s).
    - change (default (VStr "single") (clamped d !! "filing_status"%string))
        with (status_of (clamped d)).
      now rewrite status_of_clamped, Es.
    - now rewrite lookup_insert_eq. }
  unfold get_float. unfold bind, get, lift, ret.
  rewrite !Hmoney by (simpl; tauto).
  rewrite Hstatus. reflexivity.
Qed.

End WithRuntime.

End ValidationFacts.

(** ** More on the bracket computation *)

Module BracketMore.

Import Num NumFacts TaxCalculator BracketSpec BracketFacts.

(** Below [previous_bracket] no bracket holds any income. *)
Lemma marginal_tax_below brackets : forall t prev,
  ascending prev brackets -> t <= prev -> marginal_tax brackets prev t == 0.
Proof.
  induction brackets as [|[[l|] rate] rest IH]; intros t prev Hasc Ht; simpl.
  - reflexivity.
  - destruct Hasc as (Hr & Hpl & Hrest).
    rewrite (IH t l Hrest) by lra.
    rewrite Q.max_l; [lra|].
    pose proof (Q.le_min_l t l). lra.
  - rewrite Q.max_l; lra.
Qed.

(** The amounts the loop adds differ by at most the top rate times the
    difference of the incomes. *)
Lemma bracket_taxes_lipschitz (top : Q) brackets : forall a b prev,
  0 <= top -> ascending prev brackets -> rates_below top brackets -> a <= b ->
  Qsum (bracket_taxes brackets b prev) - Qsum (bracket_taxes brackets a prev)
    <= top * (b - a).
Proof.
  induction brackets as [|[lim rate] rest IH]; intros a b prev H0 Hasc Htop Hab.
  - simpl. nra.
  - case_le a prev.
    + (* nothing is added for [a] *)
      assert (Ea : bracket_taxes ((lim, rate) :: rest) a prev = []).
      { simpl. apply Qle_bool_iff in E. now rewrite E. }
      rewrite Ea. simpl Qsum at 2.
      case_le b prev.
      * assert (Eb : bracket_taxes ((lim, rate) :: rest) b prev = []).
        { simpl. apply Qle_bool_iff in E0. now rewrite E0. }
        rewrite Eb. simpl. nra.
      * pose proof (bracket_taxes_le_top top ((lim, rate) :: rest) b prev
                      H0 Hasc Htop ltac:(lra)).
        nra.
    + assert (Hb : prev < b) by lra.
      simpl. apply Forall_cons in Htop as [Hrate Htop]. simpl in Hrate.
      destruct Hasc as [Hr Hl].
      case_le a prev; [lra|]. case_le b prev; [lra|].
      destruct lim as [l|]; simpl; [|nra].
      destruct Hl as [Hpl Hrest].
      case_le a l; simpl.
      * rewrite (Q.min_l a l) by assumption.
        case_le b l; simpl.
        -- rewrite (Q.min_l b l) by assumption. nra.
        -- rewrite (Q.min_r b l) by lra.
           pose proof (bracket_taxes_le_top top rest b l H0 Hrest Htop ltac:(lra)).
           nra.
      * case_le b l; [lra|]. simpl.
        rewrite (Q.min_r a l), (Q.min_r b l) by lra.
        specialize (IH a b l H0 Hrest Htop Hab). lra.
Qed.

(** X1: the loop with its two [break]s computes the marginal tax: for every
    table with ascending limits and non-negative rates, what it adds to
    [total_tax] is the sum over the brackets of the rate times the portion
    of the income within the bracket. *)
Theorem bracket_loop_is_marginal_tax brackets : forall t total prev,
  ascending prev brackets ->
  bracket_loop brackets t total prev == total + marginal_tax brackets prev t.
Proof.
  induction brackets as [|[lim rate] rest IH]; intros t total prev Hasc.
  - simpl. lra.
  - cbn [bracket_loop]. case_le t prev.
    + rewrite (marginal_tax_below _ t prev Hasc E). lra.
    + destruct Hasc as [Hr Hl]. destruct lim as [l|]; cbn [min_limit marginal_tax].
      * destruct Hl as [Hpl Hrest]. case_le t l.
        -- rewrite (marginal_tax_below rest t l Hrest E).
           rewrite (Q.min_l t l) by assumption. rewrite Q.max_r by lra. lra.
        -- rewrite IH by assumption.
           rewrite (Q.min_r t l) by lra. rewrite Q.max_r by lra. lra.
      * rewrite Q.max_r by lra. lra.
Qed.

Lemma bracket_loop_is_marginal_tax_witness :
  bracket_loop tax_brackets_single 50000 0 0
    == 0 + marginal_tax tax_brackets_single 0 50000.
Proof.
  apply (bracket_loop_is_marginal_tax tax_brackets_single 50000 0 0).
  simpl. repeat split; lra.
Defined.

(** X2: within the accepted range, a higher income raises the federal tax
    by at most 37% of the difference, up to the cent of rounding: the tax
    has no cliff. *)
Theorem federal_tax_has_no_cliff (a b : Q) :
  0 <= a -> a <= b -> b <= 100000000 ->
  calculate_federal_tax b - calculate_federal_tax a <= 0.37 * (b - a) + 0.01.
Proof.
  intros Ha Hab Hb.
  destruct (Qlt_le_dec 0 b) as [Hbpos|Hbnonpos].
  2:{ rewrite (calculate_federal_tax_nonpos b), (calculate_federal_tax_nonpos a) by lra.
      lra. }
  rewrite (calculate_federal_tax_in_range b) by assumption.
  pose proof (proj2 (round2_near (bracket_loop tax_brackets_single b 0 0))) as Hrb.
  pose proof (bracket_loop_sum tax_brackets_single b 0 0) as Hsb.
  destruct (Qlt_le_dec 0 a) as [Hapos|Hanonpos].
  - rewrite (calculate_federal_tax_in_range a) by lra.
    pose proof (proj1 (round2_near (bracket_loop tax_brackets_single a 0 0))) as Hra.
    pose proof (bracket_loop_sum tax_brackets_single a 0 0) as Hsa.
    pose proof (bracket_taxes_lipschitz 0.37 tax_brackets_single a b 0
                  ltac:(lra) single_ascending single_rates_below Hab).
    lra.
  - rewrite (calculate_federal_tax_nonpos a) by assumption.
    pose proof (bracket_taxes_le_top 0.37 tax_brackets_single b 0
                  ltac:(lra) single_ascending single_rates_below ltac:(lra)).
    lra.
Qed.

Lemma federal_tax_has_no_cliff_witness :
  calculate_federal_tax 11001 - calculate_federal_tax 11000
    <= 0.37 * (11001 - 11000) + 0.01.
Proof.
  apply (federal_tax_has_no_cliff 11000 11001); lra.
Defined.

End BracketMore.

(** ** More on calculate_taxes *)

Module CalculateTaxesMore.

Import Num NumFacts TaxCalculator Eff BracketSpec BracketFacts ValidationFacts
       ExampleRuntime.

(** Wages below the standard deduction. *)
Definition low_wages : dict := {[ "wages"%string := VFloat 10000 ]}.

(** The same wages, with dividends and a document type besides. *)
Definition low_wages_with_dividends : dict :=
  <["dividend_income" := VFloat 5000]>
    (<["document_type" := VStr "1099-DIV"]> low_wages).

Section WithRuntime.
Context `{Runtime}.

Lemma is_empty_insert (k : string) (v : pyval) (d : dict) :
  is_empty (<[k := v]> d) = false.
Proof.
  unfold is_empty. destruct (map_to_list (<[k := v]> d)) eqn:E; [|reflexivity].
  apply map_to_list_empty_iff in E. now apply insert_non_empty in E.
Qed.

Lemma is_empty_clamp_field (f : string) (d : dict) :
  is_empty d = false -> is_empty (clamp_field f d) = false.
Proof.
  intros Hd. unfold clamp_field. destruct (field_ok _); [exact Hd|].
  apply is_empty_insert.
Qed.

Lemma is_empty_validated (d : dict) :
  is_empty d = false -> is_empty (validated d) = false.
Proof.
  intros Hd.
  assert (Hc : is_empty (clamped d) = false).
  { unfold clamped, monetary_fields. cbn [fold_left].
    now repeat apply is_empty_clamp_field. }
  unfold validated.
  destruct (status_of d); try exact Hc.
  destruct (known_status s); [exact Hc | apply is_empty_insert].
Qed.

Lemma is_empty_interrupted (d : dict) :
  is_empty d = false -> is_empty (interrupted d) = false.
Proof.
  unfold interrupted. generalize monetary_fields. intros fields. revert d.
  induction fields as [|f rest IH]; intros d Hd; [exact Hd|].
  cbn [clamp_loop]. destruct (field_overflows f d); [exact Hd|].
  now apply IH, is_empty_clamp_field.
Qed.

(** A dictionary whose monetary fields are all acceptable goes through the
    loop unchanged. *)
Lemma clamped_fixed (d : dict) :
  (forall f, In f monetary_fields -> field_ok (default (VInt 0) (d !! f)) = true) ->
  clamped d = d.
Proof.
  intros Hok. unfold clamped, monetary_fields. cbn [fold_left].
  unfold clamp_field at 4. rewrite Hok by (simpl; tauto).
  unfold clamp_field at 3. rewrite Hok by (simpl; tauto).
  unfold clamp_field at 2. rewrite Hok by (simpl; tauto).
  unfold clamp_field at 1. now rewrite Hok by (simpl; tauto).
Qed.

Lemma field_ok_clamped (f : string) (d : dict) :
  In f monetary_fields ->
  field_ok (default (VInt 0) (clamped d !! f)) = true.
Proof.
  intros Hf. unfold field_ok. rewrite (py_float_clamped_all f d Hf).
  destruct (amount_range f d) as [H0 H1]. apply Qle_bool_iff in H0, H1.
  now rewrite H0, H1.
Qed.

Lemma known_status_single : known_status "single" = true.
Proof. reflexivity. Qed.

(** Validation is idempotent. *)
Lemma validated_fixed (d : dict) : validated (validated d) = validated d.
Proof.
  assert (Hcc : clamped (clamped d) = clamped d)
    by (apply clamped_fixed; intros f Hf; now apply field_ok_clamped).
  assert (Hins : clamped (<["filing_status"%string := VStr "single"]> (clamped d))
                 = <["filing_status"%string := VStr "single"]> (clamped d)).
  { apply clamped_fixed. intros f Hf.
    rewrite lookup_insert_ne; [now apply field_ok_clamped|].
    intros <-. simpl in Hf. intuition discriminate. }
  assert (Hst : status_of (<["filing_status"%string := VStr "single"]> (clamped d))
                = VStr "single").
  { unfold status_of. now rewrite lookup_insert_eq. }
  unfold validated.
  destruct (status_of d) as [| | | |s|] eqn:Es;
    try (rewrite status_of_clamped, Es; exact Hcc).
  destruct (known_status s) eqn:Ek.
  - now rewrite status_of_clamped, Es, Ek.
  - now rewrite Hst, known_status_single.
Qed.

(** After validation no monetary field overflows. *)
Lemma overflow_in_validated (d : dict) : overflow_in (validated d) = false.
Proof.
  assert (Hc : forall f, In f monetary_fields ->
                 field_overflows f (validated d) = false).
  { intros f Hf. unfold field_overflows. apply field_ok_fits.
    unfold validated.
    destruct (status_of d); try now apply field_ok_clamped.
    destruct (known_status s); [now apply field_ok_clamped|].
    rewrite lookup_insert_ne; [now apply field_ok_clamped|].
    intros <-. simpl in Hf. intuition discriminate. }
  unfold overflow_in. destruct (existsb _ _) eqn:E; [|reflexivity].
  apply existsb_exists in E as (f & Hf & Ef). rewrite (Hc f Hf) in Ef. discriminate.
Qed.

Lemma amount_validated (f : string) (d : dict) :
  In f monetary_fields -> amount f (validated d) = amount f d.
Proof.
  intros Hf.
  assert (Hins : amount f (<["filing_status"%string := VStr "single"]> (clamped d))
                 = amount f (clamped d)).
  { unfold amount. rewrite lookup_insert_ne; [reflexivity|].
    intros <-. simpl in Hf. intuition discriminate. }
  unfold validated.
  destruct (status_of d); try apply amount_clamped.
  destruct (known_status s); [apply amount_clamped|].
  rewrite Hins. apply amount_clamped.
Qed.


(** X4: a second call on the dictionary the first call left behind changes
    nothing and gives the same result: validation in place is idempotent. *)
Theorem calculate_taxes_twice (d : dict) :
  calculate_taxes (fst (calculate_taxes d)) = calculate_taxes d.
Proof.
  rewrite (calculate_taxes_eq d). destruct (is_empty d) eqn:Ed.
  - cbn [fst]. rewrite calculate_taxes_eq. now rewrite Ed.
  - destruct (overflow_in d) eqn:Eo.
    { cbn [fst]. rewrite calculate_taxes_eq, (is_empty_interrupted d Ed).
      unfold overflow_in, interrupted in *.
      rewrite <- clamp_loop_snd in *. rewrite clamp_loop_idem, Eo. reflexivity. }
    cbn [fst]. rewrite calculate_taxes_eq, (is_empty_validated d Ed), validated_fixed.
    rewrite overflow_in_validated.
    f_equal. rewrite !amount_validated by (simpl; tauto).
    assert (Hst : status_of (<["filing_status"%string := VStr "single"]> (clamped d))
                  = VStr "single").
    { unfold status_of. now rewrite lookup_insert_eq. }
    unfold validated.
    destruct (status_of d) as [| | | |s|] eqn:Es;
      try (rewrite status_of_clamped, Es; reflexivity).
    destruct (known_status s) eqn:Ek.
    + now rewrite status_of_clamped, Es.
    + rewrite Hst. unfold effective_status. now rewrite known_status_single, Ek.
Qed.

(** X5: the result depends on five keys only: two non-empty dictionaries
    that agree on wages, interest_income, other_income, federal_withholding
    and filing_status get the same result; dividend income, state
    withholding and every other entry are ignored. *)
Theorem calculate_taxes_reads_five_keys (d d' : dict) :
  is_empty d = false -> is_empty d' = false ->
  same_on read_keys d d' ->
  snd (calculate_taxes d) = snd (calculate_taxes d').
Proof.
  intros Hd Hd' Hsame. rewrite !calculate_taxes_eq, Hd, Hd'.
  assert (Ho : overflow_in d = overflow_in d').
  { unfold overflow_in. apply eq_iff_eq_true. rewrite !existsb_exists.
    assert (Hf : forall f, In f monetary_fields ->
                   field_overflows f d = field_overflows f d').
    { intros f Hf. unfold field_overflows. rewrite (Hsame f); [reflexivity|].
      unfold read_keys. apply in_or_app. now left. }
    split; intros (f & Hin & E); exists f; (split; [exact Hin|]);
      [rewrite <- (Hf f Hin) | rewrite (Hf f Hin)]; exact E. }
  rewrite <- Ho. destruct (overflow_in d); [reflexivity|]. cbn [snd].
  assert (Ha : forall f, In f monetary_fields -> amount f d = amount f d').
  { intros f Hf. unfold amount. rewrite (Hsame f); [reflexivity|].
    unfold read_keys. apply in_or_app. now left. }
  assert (Hs : status_of d = status_of d').
  { unfold status_of. rewrite (Hsame "filing_status"%string); [reflexivity|].
    unfold read_keys. apply in_or_app. right. simpl. tauto. }
  rewrite Hs, !Ha by (simpl; tauto). reflexivity.
Qed.

(** X6: when the reported total income does not exceed the reported
    standard deduction, the reported taxable income and federal tax are 0. *)
Theorem no_tax_below_standard_deduction (d : dict) :
  error (snd (calculate_taxes d)) = None ->
  total_income (snd (calculate_taxes d)) <= standard_deduction (snd (calculate_taxes d)) ->
  taxable_income (snd (calculate_taxes d)) == 0 /\
  federal_tax (snd (calculate_taxes d)) == 0.
Proof.
  rewrite calculate_taxes_eq. destruct (is_empty d); [discriminate|].
  destruct (overflow_in d); [discriminate|]. cbn [snd].
  destruct (status_of d) as [| | | |s|]; try discriminate. intros _.
  unfold result_for. cbn [total_income standard_deduction taxable_income federal_tax].
  set (total := if negb _ then 0 else _).
  set (sd := inject_Z _). intros Hle.
  pose proof (proj1 (round2_near total)) as Hnear.
  assert (Htaxable : 0 <= max0 (total - sd) /\ max0 (total - sd) <= 1 # 200).
  { unfold max0. case_le (total - sd) 0; lra. }
  destruct Htaxable as [Ht0 Ht1]. set (taxable := max0 (total - sd)) in *.
  assert (Hr : round2 (1 # 200) = 0) by reflexivity.
  split.
  - pose proof (round2_mono _ _ Ht1) as Hup. rewrite Hr in Hup.
    pose proof (round2_nonneg _ Ht0). lra.
  - assert (Htax : calculate_federal_tax taxable == 0).
    { pose proof (calculate_federal_tax_nonneg taxable ltac:(lra)) as Hlow.
      destruct (Qlt_le_dec 0 taxable) as [Hpos|Hnonpos].
      - rewrite calculate_federal_tax_in_range in * by lra.
        pose proof (bracket_loop_sum tax_brackets_single taxable 0 0) as Hsum.
        pose proof (bracket_taxes_le_top 0.37 tax_brackets_single taxable 0
                      ltac:(lra) single_ascending single_rates_below ltac:(lra)) as Htop.
        assert (Hsmall : bracket_loop tax_brackets_single taxable 0 0 <= 1 # 200) by lra.
        pose proof (round2_mono _ _ Hsmall) as Hup. rewrite Hr in Hup. lra.
      - rewrite calculate_federal_tax_nonpos by assumption. reflexivity. }
    rewrite (round2_comp _ _ Htax). reflexivity.
Qed.

(** X7: the refund flag never contradicts the sign of the reported amount:
    a refund is reported with a non-negative amount, anything else with a
    non-positive one. *)
Theorem refund_flag_agrees_with_sign (d : dict) :
  error (snd (calculate_taxes d)) = None ->
  if is_refund (snd (calculate_taxes d))
  then 0 <= refund_or_owed (snd (calculate_taxes d))
  else refund_or_owed (snd (calculate_taxes d)) <= 0.
Proof.
  rewrite calculate_taxes_eq. destruct (is_empty d); [discriminate|].
  destruct (overflow_in d); [discriminate|]. cbn [snd].
  destruct (status_of d) as [| | | |s|]; try discriminate. intros _.
  unfold result_for. cbn [is_refund refund_or_owed].
  match goal with |- context [Qle_bool ?x 0] => case_le x 0; cbn [negb] end.
  - pose proof (round2_mono _ _ E) as Hup. now rewrite round2_0 in Hup.
  - apply round2_nonneg. lra.
Qed.

End WithRuntime.

(** Wages of 10^400, an [int] too large for [float]: the call ends in the
    error result of an unexpected error. *)
Lemma huge_wages_are_an_error :
  error (snd (calculate_taxes {[ "wages"%string := VInt (10 ^ 400) ]}))
    = Some (CalculationError OverflowError).
Proof. vm_compute. reflexivity. Qed.

Lemma calculate_taxes_reads_five_keys_witness :
  snd (calculate_taxes low_wages) = snd (calculate_taxes low_wages_with_dividends).
Proof.
  apply (calculate_taxes_reads_five_keys low_wages low_wages_with_dividends).
  - reflexivity.
  - reflexivity.
  - intros k Hk. unfold read_keys in Hk. simpl in Hk.
    repeat (destruct Hk as [<-|Hk]; [vm_compute; reflexivity|]). destruct Hk.
Defined.

Lemma no_tax_below_standard_deduction_witness :
  taxable_income (snd (calculate_taxes low_wages)) == 0 /\
  federal_tax (snd (calculate_taxes low_wages)) == 0.
Proof.
  apply (no_tax_below_standard_deduction low_wages).
  - vm_compute. reflexivity.
  - vm_compute. discriminate.
Defined.

Lemma refund_flag_agrees_with_sign_witness :
  if is_refund (snd (calculate_taxes low_wages))
  then 0 <= refund_or_owed (snd (calculate_taxes low_wages))
  else refund_or_owed (snd (calculate_taxes low_wages)) <= 0.
Proof.
  apply (refund_flag_agrees_with_sign low_wages). vm_compute. reflexivity.
Defined.

End CalculateTaxesMore.

(** ** Text helpers *)

Module TextFacts.

(** No character of [s] is white space. *)
Fixpoint spaceless (s : string) : bool :=
  match s with
  | EmptyString => true
  | String c s' => negb (is_space c) && spaceless s'
  end.

Lemma lstrip_head (s : string) :
  lstrip s = EmptyString \/
  exists c s', lstrip s = String c s' /\ is_space c = false.
Proof.
  induction s as [|c s IH]; simpl; [now left|].
  destruct (is_space c) eqn:E; [exact IH|]. right. eauto.
Qed.

Lemma rstrip_head (c : ascii) (s : string) :
  is_space c = false -> exists r, rstrip (String c s) = String c r.
Proof.
  intros E. simpl. destruct (rstrip s); [rewrite E|]; eauto.
Qed.

Lemma rstrip_idem (s : string) : rstrip (rstrip s) = rstrip s.
Proof.
  induction s as [|c s IH]; [reflexivity|]. simpl.
  destruct (rstrip s) as [|c' r] eqn:E.
  - destruct (is_space c) eqn:Ec; [reflexivity|]. simpl. now rewrite Ec.
  - change (rstrip (String c (String c' r))) with
      (match rstrip (String c' r) with
       | EmptyString => if is_space c then EmptyString else String c EmptyString
       | r' => String c r'
       end).
    now rewrite IH.
Qed.

(** Stripping twice is stripping once. *)
Lemma strip_idem (s : string) : strip (strip s) = strip s.
Proof.
  unfold strip. destruct (lstrip_head s) as [E|(c & s' & E & Ec)]; rewrite E.
  - reflexivity.
  - destruct (rstrip_head c s' Ec) as [r Er]. rewrite Er.
    cbn [lstrip]. rewrite Ec, <- Er. apply rstrip_idem.
Qed.

Lemma rstrip_spaceless (s : string) : spaceless s = true -> rstrip s = s.
Proof.
  induction s as [|c s IH]; [reflexivity|]. simpl.
  intros [Ec Hs]%andb_prop. rewrite (IH Hs).
  destruct s; [|reflexivity]. apply negb_true_iff in Ec. now rewrite Ec.
Qed.

(** A text without white space is its own strip. *)
Lemma strip_spaceless (s : string) : spaceless s = true -> strip s = s.
Proof.
  intros Hs. unfold strip.
  assert (El : lstrip s = s).
  { destruct s as [|c s]; [reflexivity|]. simpl in *.
    apply andb_prop in Hs as [Ec _]. apply negb_true_iff in Ec. now rewrite Ec. }
  rewrite El. now apply rstrip_spaceless.
Qed.

Lemma spaceless_substring (s : string) : forall n m,
  spaceless s = true -> spaceless (substring n m s) = true.
Proof.
  induction s as [|c s IH]; intros n m Hs.
  - now destruct n, m.
  - simpl in Hs. apply andb_prop in Hs as [Ec Hs].
    destruct n; [destruct m|]; simpl; [reflexivity | | now apply IH].
    now rewrite Ec, IH.
Qed.

Lemma is_digit_not_space (c : ascii) :
  (48 <=? nat_of_ascii c)%nat && (nat_of_ascii c <=? 57)%nat = true ->
  is_space c = false.
Proof.
  unfold is_space. intros [H1 H2]%andb_prop.
  apply Nat.leb_le in H1, H2.
  apply orb_false_iff. split; apply andb_false_iff.
  - right. apply Nat.leb_gt. lia.
  - right. apply Nat.leb_gt. lia.
Qed.

Lemma spaceless_digits_of (s : string) : spaceless (digits_of s) = true.
Proof.
  induction s as [|c s IH]; [reflexivity|]. simpl.
  destruct (_ && _) eqn:E; [|exact IH]. simpl.
  now rewrite (is_digit_not_space c E), IH.
Qed.

(** The digits of a text of digits are the text. *)
Lemma digits_of_idem (s : string) : digits_of (digits_of s) = digits_of s.
Proof.
  induction s as [|c s IH]; [reflexivity|]. simpl.
  destruct (_ && _) eqn:E; [|exact IH]. simpl. now rewrite E, IH.
Qed.

Lemma digits_of_fixed_tail (c : ascii) (s : string) :
  digits_of (String c s) = String c s -> digits_of s = s.
Proof.
  simpl. destruct (_ && _) eqn:E.
  - now intros [= ->].
  - intros Hs. exfalso.
    assert (Hlen : (String.length (digits_of s) <= String.length s)%nat).
    { clear. induction s as [|c' s IH]; simpl; [lia|].
      destruct (_ && _); simpl; lia. }
    rewrite Hs in Hlen. simpl in Hlen. lia.
Qed.

Lemma digits_of_substring (s : string) : forall n m,
  digits_of s = s -> digits_of (substring n m s) = substring n m s.
Proof.
  induction s as [|c s IH]; intros n m Hs.
  - now destruct n, m.
  - pose proof (digits_of_fixed_tail c s Hs) as Hs'.
    destruct n; [destruct m|]; simpl; [reflexivity | | now apply IH].
    simpl in Hs. destruct (_ && _) eqn:E.
    + simpl. now rewrite IH.
    + exfalso.
      assert (Hlen : forall t, (String.length (digits_of t) <= String.length t)%nat).
      { clear. induction t as [|c' t IH]; simpl; [lia|].
        destruct (_ && _); simpl; lia. }
      specialize (Hlen s). rewrite Hs in Hlen. simpl in Hlen. lia.
Qed.

Lemma length_substring (s : string) : forall n m,
  (n + m <= String.length s)%nat -> String.length (substring n m s) = m.
Proof.
  induction s as [|c s IH]; intros n m Hlen; simpl in Hlen.
  - destruct n, m; simpl; lia.
  - destruct n; [destruct m|]; simpl; [reflexivity | |].
    + rewrite IH; lia.
    + apply IH. lia.
Qed.

Lemma substring_all (b : string) : substring 0 (String.length b) b = b.
Proof. induction b as [|c b IH]; [reflexivity|]. simpl. now rewrite IH. Qed.

Lemma append_cons (c : ascii) (a b : string) :
  String c a +:+ b = String c (a +:+ b).
Proof. reflexivity. Qed.

Lemma append_nil (b : string) : "" +:+ b = b.
Proof. reflexivity. Qed.

Lemma substring_app_l (a b : string) :
  substring 0 (String.length a) (a +:+ b) = a.
Proof.
  induction a as [|c a IH].
  - rewrite append_nil. now destruct b.
  - rewrite append_cons. simpl. now rewrite IH.
Qed.

Lemma substring_app_r (a b : string) :
  substring (String.length a) (String.length b) (a +:+ b) = b.
Proof.
  induction a as [|c a IH].
  - rewrite append_nil. apply substring_all.
  - rewrite append_cons. exact IH.
Qed.

Lemma length_app (a b : string) :
  String.length (a +:+ b) = (String.length a + String.length b)%nat.
Proof.
  induction a as [|c a IH]; [reflexivity|].
  rewrite append_cons. simpl. now rewrite IH.
Qed.

Lemma spaceless_app (a b : string) :
  spaceless (a +:+ b) = spaceless a && spaceless b.
Proof.
  induction a as [|c a IH]; [reflexivity|].
  rewrite append_cons. simpl. now rewrite IH, andb_assoc.
Qed.

Lemma digits_of_app (a b : string) :
  digits_of (a +:+ b) = digits_of a +:+ digits_of b.
Proof.
  induction a as [|c a IH]; [reflexivity|].
  rewrite append_cons. simpl. destruct (_ && _); now rewrite IH.
Qed.

End TextFacts.

(** ** The normalised record, field by field *)

Module NormalizerMore.

Import Eff EffLogic Normalizer NormalizerProps TextFacts ExampleRuntime.

(** [if data[field] not in allowed: dflt] *)
Definition enum_value (allowed : list string) (dflt s : string) : string :=
  if mem s allowed then s else dflt.

(** The state written back for the text [s]. *)
Definition state_value (s : string) : string :=
  if negb (String.eqb s "") && (2 <? String.length s)%nat then
    match state_mapping !! lower s with
    | Some code => code
    | None => s
    end
  else s.

(** The ZIP code written back for the text [z]. *)
Definition zip_value (z : string) : string :=
  if negb (String.eqb z "") then format_zip (digits_of z) else z.

(** The fields the normalisation fills and then leaves alone. *)
Definition passive_fields : list string :=
  [ "classification_confidence"; "extraction_confidence";
    "validation_flags"; "requires_review" ]%string.

Lemma mem_cons (k x : string) (xs : list string) :
  mem k (x :: xs) = String.eqb k x || mem k xs.
Proof. reflexivity. Qed.

Lemma mem_false_ne (k x : string) (xs : list string) :
  mem k xs = false -> In x xs -> x <> k.
Proof. intros Hk Hx ->. apply mem_In in Hx. congruence. Qed.

(** A loop of which every turn rewrites the field it is about: afterwards
    the fields of the loop hold the rewritten values, and the others are
    as before. *)
Lemma for_each_rewrites (ok : pyval -> Prop) (F : string -> pyval -> pyval)
    (body : string -> M unit) :
  (forall g d v, d !! g = Some v -> ok v -> body g d = (<[g := F g v]> d, inr tt)) ->
  forall xs d,
    NoDup xs -> (forall g, In g xs -> exists v, d !! g = Some v /\ ok v) ->
    exists d', for_each xs body d = (d', inr tt) /\
      forall k, d' !! k = if mem k xs then F k <$> d !! k else d !! k.
Proof.
  intros Hbody. induction xs as [|x xs IH]; intros d Hnd Hkeys.
  - exists d. split; reflexivity.
  - apply NoDup_cons in Hnd as [Hx Hnd].
    destruct (Hkeys x (or_introl eq_refl)) as (v & Hv & Hok).
    destruct (IH (<[x := F x v]> d) Hnd) as (d' & E & Hd').
    { intros g Hg. destruct (decide (x = g)) as [->|Hne].
      - exfalso. apply Hx. now apply list_elem_of_In.
      - rewrite lookup_insert_ne by assumption. apply Hkeys. now right. }
    exists d'. split.
    { cbn [for_each]. unfold bind. now rewrite (Hbody x d v Hv Hok). }
    intros k. rewrite Hd', mem_cons.
    destruct (String.eqb_spec k x) as [->|Hne]; cbn [orb].
    + assert (E' : mem x xs = false).
      { destruct (mem x xs) eqn:Em; [|reflexivity].
        apply mem_In in Em. exfalso. apply Hx. now apply list_elem_of_In. }
      now rewrite E', lookup_insert_eq, Hv.
    + now rewrite lookup_insert_ne by congruence.
Qed.

Lemma fill_defaults_eq (xs : list string) : forall d,
  exists d', for_each xs fill_default d = (d', inr tt) /\
    forall k, d' !! k =
      match d !! k with
      | Some v => Some v
      | None => if mem k xs then Some (default_for k) else None
      end.
Proof.
  induction xs as [|x xs IH]; intros d.
  - exists d. split; [reflexivity|]. intros k. now destruct (d !! k).
  - destruct (IH (match d !! x with
                  | None => <[x := default_for x]> d
                  | Some _ => d
                  end)) as (d' & E & Hd').
    exists d'. split.
    { cbn [for_each]. unfold bind. now rewrite fill_default_eq. }
    intros k. rewrite Hd', mem_cons.
    destruct (String.eqb_spec k x) as [->|Hne]; cbn [orb].
    + destruct (d !! x) eqn:Ex; [now rewrite Ex|]. now rewrite lookup_insert_eq.
    + destruct (d !! x) eqn:Ex; [reflexivity|].
      now rewrite lookup_insert_ne by congruence.
Qed.

Lemma required_fields_NoDup : NoDup required_fields.
Proof.
  unfold required_fields.
  repeat (apply NoDup_cons; split;
          [rewrite list_elem_of_In; apply not_mem_In; reflexivity|]).
  apply NoDup_nil. constructor.
Qed.

Lemma money_fields_NoDup : NoDup money_fields.
Proof.
  unfold money_fields.
  repeat (apply NoDup_cons; split;
          [rewrite list_elem_of_In; apply not_mem_In; reflexivity|]).
  apply NoDup_nil. constructor.
Qed.

Lemma str_fields_NoDup : NoDup str_fields.
Proof.
  unfold str_fields.
  repeat (apply NoDup_cons; split;
          [rewrite list_elem_of_In; apply not_mem_In; reflexivity|]).
  apply NoDup_nil. constructor.
Qed.

Section WithRuntime.
Context `{Runtime}.

(** The value of the field [k] once the defaults are in. *)
Definition filled (data : dict) (k : string) : pyval :=
  default (default_for k) (data !! k).

(** The text of the field [k] after the text loop. *)
Definition text (data : dict) (k : string) : string :=
  strip (py_str (filled data k)).

(** What the normalised record holds at the key [k]. *)
Definition normal_value (data : dict) (k : string) : option pyval :=
  if mem k money_fields then Some (VFloat (money_value (filled data k)))
  else if String.eqb k "filing_status"
  then Some (VStr (enum_value filing_statuses "single" (text data k)))
  else if String.eqb k "document_type"
  then Some (VStr (enum_value document_types "Other" (text data k)))
  else if String.eqb k "document_quality"
  then Some (VStr (enum_value document_qualities "medium" (text data k)))
  else if String.eqb k "state" then Some (VStr (state_value (text data k)))
  else if String.eqb k "zip_code" then Some (VStr (zip_value (text data k)))
  else if mem k str_fields then Some (VStr (text data k))
  else if mem k required_fields then Some (filled data k)
  else data !! k.

Lemma normalize_state_value (d : dict) (s : string) :
  d !! "state"%string = Some (VStr s) ->
  normalize_state d = (<["state"%string := VStr (state_value s)]> d, inr tt).
Proof.
  intros Hs. unfold normalize_state, state_value, item_str, bind, item, set, ret.
  rewrite Hs. destruct (_ && _); [destruct (state_mapping !! lower s)|];
    try reflexivity; now rewrite insert_id.
Qed.

Lemma normalize_zip_value (d : dict) (z : string) :
  d !! "zip_code"%string = Some (VStr z) ->
  normalize_zip d = (<["zip_code"%string := VStr (zip_value z)]> d, inr tt).
Proof.
  intros Hz. unfold normalize_zip, zip_value, item_str, bind, item, set, ret.
  rewrite Hz. destruct (negb _); [reflexivity | now rewrite insert_id].
Qed.

Lemma filled_lookup (data : dict) (k : string) :
  mem k required_fields = true ->
  match data !! k with
  | Some v => Some v
  | None => if mem k required_fields then Some (default_for k) else None
  end = Some (filled data k).
Proof. intros ->. unfold filled. now destruct (data !! k). Qed.

Lemma mem_money_required (k : string) :
  mem k money_fields = true ->
  mem k required_fields = true /\ mem k str_fields = false /\
  String.eqb k "filing_status" = false /\ String.eqb k "document_type" = false /\
  String.eqb k "document_quality" = false /\ String.eqb k "state" = false /\
  String.eqb k "zip_code" = false.
Proof.
  intros Hk. apply mem_In in Hk. simpl in Hk.
  repeat (destruct Hk as [<-|Hk]; [repeat split; reflexivity|]). destruct Hk.
Qed.

Lemma mem_str_required (k : string) :
  mem k str_fields = true -> mem k required_fields = true.
Proof.
  intros Hk. apply mem_In in Hk. simpl in Hk.
  repeat (destruct Hk as [<-|Hk]; [reflexivity|]). destruct Hk.
Qed.

(** The normalisation returns, and its result is [normal_value] at every
    key. *)
Lemma normalize_eq (data : dict) :
  money_fits data = true ->
  exists data', normalize data = (data', inr tt) /\
                forall k, data' !! k = normal_value data k.
Proof.
  intros Hfit.
  destruct (fill_defaults_eq required_fields data) as (d1 & E1 & H1).
  assert (Hreq : forall k, mem k required_fields = true ->
                           d1 !! k = Some (filled data k)).
  { intros k Hk. rewrite H1. destruct (data !! k) eqn:Ek; unfold filled; rewrite Ek;
      [reflexivity | now rewrite Hk]. }
  destruct (for_each_rewrites (fun v => overflows v = false)
              (fun _ v => VFloat (money_value v)) normalize_money
              (fun g d v Hv Hok => normalize_money_eq g d v Hv Hok)
              money_fields d1 money_fields_NoDup) as (d2 & E2 & H2).
  { intros g Hg. destruct (money_field_facts g Hg) as (Hr & _ & _ & _ & Hdflt).
    exists (filled data g). split; [apply Hreq; now apply mem_In|].
    unfold filled. rewrite Hdflt. now apply money_fits_field. }
  destruct (for_each_rewrites (fun _ => True)
              (fun _ v => VStr (strip (py_str v))) normalize_str
              (fun g d v Hv _ => normalize_str_eq g d v Hv)
              str_fields d2 str_fields_NoDup) as (d3 & E3 & H3).
  { intros g Hg. destruct (str_field_facts g Hg) as (Hreq' & Hnm & _).
    rewrite H2. destruct (mem g money_fields) eqn:Em.
    - apply mem_In in Em. contradiction.
    - rewrite Hreq; [eauto | now apply mem_In]. }
  assert (Htext : forall k, mem k str_fields = true ->
                            d3 !! k = Some (VStr (text data k))).
  { intros k Hk. rewrite H3, Hk, H2.
    destruct (mem k money_fields) eqn:Em.
    - apply mem_money_required in Em as (_ & Em & _). congruence.
    - now rewrite Hreq by now apply mem_str_required. }
  set (d4 := <["filing_status"%string :=
                 VStr (enum_value filing_statuses "single" (text data "filing_status"))]> d3).
  set (d5 := <["document_type"%string :=
                 VStr (enum_value document_types "Other" (text data "document_type"))]> d4).
  set (d6 := <["document_quality"%string :=
                 VStr (enum_value document_qualities "medium" (text data "document_quality"))]> d5).
  set (d7 := <["state"%string := VStr (state_value (text data "state"))]> d6).
  set (d8 := <["zip_code"%string := VStr (zip_value (text data "zip_code"))]> d7).
  exists d8. split.
  - unfold normalize, d8, d7, d6, d5, d4. unfold bind at 1. rewrite E1.
    unfold bind at 1. rewrite E2. unfold bind at 1. rewrite E3.
    unfold bind at 1.
    rewrite (check_enum_eq "filing_status" filing_statuses "single" _
               (text data "filing_status")) by (now apply Htext).
    unfold bind at 1.
    rewrite (check_enum_eq "document_type" document_types "Other" _
               (text data "document_type"))
      by (rewrite lookup_insert_ne by discriminate; now apply Htext).
    unfold bind at 1.
    rewrite (check_enum_eq "document_quality" document_qualities "medium" _
               (text data "document_quality"))
      by (rewrite !lookup_insert_ne by discriminate; now apply Htext).
    unfold bind at 1.
    rewrite (normalize_state_value _ (text data "state"))
      by (rewrite !lookup_insert_ne by discriminate; now apply Htext).
    rewrite (normalize_zip_value _ (text data "zip_code"))
      by (rewrite !lookup_insert_ne by discriminate; now apply Htext).
    reflexivity.
  - intros k. unfold normal_value, d8, d7, d6, d5, d4.
    destruct (mem k money_fields) eqn:Em.
    + destruct (mem_money_required k Em) as (Hr & Hs & N1 & N2 & N3 & N4 & N5).
      apply String.eqb_neq in N1, N2, N3, N4, N5.
      rewrite !lookup_insert_ne by congruence.
      now rewrite H3, Hs, H2, Em, Hreq.
    + destruct (String.eqb_spec k "filing_status") as [->|N1].
      { rewrite !lookup_insert_ne by discriminate. now rewrite lookup_insert_eq. }
      destruct (String.eqb_spec k "document_type") as [->|N2].
      { rewrite !lookup_insert_ne by discriminate. now rewrite lookup_insert_eq. }
      destruct (String.eqb_spec k "document_quality") as [->|N3].
      { rewrite !lookup_insert_ne by discriminate. now rewrite lookup_insert_eq. }
      destruct (String.eqb_spec k "state") as [->|N4].
      { rewrite !lookup_insert_ne by discriminate. now rewrite lookup_insert_eq. }
      destruct (String.eqb_spec k "zip_code") as [->|N5].
      { now rewrite lookup_insert_eq. }
      rewrite !lookup_insert_ne by congruence.
      destruct (mem k str_fields) eqn:Es; [now apply Htext|].
      rewrite H3, Es, H2, Em.
      destruct (mem k required_fields) eqn:Er; [now apply Hreq|].
      rewrite H1, Er. now destruct (data !! k).
Qed.

Lemma money_value_nonneg (v : pyval) : 0 <= money_value v.
Proof.
  unfold money_value. destruct (py_float (clean_money v)) as [e|x]; [discriminate|].
  destruct (Qle_bool 0 x) eqn:E; [now apply Qle_bool_iff | discriminate].
Qed.

Lemma money_value_float (x : Q) : 0 <= x -> money_value (VFloat x) = x.
Proof.
  intros Hx. unfold money_value. simpl. apply Qle_bool_iff in Hx. now rewrite Hx.
Qed.

Lemma enum_value_allowed (allowed : list string) (dflt s : string) :
  mem dflt allowed = true -> mem (enum_value allowed dflt s) allowed = true.
Proof. intros Hd. unfold enum_value. now destruct (mem s allowed) eqn:E. Qed.

Lemma enum_value_idem (allowed : list string) (dflt s : string) :
  mem dflt allowed = true ->
  enum_value allowed dflt (enum_value allowed dflt s) = enum_value allowed dflt s.
Proof.
  intros Hd. unfold enum_value at 1. now rewrite enum_value_allowed.
Qed.

Lemma enum_value_stripped (allowed : list string) (dflt s : string) :
  strip dflt = dflt -> strip s = s ->
  strip (enum_value allowed dflt s) = enum_value allowed dflt s.
Proof. intros Hd Hs. unfold enum_value. now destruct (mem s allowed). Qed.

(** The codes of the state table are two characters, none of them white
    space. *)
Lemma state_codes (k code : string) :
  state_mapping !! k = Some code ->
  String.length code = 2%nat /\ strip code = code.
Proof.
  unfold state_mapping. cbn [list_to_map foldr uncurry fst snd curry].
  intros Hk.
  repeat (apply lookup_insert_Some in Hk as [[_ <-]|[_ Hk]]; [split; reflexivity|]).
  now rewrite lookup_empty in Hk.
Qed.

Lemma state_value_stripped (s : string) :
  strip s = s -> strip (state_value s) = state_value s.
Proof.
  intros Hs. unfold state_value. destruct (_ && _); [|exact Hs].
  destruct (state_mapping !! lower s) as [code|] eqn:E; [|exact Hs].
  now apply state_codes in E.
Qed.

Lemma state_value_idem (s : string) : state_value (state_value s) = state_value s.
Proof.
  destruct (negb (String.eqb s "") && (2 <? String.length s)%nat) eqn:Ec;
    [destruct (state_mapping !! lower s) as [code|] eqn:E|].
  - assert (Hs : state_value s = code) by (unfold state_value; now rewrite Ec, E).
    rewrite Hs. apply state_codes in E as [Hlen _]. unfold state_value.
    rewrite Hlen. change (2 <? 2)%nat with false. now rewrite andb_false_r.
  - assert (Hs : state_value s = s) by (unfold state_value; now rewrite Ec, E).
    now rewrite !Hs.
  - assert (Hs : state_value s = s) by (unfold state_value; now rewrite Ec).
    now rewrite !Hs.
Qed.

(** The shapes of a formatted ZIP code. *)
Lemma format_zip_cases (z : string) :
  digits_of z = z ->
  format_zip z = EmptyString \/
  (format_zip z = z /\ (5 <= String.length z)%nat /\ (String.length z < 9)%nat) \/
  exists a b,
    format_zip z = a +:+ "-" +:+ b /\
    digits_of a = a /\ digits_of b = b /\
    String.length a = 5%nat /\ String.length b = 4%nat.
Proof.
  intros Hz. unfold format_zip.
  destruct (5 <=? String.length z)%nat eqn:E5; [|now left].
  apply Nat.leb_le in E5.
  destruct (String.length z =? 5)%nat eqn:E;
    [apply Nat.eqb_eq in E; right; left; split; [reflexivity | lia]|].
  destruct (9 <=? String.length z)%nat eqn:E9.
  - apply Nat.leb_le in E9. right. right.
    exists (substring 0 5 z), (substring 5 4 z).
    split; [reflexivity|].
    split; [now apply digits_of_substring|].
    split; [now apply digits_of_substring|].
    split; apply length_substring; lia.
  - apply Nat.leb_gt in E9. right. left. split; [reflexivity | lia].
Qed.

Lemma format_zip_fixed (z : string) :
  digits_of z = z ->
  format_zip (digits_of (format_zip z)) = format_zip z /\
  strip (format_zip z) = format_zip z.
Proof.
  intros Hz. destruct (format_zip_cases z Hz) as [E|[(E & H5 & H9)|(a & b & E & Ha & Hb & La & Lb)]].
  - rewrite E. split; reflexivity.
  - rewrite E, Hz. split; [exact E|].
    apply strip_spaceless. rewrite <- Hz. apply spaceless_digits_of.
  - rewrite E. split.
    + rewrite !digits_of_app, Ha, Hb.
      change (digits_of "-") with EmptyString. rewrite append_nil.
      unfold format_zip. rewrite length_app, La, Lb. cbn [Nat.add Nat.leb Nat.eqb].
      rewrite <- La at 1. rewrite substring_app_l.
      rewrite <- La at 1. rewrite <- Lb at 1. now rewrite substring_app_r.
    + apply strip_spaceless. rewrite !spaceless_app.
      rewrite <- Ha, <- Hb, !spaceless_digits_of. reflexivity.
Qed.

Lemma zip_value_fixed (z : string) :
  zip_value (zip_value z) = zip_value z /\ strip (zip_value z) = zip_value z.
Proof.
  destruct (String.eqb_spec z "") as [->|Hne]; [split; reflexivity|].
  assert (Hz : zip_value z = format_zip (digits_of z)).
  { unfold zip_value. now destruct (String.eqb_spec z ""). }
  rewrite Hz.
  destruct (format_zip_fixed (digits_of z) (digits_of_idem z)) as [Hf Hs].
  split; [|exact Hs]. unfold zip_value.
  destruct (String.eqb_spec (format_zip (digits_of z)) "") as [->|_]; cbn [negb];
    [reflexivity | exact Hf].
Qed.

(** A second normalisation finds every field as the first one left it. *)
Lemma normal_value_fixed (data data' : dict) :
  (forall k, data' !! k = normal_value data k) ->
  forall k, normal_value data' k = normal_value data k.
Proof.
  intros Hd k.
  assert (Hfill : forall v, data' !! k = Some v -> filled data' k = v).
  { intros v Hv. unfold filled. now rewrite Hv. }
  assert (Htext : forall t, data' !! k = Some (VStr t) -> text data' k = strip t).
  { intros t Ht. unfold text. now rewrite (Hfill _ Ht). }
  assert (Hstrip : strip (text data k) = text data k) by apply strip_idem.
  pose proof (Hd k) as Hk. unfold normal_value in Hk |- *.
  destruct (mem k money_fields).
  { rewrite (Hfill _ Hk).
    now rewrite money_value_float by apply money_value_nonneg. }
  destruct (String.eqb k "filing_status").
  { rewrite (Htext _ Hk), enum_value_stripped by (reflexivity || assumption).
    now rewrite enum_value_idem. }
  destruct (String.eqb k "document_type").
  { rewrite (Htext _ Hk), enum_value_stripped by (reflexivity || assumption).
    now rewrite enum_value_idem. }
  destruct (String.eqb k "document_quality").
  { rewrite (Htext _ Hk), enum_value_stripped by (reflexivity || assumption).
    now rewrite enum_value_idem. }
  destruct (String.eqb k "state").
  { rewrite (Htext _ Hk), state_value_stripped by assumption.
    now rewrite state_value_idem. }
  destruct (String.eqb k "zip_code").
  { rewrite (Htext _ Hk). destruct (zip_value_fixed (text data k)) as [Hz Hs].
    now rewrite Hs, Hz. }
  destruct (mem k str_fields).
  { now rewrite (Htext _ Hk), Hstrip. }
  destruct (mem k required_fields).
  { now rewrite (Hfill _ Hk). }
  exact Hk.
Qed.

Lemma normalize_response_eq (data : dict) :
  money_fits data = true ->
  exists data', normalize_response (JObject data) = inr data' /\
                forall k, data' !! k = normal_value data k.
Proof.
  intros Hfit. destruct (normalize_eq data Hfit) as (data' & E & Hd).
  exists data'. unfold normalize_response. now rewrite E.
Qed.

Lemma existsb_same_in {A} (p q : A -> bool) (l : list A) :
  (forall x, In x l -> p x = q x) -> existsb p l = existsb q l.
Proof.
  induction l as [|x l IH]; intros E; [reflexivity|]. cbn [existsb].
  rewrite (E x (or_introl eq_refl)), IH; [reflexivity|].
  intros y Hy. apply E. now right.
Qed.

(** The money loop stops at the first field that holds an [int] too large
    for [float]. *)
Lemma money_loop_overflow (xs : list string) : forall d,
  NoDup xs -> (forall g, In g xs -> is_Some (d !! g)) ->
  existsb (fun g => overflows (default (VFloat 0) (d !! g))) xs = true ->
  exists d', for_each xs normalize_money d = (d', inl OverflowError).
Proof.
  induction xs as [|x xs IH]; intros d Hnd Hkeys Hex; [discriminate|].
  apply NoDup_cons in Hnd as [Hx Hnd].
  destruct (Hkeys x (or_introl eq_refl)) as [v Hv].
  cbn [for_each existsb] in *. unfold bind.
  destruct (overflows v) eqn:Ev.
  - exists d. now rewrite (normalize_money_overflow x d v Hv Ev).
  - rewrite (normalize_money_eq x d v Hv Ev).
    rewrite Hv in Hex. cbn [default from_option id] in Hex.
    rewrite Ev in Hex. cbn [orb] in Hex.
    assert (Hne : forall g, In g xs -> x <> g).
    { intros g Hg ->. apply Hx. now apply list_elem_of_In. }
    apply IH; [exact Hnd | |].
    + intros g Hg. rewrite lookup_insert_ne by now apply Hne.
      apply Hkeys. now right.
    + rewrite <- Hex. apply existsb_same_in. intros g Hg.
      now rewrite lookup_insert_ne by now apply Hne.
Qed.

(** With such a field the normalisation raises. *)
Lemma normalize_response_overflow (data : dict) :
  money_fits data = false ->
  normalize_response (JObject data) = inl OverflowError.
Proof.
  intros Hfit.
  destruct (fill_defaults_eq required_fields data) as (d1 & E1 & H1).
  assert (Hreq : forall k, mem k required_fields = true ->
                           d1 !! k = Some (filled data k)).
  { intros k Hk. rewrite H1. destruct (data !! k) eqn:Ek; unfold filled; rewrite Ek;
      [reflexivity | now rewrite Hk]. }
  destruct (money_loop_overflow money_fields d1 money_fields_NoDup) as (d2 & E2).
  { intros g Hg. rewrite Hreq; [eauto|]. apply mem_In. now apply money_field_facts. }
  { unfold money_fits in Hfit.
    destruct (existsb _ money_fields) eqn:Ex; [reflexivity|].
    rewrite <- Hfit. apply (proj2 (forallb_forall _ _)). intros g Hg.
    apply negb_true_iff.
    destruct (overflows (default (VFloat 0) (data !! g))) eqn:Eg; [|reflexivity].
    assert (Hsome : existsb (fun g => overflows (default (VFloat 0) (d1 !! g)))
                      money_fields = true).
    { apply existsb_exists. exists g. split; [exact Hg|].
      destruct (money_field_facts g Hg) as (Hr & _ & _ & _ & Hdflt).
      rewrite Hreq by now apply mem_In. unfold filled. now rewrite Hdflt. }
    congruence. }
  unfold normalize_response, normalize. unfold bind at 1. rewrite E1.
  unfold bind at 1. now rewrite E2.
Qed.

(** Every text field of the response is ASCII text. *)
Definition text_is_ascii (data : dict) : bool :=
  forallb (fun g => ascii_text (py_str (filled data g))) str_fields.

(** X8: the normalisation of a JSON object raises in one case only, a
    monetary field that is an [int] too large for [float] (the
    [OverflowError] is not caught by the money loop); otherwise it returns a
    record that holds every one of the 24 required fields. *)
Theorem normalize_returns_complete_record (data : dict) :
  if money_fits data
  then exists data',
         normalize_response (JObject data) = inr data' /\
         forall g, In g required_fields -> is_Some (data' !! g)
  else normalize_response (JObject data) = inl OverflowError.
Proof.
  destruct (money_fits data) eqn:Hfit; [|now apply normalize_response_overflow].
  destruct (normalize_response_eq data Hfit) as (data' & E & Hd).
  exists data'. split; [exact E|]. intros g Hg. apply mem_In in Hg.
  rewrite Hd. unfold normal_value.
  repeat match goal with
         | |- is_Some (if ?c then _ else _) => destruct c eqn:?; [eauto|]
         end.
  congruence.
Qed.

(** X9: when no monetary field is an [int] too large for [float], every
    monetary field of the normalised record is a float that is not
    negative: the coerced value when there is one and it is not negative,
    and 0 when the value is negative or cannot be coerced. *)
Theorem normalized_money_is_clamped (data : dict) :
  money_fits data = true ->
  exists data',
    normalize_response (JObject data) = inr data' /\
    Forall (fun f =>
              exists x, data' !! f = Some (VFloat x) /\ 0 <= x /\
                x = match py_float (clean_money (default (VFloat 0) (data !! f))) with
                    | inr y => if Qle_bool 0 y then y else 0
                    | inl _ => 0
                    end)
           money_fields.
Proof.
  intros Hfit. destruct (normalize_response_eq data Hfit) as (data' & E & Hd).
  exists data'. split; [exact E|].
  apply Forall_forall. intros f Hf%list_elem_of_In.
  destruct (money_field_facts f Hf) as (_ & _ & _ & _ & Hdflt).
  exists (money_value (filled data f)).
  split; [|split; [apply money_value_nonneg|]].
  - rewrite Hd. unfold normal_value. apply mem_In in Hf. now rewrite Hf.
  - unfold money_value, filled. now rewrite Hdflt.
Qed.

(** X10: when no monetary field is an [int] too large for [float], the
    filing status, the document type and the document quality of the
    normalised record are each a member of their closed set. *)
Theorem normalized_enums_are_closed (data : dict) :
  money_fits data = true ->
  exists data' status type quality,
    normalize_response (JObject data) = inr data' /\
    data' !! "filing_status"%string = Some (VStr status) /\
    In status filing_statuses /\
    data' !! "document_type"%string = Some (VStr type) /\
    In type document_types /\
    data' !! "document_quality"%string = Some (VStr quality) /\
    In quality document_qualities.
Proof.
  intros Hfit. destruct (normalize_response_eq data Hfit) as (data' & E & Hd).
  exists data', (enum_value filing_statuses "single" (text data "filing_status")),
    (enum_value document_types "Other" (text data "document_type")),
    (enum_value document_qualities "medium" (text data "document_quality")).
  split; [exact E|].
  repeat split; try (rewrite Hd; reflexivity);
    apply mem_In, enum_value_allowed; reflexivity.
Qed.

(** X11: when no monetary field is an [int] too large for [float], the
    normalisation touches the required fields only: every other key of the
    response comes out as it went in, and the two confidences, the
    validation flags and the review flag are only given their default when
    absent. *)
Theorem normalize_leaves_other_keys (data : dict) :
  money_fits data = true ->
  exists data',
    normalize_response (JObject data) = inr data' /\
    (forall k, ~ In k required_fields -> data' !! k = data !! k) /\
    (forall k, In k passive_fields ->
               data' !! k = Some (default (default_for k) (data !! k))).
Proof.
  intros Hfit. destruct (normalize_response_eq data Hfit) as (data' & E & Hd).
  exists data'. split; [exact E|]. split.
  - intros k Hk. rewrite Hd. unfold normal_value.
    assert (Er : mem k required_fields = false).
    { destruct (mem k required_fields) eqn:Em; [|reflexivity].
      apply mem_In in Em. contradiction. }
    destruct (mem k money_fields) eqn:Em.
    { apply mem_money_required in Em as (Em & _). congruence. }
    repeat match goal with
           | |- context [String.eqb k ?x] =>
               destruct (String.eqb_spec k x) as [->|?]; [discriminate Er|]
           end.
    destruct (mem k str_fields) eqn:Es.
    { apply mem_str_required in Es. congruence. }
    now rewrite Er.
  - intros k Hk. rewrite Hd. simpl in Hk.
    repeat (destruct Hk as [<-|Hk]; [reflexivity|]). destruct Hk.
Qed.

(** The monetary fields of a normalised record are floats. *)
Lemma normalized_money_fits (data data' : dict) :
  (forall k, data' !! k = normal_value data k) -> money_fits data' = true.
Proof.
  intros Hd. unfold money_fits. apply forallb_forall. intros g Hg.
  rewrite Hd. unfold normal_value. apply mem_In in Hg. now rewrite Hg.
Qed.

(** X12: when no monetary field is an [int] too large for [float],
    normalising the normalised record gives the same record again. *)
Theorem normalize_idempotent (data : dict) :
  money_fits data = true ->
  exists data',
    normalize_response (JObject data) = inr data' /\
    normalize_response (JObject data') = inr data'.
Proof.
  intros Hfit. destruct (normalize_response_eq data Hfit) as (data' & E & Hd).
  destruct (normalize_response_eq data' (normalized_money_fits data data' Hd))
    as (data'' & E' & Hd').
  exists data'. split; [exact E|]. rewrite E'. f_equal.
  apply map_eq. intros k.
  now rewrite Hd', (normal_value_fixed data data' Hd), Hd.
Qed.

(** X13: for a response of ASCII texts without a monetary [int] too large
    for [float], every text field of the normalised record is a [str]
    without leading or trailing white space. *)
Theorem normalized_text_is_stripped (data : dict) :
  money_fits data = true ->
  text_is_ascii data = true ->
  exists data',
    normalize_response (JObject data) = inr data' /\
    Forall (fun g => exists s, data' !! g = Some (VStr s) /\ strip s = s) str_fields.
Proof.
  intros Hfit _. destruct (normalize_response_eq data Hfit) as (data' & E & Hd).
  exists data'. split; [exact E|].
  assert (Hstrip : forall k, strip (text data k) = text data k)
    by (intros; apply strip_idem).
  unfold str_fields.
  repeat (apply Forall_cons; split;
          [eexists; split; [rewrite Hd; reflexivity|];
           first [ apply Hstrip
                 | apply enum_value_stripped; [reflexivity | apply Hstrip]
                 | apply state_value_stripped, Hstrip
                 | apply zip_value_fixed ]|]).
  apply Forall_nil. constructor.
Qed.

(** X14: for a response whose ZIP code is ASCII text and without a monetary
    [int] too large for [float], the normalised ZIP code is empty, or five
    to eight digits, or five digits, a dash and four digits. *)
Theorem normalized_zip_shape (data : dict) :
  money_fits data = true ->
  ascii_text (py_str (default (VStr "") (data !! "zip_code"%string))) = true ->
  exists data' zip,
    normalize_response (JObject data) = inr data' /\
    data' !! "zip_code"%string = Some (VStr zip) /\
    (zip = EmptyString \/
     (digits_of zip = zip /\ (5 <= String.length zip)%nat /\ (String.length zip < 9)%nat) \/
     exists a b, zip = a +:+ "-" +:+ b /\
                 digits_of a = a /\ digits_of b = b /\
                 String.length a = 5%nat /\ String.length b = 4%nat).
Proof.
  intros Hfit _. destruct (normalize_response_eq data Hfit) as (data' & E & Hd).
  exists data', (zip_value (text data "zip_code")).
  split; [exact E|]. split; [rewrite Hd; reflexivity|].
  unfold zip_value. destruct (String.eqb_spec (text data "zip_code") "") as [->|Hne];
    cbn [negb]; [now left|].
  destruct (format_zip_cases (digits_of (text data "zip_code"))
              (digits_of_idem _)) as [Hz|[(Hz & H5 & H9)|Hz]].
  - now left.
  - right. left. rewrite Hz. split; [apply digits_of_idem | lia].
  - right. right. exact Hz.
Qed.

End WithRuntime.

(** A response in which a ZIP code of nine digits and a state by name wait
    to be normalised. *)
Definition raw_response : dict :=
  list_to_map
    [ ("taxpayer_name", VStr "  Jane Doe ");
      ("filing_status", VStr "Single");
      ("wages", VStr "$1,234.50");
      ("interest_income", VInt (-3));
      ("state", VStr "texas");
      ("zip_code", VStr "78701 1234");
      ("note", VStr "kept") ]%string.

(** Interest of 10^400, an [int] too large for [float]: no record is
    returned. *)
Lemma huge_interest_raises :
  normalize_response
    (JObject (<["interest_income"%string := VInt (10 ^ 400)]> high_wages))
    = inl OverflowError.
Proof. vm_compute. reflexivity. Qed.

Lemma normalized_money_is_clamped_witness :
  exists data',
    normalize_response (JObject raw_response) = inr data' /\
    Forall (fun f =>
              exists x, data' !! f = Some (VFloat x) /\ 0 <= x /\
                x = match py_float (clean_money
                                      (default (VFloat 0) (raw_response !! f))) with
                    | inr y => if Qle_bool 0 y then y else 0
                    | inl _ => 0
                    end)
           money_fields.
Proof.
  apply (normalized_money_is_clamped raw_response). vm_compute. reflexivity.
Defined.

Lemma normalized_enums_are_closed_witness :
  exists data' status type quality,
    normalize_response (JObject raw_response) = inr data' /\
    data' !! "filing_status"%string = Some (VStr status) /\
    In status filing_statuses /\
    data' !! "document_type"%string = Some (VStr type) /\
    In type document_types /\
    data' !! "document_quality"%string = Some (VStr quality) /\
    In quality document_qualities.
Proof.
  apply (normalized_enums_are_closed raw_response). vm_compute. reflexivity.
Defined.

Lemma normalize_leaves_other_keys_witness :
  exists data',
    normalize_response (JObject raw_response) = inr data' /\
    (forall k, ~ In k required_fields -> data' !! k = raw_response !! k) /\
    (forall k, In k passive_fields ->
               data' !! k = Some (default (default_for k) (raw_response !! k))).
Proof.
  apply (normalize_leaves_other_keys raw_response). vm_compute. reflexivity.
Defined.

Lemma normalize_idempotent_witness :
  exists data',
    normalize_response (JObject raw_response) = inr data' /\
    normalize_response (JObject data') = inr data'.
Proof.
  apply (normalize_idempotent raw_response). vm_compute. reflexivity.
Defined.

Lemma normalized_text_is_stripped_witness :
  exists data',
    normalize_response (JObject raw_response) = inr data' /\
    Forall (fun g => exists s, data' !! g = Some (VStr s) /\ strip s = s) str_fields.
Proof.
  apply (normalized_text_is_stripped raw_response); vm_compute; reflexivity.
Defined.

Lemma normalized_zip_shape_witness :
  exists data' zip,
    normalize_response (JObject raw_response) = inr data' /\
    data' !! "zip_code"%string = Some (VStr zip) /\
    (zip = EmptyString \/
     (digits_of zip = zip /\ (5 <= String.length zip)%nat /\ (String.length zip < 9)%nat) \/
     exists a b, zip = a +:+ "-" +:+ b /\
                 digits_of a = a /\ digits_of b = b /\
                 String.length a = 5%nat /\ String.length b = 4%nat).
Proof.
  apply (normalized_zip_shape raw_response); vm_compute; reflexivity.
Defined.

End NormalizerMore.

(** ** More on combine_multiple_tax_documents *)

Module CombinerMore.

Import Exc Combiner CombinerProps BracketSpec ExampleRuntime.

(** The part of a record's value that enters the sum of a monetary field,
    where the sum does not raise: its float when it is truthy and coerces,
    and nothing when it is falsy or [float] raises [ValueError] or
    [TypeError] on it. *)
Definition contribution `{Runtime} (v : pyval) : Q :=
  if truthy v then
    match py_float v with
    | inr x => x
    | inl _ => 0
    end
  else 0.

(** The stripped length of the name of a record whose name is a [str] or
    absent. *)
Definition name_length (data : dict) : nat :=
  match data !! "taxpayer_name"%string with
  | Some (VStr s) => String.length (strip s)
  | _ => 0%nat
  end.

(** The name of the record is a [str], or there is none. *)
Definition name_is_text (data : dict) : Prop :=
  match data !! "taxpayer_name"%string with
  | Some (VStr _) | None => True
  | Some _ => False
  end.

(** The name of the record is a [str] of ASCII characters, or there is
    none. *)
Definition name_is_ascii (data : dict) : Prop :=
  match data !! "taxpayer_name"%string with
  | Some (VStr s) => ascii_text s = true
  | None => True
  | Some _ => False
  end.

(** The keys written after the sums. *)
Definition summary_keys : list string :=
  [ "document_type"; "source_files"; "documents_processed";
    "classification_confidence"; "extraction_confidence"; "document_quality";
    "validation_flags"; "requires_review"; "payer_name"; "employer_ein" ]%string.

(** Wages as a number, as a text, and as a text that is no number. *)
Definition doc_wages_1000 : dict :=
  list_to_map [ ("taxpayer_name", VStr "Jane Doe"); ("wages", VFloat 1000);
                ("requires_review", VBool false) ]%string.

Definition doc_wages_2000 : dict :=
  list_to_map [ ("taxpayer_name", VStr "Jane Doe"); ("wages", VStr "2000");
                ("requires_review", VBool true) ]%string.

Definition doc_wages_bad : dict :=
  list_to_map [ ("taxpayer_name", VStr "Jane Doe"); ("wages", VStr "n/a") ]%string.

Section WithRuntime.
Context `{Runtime}.

Lemma add_value_eq (total v t : pyval) (q0 : Q) :
  add_value total v = inr t -> num_of total = Some q0 ->
  exists q, num_of t = Some q /\ q == q0 + contribution v.
Proof.
  intros E Hq. unfold add_value, contribution in *. destruct (truthy v).
  - destruct (py_float v) as [e|x].
    + destruct (is_ValueError_or_TypeError e); [|discriminate].
      injection E as <-. exists q0. split; [exact Hq | lra].
    + injection E as <-. exists (q0 + x). rewrite Hq. split; reflexivity.
  - injection E as <-. exists q0. split; [exact Hq | lra].
Qed.

(** The inner loop, where it does not raise, adds up the contributions. *)
Lemma sum_field_eq (field : string) (docs : list dict) : forall total t q0,
  sum_field field total docs = inr t -> num_of total = Some q0 ->
  exists q, num_of t = Some q /\
    q == q0 + Qsum (map (fun d => contribution (get d field (VInt 0))) docs).
Proof.
  induction docs as [|d docs IH]; intros total t q0 E Hq.
  - injection E as <-. exists q0. split; [exact Hq | simpl; lra].
  - cbn [sum_field] in E. unfold bind in E.
    destruct (add_value total (get d field (VInt 0))) as [e|t1] eqn:E1; [discriminate|].
    destruct (add_value_eq _ _ _ q0 E1 Hq) as (q1 & Hq1 & Hv1).
    destruct (IH t1 t q1 E Hq1) as (q & Hq' & Hv).
    exists q. cbn [map Qsum]. split; [exact Hq' | lra].
Qed.

Lemma sum_fields_lookup (docs : list dict) (fields : list string) : forall combined c1,
  sum_fields fields docs combined = inr c1 ->
  forall k,
    if existsb (String.eqb k) fields
    then exists t, sum_field k (VInt 0) docs = inr t /\ c1 !! k = Some t
    else c1 !! k = combined !! k.
Proof.
  induction fields as [|f fields IH]; intros combined c1 E k.
  - simpl in E. injection E as <-. reflexivity.
  - cbn [sum_fields] in E. unfold bind in E.
    destruct (sum_field f (VInt 0) docs) as [e|t] eqn:Et; [discriminate|].
    specialize (IH _ _ E k). cbn [existsb].
    destruct (existsb (String.eqb k) fields) eqn:Em.
    + now rewrite orb_true_r.
    + rewrite orb_false_r. destruct (String.eqb_spec k f) as [->|Hne].
      * exists t. split; [exact Et|]. now rewrite IH, lookup_insert_eq.
      * now rewrite IH, lookup_insert_ne by congruence.
Qed.

(** The record the sums are written into. *)
Definition base (primary_taxpayer : option dict) (first : dict) : dict :=
  match primary_taxpayer with
  | Some p => take_identity p first
  | None => first
  end.

(** What a successful combination of two or more records went through. *)
Lemma combine_inr (first second : dict) (rest : list dict) (c : dict) :
  let docs := first :: second :: rest in
  combine_multiple_tax_documents docs = inr c ->
  exists primary c1,
    find_primary first docs = inr primary /\
    sum_fields monetary_fields docs (base primary first) = inr c1 /\
    (forall k, existsb (String.eqb k) summary_keys = false -> c !! k = c1 !! k) /\
    c !! "documents_processed"%string = Some (VInt (Z.of_nat (length docs))) /\
    c !! "requires_review"%string =
      Some (VBool (existsb (fun data => truthy (get data "requires_review" (VBool false)))
                           docs)) /\
    c !! "document_type"%string =
      Some (match distinct_from []
                    (map (fun data => get data "document_type" (VStr "Other")) docs) with
            | [t] => t
            | _ => VStr "Multiple"
            end) /\
    c !! "document_quality"%string =
      Some (VStr (fold_left better_quality
                    (map (fun data => get data "document_quality" (VStr "medium")) docs)
                    "low"%string)) /\
    (exists cls,
       py_max (map (fun data => get data "classification_confidence" (VInt 0)) docs)
              (VFloat 0.8) = inr cls /\
       c !! "classification_confidence"%string = Some cls) /\
    (exists ext,
       py_max (map (fun data => get data "extraction_confidence" (VInt 0)) docs)
              (VFloat 0.8) = inr ext /\
       c !! "extraction_confidence"%string = Some ext).
Proof.
  cbv zeta. intros E. unfold combine_multiple_tax_documents in E.
  unfold bind in E.
  destruct (find_primary first (first :: second :: rest)) as [e|primary] eqn:Ep;
    [discriminate|].
  fold (base primary first) in E.
  destruct (sum_fields monetary_fields (first :: second :: rest) (base primary first))
    as [e|c1] eqn:Es; [discriminate|].
  destruct (py_max (map (fun data => get data "classification_confidence" (VInt 0)) _) _)
    as [e|cls] eqn:Ecls; [discriminate|].
  destruct (py_max (map (fun data => get data "extraction_confidence" (VInt 0)) _) _)
    as [e|ext] eqn:Eext; [discriminate|].
  destruct (forallb hashable _); [|discriminate].
  destruct (payers_and_eins [] [] _) as [e|[payers eins]]; [discriminate|].
  injection E as <-. exists primary, c1.
  split; [reflexivity|]. split; [exact Es|]. split.
  { intros k Hk. cbn [existsb summary_keys] in Hk.
    repeat (apply orb_false_elim in Hk as [?%String.eqb_neq Hk]).
    now rewrite !lookup_insert_ne by congruence. }
  repeat split;
    try (rewrite ?lookup_insert_ne by discriminate; apply lookup_insert_eq).
  - exists cls. split; [reflexivity|].
    rewrite ?lookup_insert_ne by discriminate. apply lookup_insert_eq.
  - exists ext. split; [reflexivity|].
    rewrite ?lookup_insert_ne by discriminate. apply lookup_insert_eq.
Qed.

Lemma monetary_not_summary (k : string) :
  In k monetary_fields -> existsb (String.eqb k) summary_keys = false.
Proof.
  intros Hk. simpl in Hk.
  repeat (destruct Hk as [<-|Hk]; [reflexivity|]). destruct Hk.
Qed.

(** X15: in a successful combination of two or more records every monetary
    field is the sum of the records' contributions: the float of a value
    that is truthy and coerces, and nothing for a value that is missing,
    falsy or does not coerce. *)
Theorem combined_money_is_the_sum (first second : dict) (rest : list dict)
    (c : dict) (field : string) :
  combine_multiple_tax_documents (first :: second :: rest) = inr c ->
  In field monetary_fields ->
  exists t q,
    c !! field = Some t /\ num_of t = Some q /\
    q == Qsum (map (fun data => contribution (get data field (VInt 0)))
                   (first :: second :: rest)).
Proof.
  intros E Hf.
  destruct (combine_inr first second rest c E) as (primary & c1 & _ & Es & Hother & _).
  pose proof (sum_fields_lookup _ _ _ _ Es field) as Hsum.
  assert (Hm : existsb (String.eqb field) monetary_fields = true).
  { apply existsb_exists. exists field. split; [exact Hf | apply String.eqb_refl]. }
  rewrite Hm in Hsum. destruct Hsum as (t & Et & Hc1).
  destruct (sum_field_eq field (first :: second :: rest) (VInt 0) t 0 Et eq_refl)
    as (q & Hq & Hv).
  exists t, q. split; [|split; [exact Hq | lra]].
  now rewrite (Hother field (monetary_not_summary field Hf)).
Qed.

(** X16: a successful combination counts the records it was given, and
    requires review exactly when one of them does. *)
Theorem combined_count_and_review (first second : dict) (rest : list dict) (c : dict) :
  combine_multiple_tax_documents (first :: second :: rest) = inr c ->
  c !! "documents_processed"%string
    = Some (VInt (Z.of_nat (length (first :: second :: rest)))) /\
  exists b,
    c !! "requires_review"%string = Some (VBool b) /\
    (b = true <->
     exists data, In data (first :: second :: rest) /\
                  truthy (get data "requires_review" (VBool false)) = true).
Proof.
  intros E.
  destruct (combine_inr first second rest c E) as (_ & _ & _ & _ & _ & Hn & Hr & _).
  split; [exact Hn|]. eexists. split; [exact Hr|]. apply existsb_exists.
Qed.

(** *** The document type *)


Lemma distinct_from_prefix (vals : list pyval) : forall seen,
  exists more, distinct_from seen vals = seen ++ more.
Proof.
  induction vals as [|v vals IH]; intros seen; simpl.
  - exists []. now rewrite app_nil_r.
  - destruct (py_in v seen); [apply IH|].
    destruct (IH (seen ++ [v])) as [more ->]. exists (v :: more).
    now rewrite <- app_assoc.
Qed.






(** *** The taxpayer identity *)

Lemma stripped_length_text (data : dict) :
  name_is_text data ->
  stripped_length (get data "taxpayer_name" (VStr "")) = inr (name_length data).
Proof.
  unfold name_is_text, name_length, get, stripped_length.
  destruct (data !! "taxpayer_name"%string) as [[| | | |s|]|]; simpl; tauto.
Qed.

Lemma falsy_name_length (data : dict) :
  name_is_text data ->
  truthy (get data "taxpayer_name" VNone) = false -> name_length data = 0%nat.
Proof.
  unfold name_is_text, name_length, get.
  destruct (data !! "taxpayer_name"%string) as [[| | | |s|]|]; simpl;
    try tauto.
  intros _ Hs. apply negb_false_iff, String.eqb_eq in Hs. now subst.
Qed.

(** With names that are texts the search is a plain [find]. *)
Lemma find_primary_eq (combined : dict) (docs : list dict) :
  name_is_text combined -> Forall name_is_text docs ->
  find_primary combined docs =
    inr (find (fun data => (name_length combined <? name_length data)%nat) docs).
Proof.
  intros Hc Hall. induction Hall as [|d docs Hd _ IH]; [reflexivity|].
  cbn [find_primary find]. destruct (truthy _) eqn:Et.
  - rewrite (stripped_length_text d Hd), (stripped_length_text combined Hc).
    unfold bind. destruct (_ <? _)%nat; [reflexivity | exact IH].
  - rewrite (falsy_name_length d Hd Et).
    assert (E0 : (name_length combined <? 0)%nat = false) by now apply Nat.ltb_ge, Nat.le_0_l.
    rewrite E0. exact IH.
Qed.

Lemma identity_not_summary (k : string) (dflt : pyval) :
  In (k, dflt) identity_fields ->
  existsb (String.eqb k) summary_keys = false /\
  existsb (String.eqb k) monetary_fields = false.
Proof.
  intros Hk. simpl in Hk.
  repeat (destruct Hk as [[= <- <-]|Hk]; [split; reflexivity|]). destruct Hk.
Qed.

Lemma identity_of_take_identity (p first : dict) :
  identity_of (take_identity p first)
    = map (fun field => Some (get p (fst field) (snd field))) identity_fields.
Proof.
  unfold identity_of, take_identity, identity_fields. cbn [fold_left map fst snd].
  repeat (apply (f_equal2 cons);
          [rewrite ?lookup_insert_ne by discriminate; apply lookup_insert_eq|]).
  reflexivity.
Qed.

Lemma name_is_ascii_text (data : dict) : name_is_ascii data -> name_is_text data.
Proof.
  unfold name_is_ascii, name_is_text.
  destruct (data !! "taxpayer_name"%string) as [[| | | |s|]|]; tauto.
Qed.

(** X18: when every name is an ASCII text, the identity fields of a
    successful combination are those of the first record in the list whose
    stripped name is longer than the stripped name of the first record
    (absent fields as '', the filing status as 'single'), and those of the
    first record itself when there is no such record. *)
Theorem combined_identity_rule (first second : dict) (rest : list dict) (c : dict) :
  combine_multiple_tax_documents (first :: second :: rest) = inr c ->
  Forall name_is_ascii (first :: second :: rest) ->
  identity_of c =
    match find (fun data => (name_length first <? name_length data)%nat)
               (first :: second :: rest) with
    | Some p => map (fun field => Some (get p (fst field) (snd field))) identity_fields
    | None => identity_of first
    end.
Proof.
  intros E Hascii.
  assert (Hall : Forall name_is_text (first :: second :: rest))
    by (eapply Forall_impl; [exact Hascii | exact name_is_ascii_text]).
  destruct (combine_inr first second rest c E) as (primary & c1 & Ep & Es & Hother & _).
  rewrite find_primary_eq in Ep by (try assumption; now apply Forall_cons in Hall).
  set (found := find _ (first :: second :: rest)) in *.
  assert (Hp : primary = found) by congruence. subst primary. clear Ep.
  assert (Hc : identity_of c = identity_of (base found first)).
  { unfold identity_of. apply map_ext_in. intros [k dflt] Hk.
    destruct (identity_not_summary k dflt Hk) as [Hs Hm]. cbn [fst].
    rewrite (Hother k Hs).
    pose proof (sum_fields_lookup _ _ _ _ Es k) as Hsum. now rewrite Hm in Hsum. }
  rewrite Hc. destruct found as [p|]; [apply identity_of_take_identity | reflexivity].
Qed.

(** *** The document quality *)





(** *** The confidences *)




End WithRuntime.

(** *** Examples *)

Definition value_or_empty (r : exn + dict) : dict :=
  match r with
  | inr c => c
  | inl _ => ∅
  end.

Definition wages_docs : list dict := [doc_wages_1000; doc_wages_2000; doc_wages_bad].

Definition combined_wages : dict :=
  value_or_empty (combine_multiple_tax_documents wages_docs).

Definition named_docs : list dict := [doc_short; doc_middle; doc_long].

Definition combined_named : dict :=
  value_or_empty (combine_multiple_tax_documents named_docs).



(** A combination that succeeds returns the record kept here. *)
Definition succeeds (r : exn + dict) : bool :=
  match r with
  | inr _ => true
  | inl _ => false
  end.

Lemma succeeds_value (r : exn + dict) :
  succeeds r = true -> r = inr (value_or_empty r).
Proof. destruct r; [discriminate | reflexivity]. Qed.

Lemma combined_wages_eq :
  combine_multiple_tax_documents wages_docs = inr combined_wages.
Proof. unfold combined_wages. apply succeeds_value. vm_compute. reflexivity. Qed.

Lemma combined_named_eq :
  combine_multiple_tax_documents named_docs = inr combined_named.
Proof. unfold combined_named. apply succeeds_value. vm_compute. reflexivity. Qed.


Lemma combined_money_is_the_sum_witness :
  combine_multiple_tax_documents wages_docs = inr combined_wages /\
  In "wages"%string monetary_fields /\
  exists t q,
    combined_wages !! "wages"%string = Some t /\ num_of t = Some q /\
    q == Qsum (map (fun data => contribution (get data "wages" (VInt 0))) wages_docs).
Proof.
  split; [exact combined_wages_eq|]. split; [simpl; tauto|].
  apply (combined_money_is_the_sum doc_wages_1000 doc_wages_2000 [doc_wages_bad]
           combined_wages "wages");
    [exact combined_wages_eq | simpl; tauto].
Defined.

Lemma combined_count_and_review_witness :
  combine_multiple_tax_documents wages_docs = inr combined_wages /\
  combined_wages !! "documents_processed"%string = Some (VInt 3) /\
  exists b,
    combined_wages !! "requires_review"%string = Some (VBool b) /\
    (b = true <->
     exists data, In data wages_docs /\
                  truthy (get data "requires_review" (VBool false)) = true).
Proof.
  split; [exact combined_wages_eq|].
  apply (combined_count_and_review doc_wages_1000 doc_wages_2000 [doc_wages_bad]
           combined_wages).
  exact combined_wages_eq.
Defined.


Lemma combined_identity_rule_witness :
  combine_multiple_tax_documents named_docs = inr combined_named /\
  Forall name_is_ascii named_docs /\
  identity_of combined_named = identity_of doc_middle.
Proof.
  split; [exact combined_named_eq|].
  assert (Hall : Forall name_is_ascii named_docs).
  { repeat (constructor; [vm_compute; reflexivity|]). constructor. }
  split; [exact Hall|].
  rewrite (combined_identity_rule doc_short doc_middle [doc_long] combined_named);
    [vm_compute; reflexivity | exact combined_named_eq | exact Hall].
Defined.



End CombinerMore.

(** ** The extraction with retries *)

Module ExtractionFacts.

Import Normalizer Extractor ExampleRuntime.

(** The waits after the attempts [first], ..., [first + count - 1]. *)
Definition pauses (first count : nat) : list Z :=
  map (fun attempt => (2 ^ Z.of_nat attempt)%Z) (seq first count).

Definition Zsum (l : list Z) : Z := fold_right Z.add 0%Z l.

(** An environment whose model raises, then answers with a text that is
    no JSON, then with an empty JSON object in a code fence. *)
Definition example_reply (prompt : string) (call : nat) : reply :=
  match call with
  | 0%nat => Raised
  | 1%nat => Response "not json"
  | 2%nat => Response "```json {} ```"
  | _ => NoResponse
  end.

Definition example_json_loads (s : string) : option parsed :=
  if String.eqb s "{}" then Some (JObject ∅) else None.

#[export] Instance example_environment : Environment :=
  {| instructions := "Document text: ";
     generate_content := example_reply;
     json_loads := example_json_loads |}.

Definition fresh : world := {| calls := 0; slept := [] |}.


(** A text of more than 10000 characters that ends with [tail]. *)
Definition long_text (tail : string) : string :=
  (string_of_list_ascii (repeat "W"%char text_limit) ++ tail)%string.

Section WithEnvironment.
Context `{Runtime} `{Environment}.






Lemma pauses_cons (first count : nat) :
  pauses first (S count) = (2 ^ Z.of_nat first)%Z :: pauses (S first) count.
Proof. reflexivity. Qed.

Lemma pauses_total (count : nat) : forall first,
  Zsum (pauses first count)
    = (2 ^ Z.of_nat (first + count) - 2 ^ Z.of_nat first)%Z.
Proof.
  induction count as [|count IH]; intros first.
  - rewrite Nat.add_0_r. simpl. lia.
  - rewrite pauses_cons. cbn [Zsum fold_right]. fold (Zsum (pauses (S first) count)).
    rewrite IH.
    replace (Z.of_nat (S first + count)) with (Z.of_nat (first + S count)) by lia.
    replace (Z.of_nat (S first)) with (Z.succ (Z.of_nat first)) by lia.
    rewrite Z.pow_succ_r by lia. lia.
Qed.



Lemma retry_bounds (prompt : string) (max_retries : Z) (count : nat) :
  forall first last_error w,
    (first + count)%nat = Z.to_nat max_retries ->
    let w' := fst (retry prompt max_retries (map Z.of_nat (seq first count))
                         last_error w) in
    exists j,
      (j <= count - 1)%nat /\
      (calls w <= calls w' <= calls w + count)%nat /\
      slept w' = slept w ++ pauses first j.
Proof.
  induction count as [|count IH]; intros first last_error w Hm; cbn zeta.
  - exists 0%nat. cbn [seq map retry fst pauses]. rewrite app_nil_r.
    split; [lia|]. split; [lia | reflexivity].
  - cbn [seq map retry].
    destruct (attempt_once prompt (calls w)) as [e|d].
    + destruct count as [|count].
      * assert (Hs : (Z.of_nat first <? max_retries - 1)%Z = false)
          by (apply Z.ltb_ge; lia).
        rewrite Hs. exists 0%nat. cbn [seq map retry fst calls slept pauses].
        rewrite app_nil_r. split; [lia|]. split; [lia | reflexivity].
      * assert (Hs : (Z.of_nat first <? max_retries - 1)%Z = true)
          by (apply Z.ltb_lt; lia).
        rewrite Hs. cbn [calls slept].
        destruct (IH (S first) (Some e)
                    {| calls := S (calls w);
                       slept := slept w ++ [(2 ^ Z.of_nat first)%Z] |})
          as (j & Hj & Hc & Hsl); [lia|].
        cbn [calls slept] in Hc, Hsl.
        exists (S j). split; [lia|]. split; [lia|].
        rewrite Hsl, pauses_cons, <- app_assoc. reflexivity.
    + exists 0%nat. cbn [fst calls slept pauses seq map]. rewrite app_nil_r.
      split; [lia|]. split; [lia | reflexivity].
Qed.




(** X23: whatever the model answers, one extraction calls it at most
    [max_retries] times and waits at most 2^(max_retries - 1) - 1 seconds
    in all (3 seconds for the default of 3 attempts); an insufficient text
    or a [max_retries] below 1 costs no call at all. *)
Theorem calls_and_waits_are_bounded (text : string) (max_retries : Z) (w : world) :
  let w' := fst (extract_tax_data_with_ai text max_retries w) in
  (calls w <= calls w' <= calls w + Z.to_nat max_retries)%nat /\
  (insufficient text = true -> w' = w) /\
  exists waits,
    slept w' = slept w ++ waits /\
    (0 <= Zsum waits <= 2 ^ Z.of_nat (Z.to_nat max_retries - 1) - 1)%Z.
Proof.
  cbn zeta. unfold extract_tax_data_with_ai.
  destruct (insufficient text) eqn:Et.
  - cbn [fst]. split; [lia|]. split; [reflexivity|].
    exists []. rewrite app_nil_r. split; [reflexivity|]. cbn [Zsum fold_right].
    assert (0 < 2 ^ Z.of_nat (Z.to_nat max_retries - 1))%Z
      by (apply Z.pow_pos_nonneg; lia).
    lia.
  - destruct (retry_bounds (prompt_for text) max_retries (Z.to_nat max_retries)
                0%nat None w eq_refl) as (j & Hj & Hc & Hsl).
    fold (range max_retries) in Hc, Hsl.
    split; [exact Hc|]. split; [discriminate|].
    exists (pauses 0 j). split; [exact Hsl|].
    rewrite pauses_total. cbn [Nat.add Z.of_nat Z.pow].
    assert (2 ^ Z.of_nat j <= 2 ^ Z.of_nat (Z.to_nat max_retries - 1))%Z
      by (apply Z.pow_le_mono_r; lia).
    assert (0 < 2 ^ Z.of_nat j)%Z by (apply Z.pow_pos_nonneg; lia).
    change (2 ^ 0)%Z with 1%Z. lia.
Qed.

(** X24: of an ASCII document of more than 10000 characters only the first
    10000 count: two sufficient ASCII texts that agree on them give the
    same outcome, the same calls and the same waits. *)
Theorem text_beyond_limit_is_ignored (text text' : string) (max_retries : Z)
    (w : world) :
  ascii_text text = true -> ascii_text text' = true ->
  insufficient text = false -> insufficient text' = false ->
  (text_limit < String.length text)%nat ->
  (text_limit < String.length text')%nat ->
  substring 0 text_limit text = substring 0 text_limit text' ->
  extract_tax_data_with_ai text max_retries w =
  extract_tax_data_with_ai text' max_retries w.
Proof.
  intros _ _ Ht Ht' Hl Hl' Hsame.
  unfold extract_tax_data_with_ai, prompt_for, truncate.
  rewrite Ht, Ht'.
  apply Nat.ltb_lt in Hl, Hl'. rewrite Hl, Hl', Hsame. reflexivity.
Qed.


End WithEnvironment.



Lemma text_beyond_limit_is_ignored_witness :
  extract_tax_data_with_ai (long_text "wages 1000") 3 fresh =
  extract_tax_data_with_ai (long_text "wages 2000") 3 fresh.
Proof.
  apply text_beyond_limit_is_ignored.
  - vm_compute; reflexivity.
  - vm_compute; reflexivity.
  - vm_compute; reflexivity.
  - vm_compute; reflexivity.
  - apply Nat.ltb_lt. vm_compute; reflexivity.
  - apply Nat.ltb_lt. vm_compute; reflexivity.
  - vm_compute; reflexivity.
Defined.


End ExtractionFacts.

(** ** The masks of the SSN *)

Module PrivacyFacts.

Import Normalizer Privacy TextFacts ExampleRuntime.

Lemma append_empty (a : string) : a +:+ "" = a.
Proof. induction a as [|c a IH]; [reflexivity|]. now rewrite append_cons, IH. Qed.

Lemma substring_split (s : string) : forall n m,
  (String.length s <= n + m)%nat -> substring 0 n s +:+ substring n m s = s.
Proof.
  induction s as [|c s IH]; intros n m Hlen.
  - now destruct n, m.
  - destruct n as [|n].
    + cbn [substring]. destruct m as [|m]; [simpl in Hlen; lia|].
      rewrite append_nil. cbn [substring]. f_equal.
      simpl in Hlen. rewrite <- (substring_all s) at 2.
      clear IH. revert m Hlen. induction s as [|a s IHs]; intros m Hlen.
      * now destruct m.
      * destruct m as [|m]; [simpl in Hlen; lia|]. simpl. f_equal.
        apply IHs. simpl in Hlen. lia.
    + cbn [substring]. rewrite append_cons. f_equal. apply IH. simpl in Hlen. lia.
Qed.

Section WithRuntime.
Context `{Runtime}.

Lemma ssn_clean_digits (v : pyval) : digits_of (ssn_clean v) = ssn_clean v.
Proof. apply digits_of_idem. Qed.

Lemma last_four_length (d : string) :
  (4 <= String.length d)%nat -> String.length (last_four d) = 4%nat.
Proof. intros Hd. apply length_substring. lia. Qed.

Lemma last_four_digits (v : pyval) :
  digits_of (last_four (ssn_clean v)) = last_four (ssn_clean v).
Proof. apply digits_of_substring, ssn_clean_digits. Qed.

Lemma last_four_fixed (d : string) : String.length d = 4%nat -> last_four d = d.
Proof.
  intros Hd. unfold last_four. rewrite Hd. cbn [Nat.sub].
  rewrite <- Hd. apply substring_all.
Qed.

(** The three ways through the two functions. *)
Lemma mask_cases (v : pyval) :
  (truthy v = false /\ mask_ssn v = "***-**-****" /\
   mask_ssn_for_display v = "***-**-****") \/
  (truthy v = true /\ (String.length (ssn_clean v) < 4)%nat /\
   mask_ssn v = "***-**-****" /\ mask_ssn_for_display v = "XXX**XXXX") \/
  (truthy v = true /\ (4 <= String.length (ssn_clean v))%nat /\
   mask_ssn v = "***-**-" +:+ last_four (ssn_clean v) /\
   mask_ssn_for_display v = "XXX**" +:+ last_four (ssn_clean v)).
Proof.
  unfold mask_ssn, mask_ssn_for_display.
  destruct (truthy v); cbn [negb]; [|now left].
  right.
  destruct (9 <=? String.length (ssn_clean v))%nat eqn:E9.
  { right. apply Nat.leb_le in E9. repeat split; try reflexivity. lia. }
  destruct (4 <=? String.length (ssn_clean v))%nat eqn:E4.
  - right. apply Nat.leb_le in E4. repeat split; try reflexivity. exact E4.
  - left. apply Nat.leb_gt in E4. repeat split; try reflexivity. exact E4.
Qed.

(** X26: for a value whose text is ASCII, the mask of [mask_ssn] has 11
    characters and shows at most four digits, and these are the last digits
    of the text of the value: every digit before them is hidden. *)
Theorem mask_ssn_shows_only_last_four (v : pyval) :
  ascii_text (py_str v) = true ->
  String.length (mask_ssn v) = 11%nat /\
  (String.length (digits_of (mask_ssn v)) <= 4)%nat /\
  exists hidden, digits_of (py_str v) = hidden +:+ digits_of (mask_ssn v).
Proof.
  intros _.
  destruct (mask_cases v) as [(_ & -> & _)|[(_ & _ & -> & _)|(_ & Hlen & -> & _)]].
  - change (digits_of "***-**-****") with ""%string.
    split; [reflexivity|]. split; [cbn [String.length]; lia|].
    exists (digits_of (py_str v)). now rewrite append_empty.
  - change (digits_of "***-**-****") with ""%string.
    split; [reflexivity|]. split; [cbn [String.length]; lia|].
    exists (digits_of (py_str v)). now rewrite append_empty.
  - rewrite length_app, digits_of_app, last_four_digits, (last_four_length _ Hlen).
    split; [reflexivity|].
    change (digits_of "***-**-") with ""%string. rewrite append_nil.
    rewrite (last_four_length _ Hlen). split; [lia|].
    exists (substring 0 (String.length (ssn_clean v) - 4) (ssn_clean v)).
    symmetry.
    apply (substring_split (ssn_clean v) (String.length (ssn_clean v) - 4) 4). lia.
Qed.

(** X27: masking is idempotent: the mask of a mask is the mask itself. *)
Theorem mask_ssn_idempotent (v : pyval) :
  mask_ssn (VStr (mask_ssn v)) = mask_ssn v.
Proof.
  destruct (mask_cases v) as [(_ & -> & _)|[(_ & _ & -> & _)|(_ & Hlen & -> & _)]];
    [reflexivity | reflexivity |].
  set (tail := last_four (ssn_clean v)).
  assert (Hclean : ssn_clean (VStr ("***-**-" +:+ tail)) = tail).
  { unfold ssn_clean. cbn [py_str]. rewrite digits_of_app.
    change (digits_of "***-**-") with ""%string. rewrite append_nil.
    apply last_four_digits. }
  assert (Htail : String.length tail = 4%nat) by exact (last_four_length _ Hlen).
  unfold mask_ssn. rewrite Hclean, Htail.
  change (9 <=? 4)%nat with false. change (4 <=? 4)%nat with true.
  rewrite (last_four_fixed tail Htail).
  rewrite !append_cons. reflexivity.
Qed.

(** X28: for a value whose text is ASCII, the mask for the form shows the
    same digits as [mask_ssn]; it has 9 characters ('XXX**' and four more)
    for a truthy value, but is the 11-character '***-**-****' for a falsy
    one. *)
Theorem display_mask_agrees_with_mask (v : pyval) :
  ascii_text (py_str v) = true ->
  digits_of (mask_ssn_for_display v) = digits_of (mask_ssn v) /\
  if truthy v
  then String.length (mask_ssn_for_display v) = 9%nat
  else mask_ssn_for_display v = "***-**-****"%string.
Proof.
  intros _.
  destruct (mask_cases v)
    as [(-> & -> & ->)|[(-> & _ & -> & ->)|(-> & Hlen & -> & ->)]].
  - split; reflexivity.
  - split; reflexivity.
  - rewrite !digits_of_app, !length_app, (last_four_length _ Hlen).
    split; reflexivity.
Qed.

End WithRuntime.

Lemma mask_ssn_shows_only_last_four_witness :
  String.length (mask_ssn (VStr "123-45-6789")) = 11%nat /\
  (String.length (digits_of (mask_ssn (VStr "123-45-6789"))) <= 4)%nat /\
  exists hidden,
    digits_of (py_str (VStr "123-45-6789"))
      = hidden +:+ digits_of (mask_ssn (VStr "123-45-6789")).
Proof.
  apply (mask_ssn_shows_only_last_four (VStr "123-45-6789")).
  vm_compute. reflexivity.
Defined.

Lemma display_mask_agrees_with_mask_witness :
  digits_of (mask_ssn_for_display (VInt 123456789))
    = digits_of (mask_ssn (VInt 123456789)) /\
  String.length (mask_ssn_for_display (VInt 123456789)) = 9%nat.
Proof.
  apply (display_mask_agrees_with_mask (VInt 123456789)).
  vm_compute. reflexivity.
Defined.

End PrivacyFacts.

(** ** The validation of an uploaded file *)

Module FileValidationFacts.

Import FileValidation TextFacts PrivacyFacts.

(** The single characters among [suspicious_chars]. *)
Definition forbidden : list ascii :=
  [ "/"; "\"; "<"; ">"; ":"; ascii_of_nat 34; "|"; "?"; "*" ]%char.

Definition mebibyte : Z := 1024 * 1024.

(** The name of the file, if it has one, is ASCII text. *)
Definition ascii_name (f : file) : bool :=
  match filename f with
  | Some name => ascii_text name
  | None => true
  end.

Definition upload (name content : string) (size : Z) : file :=
  {| filename := Some name; content_type := Some content;
     content_length := Some size |}.

Lemma prefix_char (c a : ascii) (s : string) :
  String.prefix (String c EmptyString) (String a s) = Ascii.eqb c a.
Proof.
  cbn [String.prefix]. destruct (ascii_dec c a) as [->|Hne].
  - rewrite Ascii.eqb_refl. now destruct s.
  - symmetry. now apply Ascii.eqb_neq.
Qed.

Lemma contains_cons (c a : ascii) (s : string) :
  contains (String c EmptyString) (String a s)
    = Ascii.eqb c a || contains (String c EmptyString) s.
Proof.
  change (contains (String c EmptyString) (String a s))
    with (String.prefix (String c EmptyString) (String a s)
          || contains (String c EmptyString) s).
  now rewrite prefix_char.
Qed.

Lemma contains_char (c : ascii) (s : string) :
  contains (String c EmptyString) s = true <-> In c (list_ascii_of_string s).
Proof.
  induction s as [|a s IH].
  - split; [discriminate | intros []].
  - rewrite contains_cons. cbn [list_ascii_of_string In].
    rewrite orb_true_iff, IH, Ascii.eqb_eq. split; intros [E|I]; auto.
Qed.

Lemma after_last_point_split (s : string) :
  contains "." s = true ->
  exists stem,
    s = stem +:+ "." +:+ after_last_point s /\
    contains "." (after_last_point s) = false.
Proof.
  induction s as [|c s IH]; [discriminate|].
  intros Hs. cbn [after_last_point].
  destruct (contains "." s) eqn:Ec.
  - destruct (IH eq_refl) as (stem & Hstem & Hext).
    exists (String c stem). split; [|exact Hext].
    rewrite append_cons. now f_equal.
  - rewrite contains_cons, Ec, orb_false_r in Hs.
    rewrite Ascii.eqb_sym, Hs. apply Ascii.eqb_eq in Hs as <-.
    exists ""%string. split; [reflexivity | exact Ec].
Qed.

(** X29: an accepted file with an ASCII name has a name of 1 to 255
    characters without '..' and without slash, backslash, angle bracket,
    colon, double quote, bar, question mark or star, and the name ends with
    a point followed by an extension without point that is, in lower case,
    one of pdf, png, jpg and jpeg. *)
Theorem accepted_name_is_safe (f : file) :
  ascii_name f = true ->
  fst (validate_file_comprehensive f) = true ->
  exists name stem ext,
    filename f = Some name /\
    (0 < String.length name <= 255)%nat /\
    Forall (fun c => ~ In c forbidden) (list_ascii_of_string name) /\
    contains ".." name = false /\
    name = stem +:+ "." +:+ ext /\ contains "." ext = false /\
    In (lower ext) ALLOWED_EXTENSIONS.
Proof.
  intros _. unfold validate_file_comprehensive.
  destruct (filename f) as [name|]; [|discriminate].
  destruct (String.eqb_spec name "") as [->|Hne]; [discriminate|].
  destruct (255 <? String.length name)%nat eqn:Elen; [discriminate|].
  destruct (existsb _ suspicious_chars) eqn:Esus; [discriminate|].
  destruct (contains "." name) eqn:Epoint; cbn [negb]; [|discriminate].
  destruct (existsb (String.eqb (lower (after_last_point name))) ALLOWED_EXTENSIONS)
    eqn:Eext; cbn [negb]; [|discriminate].
  intros _.
  destruct (after_last_point_split name Epoint) as (stem & Hname & Hext).
  exists name, stem, (after_last_point name).
  split; [reflexivity|]. split.
  { apply Nat.ltb_ge in Elen. destruct name; [congruence|]. simpl in *. lia. }
  assert (Hnone : forall x, In x suspicious_chars -> contains x name = false).
  { intros x Hx. destruct (contains x name) eqn:E; [|reflexivity].
    assert (Hsome : existsb (fun char => contains char name) suspicious_chars = true)
      by (apply existsb_exists; eauto).
    congruence. }
  split.
  { apply Forall_forall. intros c Hc Hbad.
    apply list_elem_of_In, contains_char in Hc.
    assert (Hin : In (String c EmptyString) suspicious_chars).
    { simpl in Hbad. simpl.
      repeat (destruct Hbad as [<-|Hbad]; [tauto|]). destruct Hbad. }
    rewrite (Hnone _ Hin) in Hc. discriminate. }
  split; [apply Hnone; now left|].
  split; [exact Hname|]. split; [exact Hext|].
  apply existsb_exists in Eext as (x & Hx & Heq).
  apply String.eqb_eq in Heq as ->. exact Hx.
Qed.

(** X30: an accepted file that states a content length states at most
    16 MiB, and at most 10 MiB unless its content type is
    application/pdf: every accepted content type has its own limit, so the
    default of the lookup is never used. *)
Theorem accepted_size_is_within_limit (f : file) (n : Z) :
  fst (validate_file_comprehensive f) = true ->
  content_length f = Some n ->
  snd (validate_file_comprehensive f) = ValidFile /\
  (n <= 16 * mebibyte)%Z /\
  (content_type f <> Some "application/pdf"%string -> n <= 10 * mebibyte)%Z.
Proof.
  unfold validate_file_comprehensive. intros Hok Hn. rewrite Hn in *.
  destruct (filename f) as [name|]; [|discriminate].
  destruct (String.eqb name ""); [discriminate|].
  destruct (255 <? String.length name)%nat; [discriminate|].
  destruct (existsb _ suspicious_chars); [discriminate|].
  destruct (contains "." name); cbn [negb] in *; [|discriminate].
  destruct (existsb _ ALLOWED_EXTENSIONS); cbn [negb] in *; [|discriminate].
  destruct (content_type f) as [t|]; cbn [negb] in *; [|discriminate].
  destruct (existsb (String.eqb t) ALLOWED_MIME_TYPES) eqn:Et; cbn [negb] in *;
    [|discriminate].
  apply existsb_exists in Et as (x & Hx & Heq). apply String.eqb_eq in Heq as <-.
  destruct (n =? 0)%Z eqn:E0; cbn [negb] in *.
  { apply Z.eqb_eq in E0 as ->. split; [reflexivity|]. unfold mebibyte. lia. }
  simpl in Hx.
  destruct Hx as [<-|[<-|[<-|[<-|[]]]]];
    match type of Hok with
    | context [(?limit <? n)%Z] =>
        let v := eval vm_compute in limit in change limit with v in *
    end;
    match goal with
    | |- context [(?limit <? n)%Z] => destruct (limit <? n)%Z eqn:El
    end;
    try discriminate; apply Z.ltb_ge in El;
    (split; [reflexivity|]); unfold mebibyte; split; try lia; intros Hpdf;
    try lia; congruence.
Qed.

Lemma accepted_name_is_safe_witness :
  fst (validate_file_comprehensive (upload "W2.Form.PDF" "application/pdf" 2048)) = true /\
  exists name stem ext,
    filename (upload "W2.Form.PDF" "application/pdf" 2048) = Some name /\
    (0 < String.length name <= 255)%nat /\
    Forall (fun c => ~ In c forbidden) (list_ascii_of_string name) /\
    contains ".." name = false /\
    name = stem +:+ "." +:+ ext /\ contains "." ext = false /\
    In (lower ext) ALLOWED_EXTENSIONS.
Proof.
  split; [vm_compute; reflexivity|].
  apply (accepted_name_is_safe (upload "W2.Form.PDF" "application/pdf" 2048));
    vm_compute; reflexivity.
Defined.

Lemma accepted_size_is_within_limit_witness :
  snd (validate_file_comprehensive (upload "scan.png" "image/png" 10485760)) = ValidFile /\
  (10485760 <= 16 * mebibyte)%Z /\
  (Some "image/png"%string <> Some "application/pdf"%string ->
   10485760 <= 10 * mebibyte)%Z.
Proof.
  apply (accepted_size_is_within_limit (upload "scan.png" "image/png" 10485760));
    [vm_compute; reflexivity | reflexivity].
Defined.

End FileValidationFacts.
